(** * A shallow embedding of [app.py], the personal news aggregator.

    The development follows the backend functions of the script:
    [fetch_feeds] (aggregation, timestamp normalisation, image
    resolution, final sort), the recency filter applied to its result
    and [summarize_with_gemini].

    Modelling conventions.
    - A Python [str] is the list of its Unicode code points, so that
      [len], slicing and [startswith] are the list operations.
    - A dictionary key that may be missing is an [option] field;
      [d.get(k)] is the field ([None] for a missing key as for a key
      bound to [None]), [k in d] is [Some _].
    - Exceptions are values of type [exn]; a computation that may raise
      returns a sum, and the state a [try] block has already written is
      kept when the exception is caught.
    - The outside world (clock, feed parser, HTML parser, model
      backend) is a record of functions the code is parameterised by.
    - The result caches of the decorators are not modelled: a call is
      one execution of the body. *)

From Stdlib Require Import String Ascii DecimalString.
From Stdlib Require Import ZArith NArith List Bool Lia.
From Stdlib Require Import Sorting.Sorted Sorting.Permutation.
Import ListNotations.

Local Open Scope Z_scope.

(* ------------------------------------------------------------------ *)
(** ** Python strings *)

Module Py.

(** A Python string: its code points. *)
Definition str := list N.

(** Decoding of the UTF-8 bytes of a source literal into code points. *)
Fixpoint utf8_decode (bs : list N) : str :=
  match bs with
  | [] => []
  | b :: r =>
      if (b <? 128)%N then b :: utf8_decode r
      else if (b <? 224)%N then
        match r with
        | b1 :: r1 => ((b mod 32) * 64 + b1 mod 64)%N :: utf8_decode r1
        | [] => []
        end
      else if (b <? 240)%N then
        match r with
        | b1 :: b2 :: r2 =>
            ((b mod 16) * 4096 + (b1 mod 64) * 64 + b2 mod 64)%N
            :: utf8_decode r2
        | _ => []
        end
      else
        match r with
        | b1 :: b2 :: b3 :: r3 =>
            ((b mod 8) * 262144 + (b1 mod 64) * 4096
             + (b2 mod 64) * 64 + b3 mod 64)%N :: utf8_decode r3
        | _ => []
        end
  end.

(** A literal of the source, written as in the source. *)
Definition lit (s : string) : str :=
  utf8_decode (map N_of_ascii (list_ascii_of_string s)).

(** [bool(s)] for a string: non-empty. *)
Definition nonempty (s : str) : bool :=
  match s with [] => false | _ :: _ => true end.

(** [bool(v)] for a value that is [None] or a string. *)
Definition truthy (v : option str) : bool :=
  match v with Some s => nonempty s | None => false end.

(** [a or b] on values that are [None] or a string. *)
Definition or_else (a b : option str) : option str :=
  if truthy a then a else b.

Definition str_eqb (a b : str) : bool :=
  if list_eq_dec N.eq_dec a b then true else false.

(** [s.startswith(p)]. *)
Fixpoint startswith (p s : str) : bool :=
  match p, s with
  | [], _ => true
  | _ :: _, [] => false
  | a :: p', b :: s' => (a =? b)%N && startswith p' s'
  end.

(** [c.isspace()] for one character: the Unicode white space set. *)
Definition isspace (c : N) : bool :=
  ((9 <=? c) && (c <=? 13) || (28 <=? c) && (c <=? 32)
   || (c =? 133) || (c =? 160) || (c =? 5760)
   || (8192 <=? c) && (c <=? 8202)
   || (c =? 8232) || (c =? 8233) || (c =? 8239) || (c =? 8287)
   || (c =? 12288))%N.

Fixpoint lstrip (s : str) : str :=
  match s with
  | c :: r => if isspace c then lstrip r else s
  | [] => []
  end.

(** [s.strip()]. *)
Definition strip (s : str) : str := rev (lstrip (rev (lstrip s))).

(** [sep.join(parts)]. *)
Fixpoint join (sep : str) (parts : list str) : str :=
  match parts with
  | [] => []
  | [p] => p
  | p :: rest => p ++ sep ++ join sep rest
  end.

(** [s[:n]]. *)
Definition slice_to (n : N) (s : str) : str := firstn (N.to_nat n) s.

(** The decimal digits of [n] on exactly [w] positions ([%0wd] for a
    number that fits). *)
Fixpoint digits (w : nat) (n : N) : str :=
  match w with
  | O => []
  | S w' => digits w' (n / 10)%N ++ [(48 + n mod 10)%N]
  end.

End Py.

Abbreviation pystr := Py.str.

(* ------------------------------------------------------------------ *)
(** ** Exceptions *)

(** The fields the [datetime] constructor validates. *)
Inductive datetime_field :=
| FYear | FMonth | FDay | FHour | FMinute | FSecond.

(** What the code can see raised inside its [try] blocks: the
    [ValueError] of the [datetime] constructor (with the offending field)
    and any exception of a collaborator, carried with its [str]. *)
Inductive exn :=
| ValueError (field : datetime_field) (value : Z)
| Raised (message : pystr).

(* ------------------------------------------------------------------ *)
(** ** [time.struct_time] and naive [datetime.datetime] *)

Record struct_time := mk_struct_time {
  tm_year : Z; tm_mon : Z; tm_mday : Z;
  tm_hour : Z; tm_min : Z; tm_sec : Z;
  tm_wday : Z; tm_yday : Z; tm_isdst : Z }.

Record datetime := mk_datetime {
  year : Z; month : Z; day : Z;
  hour : Z; minute : Z; second : Z; microsecond : Z }.

(** The calendar arithmetic is that of the [datetime] module: leap years,
    days in a month, and the ordinal of a date counted from the first of
    January of year 1. *)
Module Datetime.

Definition is_leap (y : Z) : bool :=
  (y mod 4 =? 0) && (negb (y mod 100 =? 0) || (y mod 400 =? 0)).

Definition DAYS_IN_MONTH : list Z :=
  [-1; 31; 28; 31; 30; 31; 30; 31; 31; 30; 31; 30; 31].

Definition DAYS_BEFORE_MONTH : list Z :=
  [-1; 0; 31; 59; 90; 120; 151; 181; 212; 243; 273; 304; 334].

Definition days_in_month (y m : Z) : Z :=
  if (m =? 2) && is_leap y then 29
  else nth (Z.to_nat m) DAYS_IN_MONTH 0.

Definition days_before_year (y : Z) : Z :=
  let y1 := y - 1 in y1 * 365 + y1 / 4 - y1 / 100 + y1 / 400.

Definition days_before_month (y m : Z) : Z :=
  nth (Z.to_nat m) DAYS_BEFORE_MONTH 0
  + (if (2 <? m) && is_leap y then 1 else 0).

Definition ymd2ord (y m d : Z) : Z :=
  days_before_year y + days_before_month y m + d.

(** [lo <= v <= hi]. *)
Definition in_range (lo v hi : Z) : bool := (lo <=? v) && (v <=? hi).

(** [datetime(y, mo, d, h, mi, s)]: the constructor checks the date
    fields, then the time fields, and raises [ValueError] at the first
    one out of range; the microsecond defaults to 0. *)
Definition new (y mo d h mi s : Z) : exn + datetime :=
  if negb (in_range 1 y 9999) then inl (ValueError FYear y)
  else if negb (in_range 1 mo 12) then inl (ValueError FMonth mo)
  else if negb (in_range 1 d (days_in_month y mo)) then
    inl (ValueError FDay d)
  else if negb (in_range 0 h 23) then inl (ValueError FHour h)
  else if negb (in_range 0 mi 59) then inl (ValueError FMinute mi)
  else if negb (in_range 0 s 59) then inl (ValueError FSecond s)
  else inr (mk_datetime y mo d h mi s 0).

(** The call [datetime] makes on the first six fields of [t]. *)
Definition of_struct_time (t : struct_time) : exn + datetime :=
  new (tm_year t) (tm_mon t) (tm_mday t) (tm_hour t) (tm_min t) (tm_sec t).

(** The six fields of [t] are ones the constructor accepts. *)
Definition valid (t : struct_time) : bool :=
  in_range 1 (tm_year t) 9999
  && in_range 1 (tm_mon t) 12
  && in_range 1 (tm_mday t) (days_in_month (tm_year t) (tm_mon t))
  && in_range 0 (tm_hour t) 23
  && in_range 0 (tm_min t) 59
  && in_range 0 (tm_sec t) 59.

(** The datetime of the six fields of [t], microsecond 0. *)
Definition made (t : struct_time) : datetime :=
  mk_datetime (tm_year t) (tm_mon t) (tm_mday t)
    (tm_hour t) (tm_min t) (tm_sec t) 0.

(** The fields Python compares, most significant first. *)
Definition fields (d : datetime) : list Z :=
  [year d; month d; day d; hour d; minute d; second d; microsecond d].

Fixpoint lex (a b : list Z) : comparison :=
  match a, b with
  | [], [] => Eq
  | [], _ :: _ => Lt
  | _ :: _, [] => Gt
  | x :: a', y :: b' =>
      match x ?= y with Eq => lex a' b' | c => c end
  end.

(** Comparison of two naive datetimes. *)
Definition cmp (a b : datetime) : comparison := lex (fields a) (fields b).

(** [a < b]. *)
Definition ltb (a b : datetime) : bool :=
  match cmp a b with Lt => true | _ => false end.

(** [a == b]. *)
Definition eqb (a b : datetime) : bool :=
  match cmp a b with Eq => true | _ => false end.

(** [a <= b]. *)
Definition leb (a b : datetime) : bool := negb (ltb b a).

(** [d.toordinal()]. *)
Definition toordinal (d : datetime) : Z := ymd2ord (year d) (month d) (day d).

(** [(a - b)] in microseconds: the [timedelta] of the difference of the
    ordinals, of the seconds in the day and of the microseconds.
    [total_seconds()] is this number divided by [10**6]. *)
Definition sub_microseconds (a b : datetime) : Z :=
  let secs x := second x + minute x * 60 + hour x * 3600 in
  ((toordinal a - toordinal b) * 86400 + (secs a - secs b)) * 1000000
  + (microsecond a - microsecond b).

(** [str(d)]: ISO format with a space, the fraction printed only when the
    microsecond is not 0. *)
Definition to_str (d : datetime) : pystr :=
  let n w v := Py.digits w (Z.to_N v) in
  n 4%nat (year d) ++ Py.lit "-" ++ n 2%nat (month d) ++ Py.lit "-"
  ++ n 2%nat (day d) ++ Py.lit " " ++ n 2%nat (hour d) ++ Py.lit ":"
  ++ n 2%nat (minute d) ++ Py.lit ":" ++ n 2%nat (second d)
  ++ (if microsecond d =? 0 then []
      else Py.lit "." ++ n 6%nat (microsecond d)).

End Datetime.

(* ------------------------------------------------------------------ *)
(** ** Feed entries, as the feed parser exposes them *)

(** One [media_content] descriptor: keys [medium], [type], [url]. *)
Record Media := mk_media {
  media_medium : option pystr;
  media_type : option pystr;
  media_url : option pystr }.

(** One [media_thumbnail] descriptor: key [url]. *)
Record Thumbnail := mk_thumbnail { thumbnail_url : option pystr }.

(** One enclosure or link descriptor: keys [type], [href]. *)
Record Link := mk_link {
  link_type : option pystr;
  link_href : option pystr }.

(** One content variant: attribute [value]. *)
Record Content := mk_content { content_value : pystr }.

Module RawEntry.
Record t := mk {
  title : option pystr;
  link : option pystr;
  published : option pystr;
  updated : option pystr;
  published_parsed : option struct_time;
  updated_parsed : option struct_time;
  media_content : option (list Media);
  media_thumbnail : option (list Thumbnail);
  enclosures : option (list Link);
  links : option (list Link);
  summary : option pystr;
  content : option (list Content) }.

(** An entry with no key at all. *)
Definition empty : t :=
  mk None None None None None None None None None None None None.
End RawEntry.

(** The result of [feedparser.parse(url)]: [feed.feed.get('title')] and
    [feed.entries]. *)
Record ParsedFeed := mk_feed {
  feed_title : option pystr;
  entries : list RawEntry.t }.

(** An element of a parsed HTML document: its name and its attributes. *)
Record Tag := mk_tag {
  tag_name : pystr;
  tag_attrs : list (pystr * pystr) }.

(** [tag.get(key)]. *)
Fixpoint tag_get (key : pystr) (attrs : list (pystr * pystr))
  : option pystr :=
  match attrs with
  | [] => None
  | (k, v) :: r => if Py.str_eqb k key then Some v else tag_get key r
  end.

(** [soup.find(name)] on the elements of a document in document order:
    the first element of that name. *)
Definition soup_find (name : pystr) (doc : list Tag) : option Tag :=
  find (fun t => Py.str_eqb (tag_name t) name) doc.

Module NewsItem.
Record t := mk {
  title : pystr;
  link : pystr;
  source : pystr;
  published : datetime;
  raw_date : pystr;
  has_time : bool;
  summary_rss : pystr;
  image : option pystr }.
End NewsItem.

(* ------------------------------------------------------------------ *)
(** ** The collaborators of one aggregation call *)

Record World := mk_world {
  (** [datetime.utcnow()] at the [n]-th clock read of the call. *)
  utcnow : nat -> datetime;
  (** [datetime.now()] at the [n]-th clock read of the call. *)
  now : nat -> datetime;
  (** [feedparser.parse(url)]: a parsed feed, or an exception. *)
  feedparser_parse : pystr -> exn + ParsedFeed;
  (** [BeautifulSoup(html, 'html.parser')]: the elements of the document
      in document order, or an exception. *)
  BeautifulSoup : pystr -> exn + list Tag }.

(* ------------------------------------------------------------------ *)
(** ** Image resolution (the five numbered blocks of [fetch_feeds]) *)

Section ImageResolution.

Variable soup : pystr -> exn + list Tag.

(** [d.get('type', '').startswith('image/')]. *)
Definition type_is_image (ty : option pystr) : bool :=
  Py.startswith (Py.lit "image/")
    (match ty with Some s => s | None => [] end).

(** The test of block 1. *)
Definition media_is_image (m : Media) : bool :=
  match media_medium m with
  | Some s => Py.str_eqb s (Py.lit "image")
  | None => false
  end || type_is_image (media_type m).

Definition link_is_image (l : Link) : bool := type_is_image (link_type l).

(** Block 1: the loop breaks at the first descriptor passing the test and
    assigns its [url], whatever it is. *)
Definition media_content_step (e : RawEntry.t) (image_url : option pystr)
  : option pystr :=
  match RawEntry.media_content e with
  | Some ms =>
      match find media_is_image ms with
      | Some m => media_url m
      | None => image_url
      end
  | None => image_url
  end.

(** Block 2. *)
Definition media_thumbnail_step (e : RawEntry.t) (image_url : option pystr)
  : option pystr :=
  if Py.truthy image_url then image_url
  else match RawEntry.media_thumbnail e with
       | Some (th :: _) => thumbnail_url th
       | _ => image_url
       end.

(** The loop shared by blocks 3 and 4. *)
Definition first_image_href (ls : option (list Link))
  (image_url : option pystr) : option pystr :=
  if Py.truthy image_url then image_url
  else match ls with
       | Some l =>
           match find link_is_image l with
           | Some x => link_href x
           | None => image_url
           end
       | None => image_url
       end.

(** Block 3. *)
Definition enclosures_step (e : RawEntry.t) :=
  first_image_href (RawEntry.enclosures e).

(** Block 4. *)
Definition links_step (e : RawEntry.t) :=
  first_image_href (RawEntry.links e).

(** The text block 5 parses: the summary, then every content value. *)
Definition content_to_parse (e : RawEntry.t) : pystr :=
  (match RawEntry.summary e with Some s => s | None => [] end)
  ++ match RawEntry.content e with
     | Some cs => concat (map content_value cs)
     | None => []
     end.

(** The body of the inner [try]: the [src] of the first [img] element,
    assigned only when it is a non-empty string; an exception of the
    parser is swallowed. *)
Definition html_scan (html : pystr) (image_url : option pystr)
  : option pystr :=
  match soup html with
  | inr doc =>
      match soup_find (Py.lit "img") doc with
      | Some img_tag =>
          if Py.truthy (tag_get (Py.lit "src") (tag_attrs img_tag))
          then tag_get (Py.lit "src") (tag_attrs img_tag)
          else image_url
      | None => image_url
      end
  | inl _ => image_url
  end.

(** Block 5. *)
Definition html_step (e : RawEntry.t) (image_url : option pystr)
  : option pystr :=
  if Py.truthy image_url then image_url
  else if Py.nonempty (content_to_parse e)
       then html_scan (content_to_parse e) image_url
       else image_url.

(** The value of [image_url] when the item is appended. *)
Definition resolve_image (e : RawEntry.t) : option pystr :=
  html_step e
    (links_step e
       (enclosures_step e
          (media_thumbnail_step e
             (media_content_step e None)))).

End ImageResolution.

(* ------------------------------------------------------------------ *)
(** ** State and exceptions of one aggregation call *)

(** What the statements of [fetch_feeds] read and write: the list
    [all_news] and the number of clock reads made so far. *)
Record Run := mk_run {
  all_news : list NewsItem.t;
  clock_reads : nat }.

(** A statement that reads and writes the run and may raise. What was
    written before the exception stays written. *)
Definition M (A : Type) : Type := Run -> (exn + A) * Run.

Definition ret {A} (a : A) : M A := fun s => (inr a, s).

Definition bind {A B} (m : M A) (f : A -> M B) : M B :=
  fun s =>
    match m s with
    | (inr a, s') => f a s'
    | (inl e, s') => (inl e, s')
    end.

Notation "x <- m ;; k" := (bind m (fun x => k))
  (at level 61, m at next level, right associativity).

(** A pure computation that may raise. *)
Definition lift {A} (r : exn + A) : M A := fun s => (r, s).

(** One read of the clock. *)
Definition read_clock (clock : nat -> datetime) : M datetime :=
  fun s =>
    (inr (clock (clock_reads s)), mk_run (all_news s) (S (clock_reads s))).

(** [all_news.append(item)]. *)
Definition append (item : NewsItem.t) : M unit :=
  fun s => (inr tt, mk_run (all_news s ++ [item]) (clock_reads s)).

(** A [for] loop: the first exception leaves it. *)
Fixpoint for_each {A} (body : A -> M unit) (l : list A) : M unit :=
  match l with
  | [] => ret tt
  | x :: r => _ <- body x ;; for_each body r
  end.

(** One call of [st.error] in the handler of a feed: the URL and the
    exception its message is formatted from. *)
Definition report : Type := pystr * exn.

(** [try: body except Exception as e: st.error(...)]: the run after the
    statement and the calls of [st.error] it made. *)
Definition try_except (url : pystr) (body : M unit) (s : Run)
  : Run * list report :=
  match body s with
  | (inr _, s') => (s', [])
  | (inl e, s') => (s', [(url, e)])
  end.

(* ------------------------------------------------------------------ *)
(** ** [fetch_feeds] *)

Section FetchFeeds.

Variable w : World.

(** [entry.get('published') or entry.get('updated') or
    str(datetime.now())]: the clock is read only when both strings are
    missing or empty. *)
Definition raw_published (e : RawEntry.t) : M pystr :=
  match Py.or_else (RawEntry.published e) (RawEntry.updated e) with
  | Some (c :: s) => ret (c :: s)
  | _ => d <- read_clock (now w) ;; ret (Datetime.to_str d)
  end.

(** [entry.get('published_parsed') or entry.get('updated_parsed')]; a
    [struct_time] is never false. *)
Definition published_parsed (e : RawEntry.t) : option struct_time :=
  match RawEntry.published_parsed e with
  | Some t => Some t
  | None => RawEntry.updated_parsed e
  end.

(** The pair [(dt, has_time)]. *)
Definition timestamp (fixed_now : datetime) (e : RawEntry.t)
  : M (datetime * bool) :=
  match published_parsed e with
  | Some t => dt <- lift (Datetime.of_struct_time t) ;; ret (dt, true)
  | None => ret (fixed_now, false)
  end.

Definition get_default (v : option pystr) (default : pystr) : pystr :=
  match v with Some s => s | None => default end.

(** The dictionary appended for an entry. *)
Definition news_item (feed_title : pystr) (e : RawEntry.t)
  (dt : datetime) (raw : pystr) (has_time : bool) : NewsItem.t :=
  NewsItem.mk
    (get_default (RawEntry.title e) (Py.lit "Sem Título"))
    (get_default (RawEntry.link e) [])
    feed_title
    dt
    raw
    has_time
    (get_default (RawEntry.summary e) [])
    (resolve_image (BeautifulSoup w) e).

(** The body of the loop over [feed.entries]. *)
Definition process_entry (fixed_now : datetime) (feed_title : pystr)
  (e : RawEntry.t) : M unit :=
  raw <- raw_published e ;;
  t <- timestamp fixed_now e ;;
  append (news_item feed_title e (fst t) raw (snd t)).

(** The body of the [try] of one URL. *)
Definition process_feed (fixed_now : datetime) (url : pystr) : M unit :=
  feed <- lift (feedparser_parse w url) ;;
  let title := get_default (feed_title feed) url in
  for_each (process_entry fixed_now title) (entries feed).

(** The body of the loop over [urls]. *)
Definition process_url (fixed_now : datetime) (url : pystr) (s : Run)
  : Run * list report :=
  if negb (Py.nonempty (Py.strip url)) then (s, [])
  else try_except url (process_feed fixed_now url) s.

(** The loop over [urls]: the run after it and the calls of [st.error]
    made, oldest first. *)
Fixpoint process_urls (fixed_now : datetime) (urls : list pystr) (s : Run)
  : Run * list report :=
  match urls with
  | [] => (s, [])
  | url :: rest =>
      let (s1, r1) := process_url fixed_now url s in
      let (s2, r2) := process_urls fixed_now rest s1 in
      (s2, r1 ++ r2)
  end.

(** The key of the final sort. *)
Definition sort_key (x : NewsItem.t) : datetime := NewsItem.published x.

(** [list.sort(key=..., reverse=True)] is a stable sort: the list comes
    out in descending key order and elements of equal key keep their
    order. There is one such arrangement of a list; it is computed here
    by insertion from the right. *)
Fixpoint insert_desc (x : NewsItem.t) (l : list NewsItem.t)
  : list NewsItem.t :=
  match l with
  | [] => [x]
  | y :: r =>
      if Datetime.ltb (sort_key x) (sort_key y)
      then y :: insert_desc x r
      else x :: y :: r
  end.

Definition sort_reverse (l : list NewsItem.t) : list NewsItem.t :=
  fold_right insert_desc [] l.

(** The entries the loop meets for a URL: none for a blank URL or a
    failed parse. *)
Definition entries_of (url : pystr) : list RawEntry.t :=
  if negb (Py.nonempty (Py.strip url)) then []
  else match feedparser_parse w url with
       | inr feed => entries feed
       | inl _ => []
       end.

(** The snapshot: the first clock read of the call. *)
Definition fixed_now : datetime := utcnow w 0.

(** The call up to the sort: [all_news] starts empty, the snapshot has
    used the first clock read, and the loop runs over [urls]. The result
    holds [all_news] in the order of appending. *)
Definition collect (urls : list pystr) : Run * list report :=
  process_urls fixed_now urls (mk_run [] 1).

(** The list before the sort, in source-encounter order. *)
Definition appended (urls : list pystr) : list NewsItem.t :=
  all_news (fst (collect urls)).

(** The returned list. *)
Definition fetch_feeds (urls : list pystr) : list NewsItem.t :=
  sort_reverse (appended urls).

(** The calls of [st.error] made by the call. *)
Definition fetch_feeds_errors (urls : list pystr) : list report :=
  snd (collect urls).

End FetchFeeds.

(* ------------------------------------------------------------------ *)
(** ** The recency filter of the page *)

(** [0 <= (now_utc - item['published']).total_seconds() <= window].
    [total_seconds()] is the whole number of microseconds divided by
    [10**6] and rounded to the nearest float; the bounds are whole numbers
    of seconds that floats represent exactly, so both comparisons are
    decided by the whole number of microseconds. *)
Definition within_window (now_utc : datetime) (window : Z)
  (item : NewsItem.t) : bool :=
  let us := Datetime.sub_microseconds now_utc (NewsItem.published item) in
  (0 <=? us) && (us <=? window * 1000000).

(** The list comprehension, for a window in seconds. *)
Definition recency_filter (now_utc : datetime) (window : Z)
  (news_items : list NewsItem.t) : list NewsItem.t :=
  filter (within_window now_utc window) news_items.

(** The filter as the page applies it: the last two hours. *)
Definition news_items (now_utc : datetime) (fetched : list NewsItem.t)
  : list NewsItem.t :=
  recency_filter now_utc 7200 fetched.

(* ------------------------------------------------------------------ *)
(** ** [summarize_with_gemini] *)

(** The calls made on the model library: the keys passed to
    [genai.configure] and the [(model, prompt)] pairs submitted, oldest
    first. *)
Record Genai := mk_genai {
  configured : list pystr;
  requests : list (pystr * pystr) }.

Section Summarize.

(** One attempt: [GenerativeModel(model).generate_content(prompt).text]
    under the configured key. It gives the text, or raises an exception,
    given here by its [str]. *)
Variable backend : pystr -> pystr -> pystr -> pystr + pystr.

Definition nl : pystr := [10%N].

Definition short_content_warning : pystr :=
  Py.lit "⚠️ Conteúdo muito curto ou indisponível para resumo.".

Definition models_to_try : list pystr :=
  [ Py.lit "gemini-2.5-flash";
    Py.lit "gemini-2.0-flash";
    Py.lit "gemini-flash-latest";
    Py.lit "gemini-2.5-pro";
    Py.lit "gemini-pro-latest" ].

(** The f-string of the prompt, line by line. *)
Definition prompt (text : pystr) : pystr :=
  nl
  ++ Py.lit "    Você é um assistente especialista em resumos de notícias."
  ++ nl
  ++ Py.lit "    Analise o texto abaixo e gere um resumo curto, neutro e informativo, em um único parágrafo fluido."
  ++ nl
  ++ Py.lit "    Mantenha um tom jornalístico e objetivo, similar ao da notícia original."
  ++ nl
  ++ Py.lit "    " ++ nl
  ++ Py.lit "    Texto da notícia:" ++ nl
  ++ Py.lit "    " ++ Py.slice_to 8000 text
  ++ Py.lit "  # Limita tamanho para evitar tokens excessivos" ++ nl
  ++ Py.lit "    ".

(** The message returned when every model failed. *)
Definition failure_message (errors : list pystr) : pystr :=
  Py.lit "❌ Falha ao gerar resumo. Erros:" ++ nl ++ Py.join nl errors.

(** The line appended to [errors] for one failed model. *)
Definition error_line (model_name e : pystr) : pystr :=
  model_name ++ Py.lit ": " ++ e.

(** The loop over [models_to_try], from the models still to try and the
    [errors] so far. *)
Fixpoint try_models (api_key p : pystr) (models errors : list pystr)
  (g : Genai) : pystr * Genai :=
  match models with
  | [] => (failure_message errors, g)
  | model_name :: rest =>
      let g' := mk_genai (configured g) (requests g ++ [(model_name, p)]) in
      match backend api_key model_name p with
      | inr text => (text, g')
      | inl e =>
          try_models api_key p rest (errors ++ [error_line model_name e]) g'
      end
  end.

(** [text] is [None] or a string. *)
Definition summarize_with_gemini (text : option pystr) (api_key : pystr)
  (g : Genai) : pystr * Genai :=
  match text with
  | None => (short_content_warning, g)
  | Some t =>
      if negb (Py.nonempty t) || (Z.of_nat (length t) <? 100)
      then (short_content_warning, g)
      else
        let g1 := mk_genai (configured g ++ [api_key]) (requests g) in
        try_models api_key (prompt t) models_to_try [] g1
  end.

End Summarize.

(* ------------------------------------------------------------------ *)
(** ** A scanner for start tags

    The theorems below hold for every HTML parser. To run the resolver on
    a concrete text the examples use this scanner, which reads the start
    tags of plain markup (no comments, scripts or character references)
    the way [html.parser] does: names in lower case, attribute values
    quoted or bare, a missing value read as the empty string, and the
    last of two attributes of the same name kept. A [<] followed by a
    letter opens a start tag; followed by [/], [!] or [?] it opens an end
    tag or a declaration, passed over up to the next [>]; any other [<]
    is text. *)

Module HtmlScanner.

Definition attrs := list (pystr * pystr).

Inductive state :=
| InText
| TagOpen
| InName (name : pystr)
| InAttrs (name : pystr) (a : attrs)
| InAttrName (name : pystr) (a : attrs) (key : pystr)
| AfterAttrName (name : pystr) (a : attrs) (key : pystr)
| BeforeValue (name : pystr) (a : attrs) (key : pystr)
| InQuoted (name : pystr) (a : attrs) (key : pystr) (q : N) (v : pystr)
| InUnquoted (name : pystr) (a : attrs) (key : pystr) (v : pystr)
| Skip.

Definition is_alpha (c : N) : bool :=
  ((65 <=? c) && (c <=? 90) || (97 <=? c) && (c <=? 122))%N.

Definition is_space (c : N) : bool :=
  ((c =? 32) || (9 <=? c) && (c <=? 10) || (12 <=? c) && (c <=? 13))%N.

Definition lower (c : N) : N :=
  if ((65 <=? c) && (c <=? 90))%N then (c + 32)%N else c.

Definition gt : N := 62%N.
Definition lt : N := 60%N.
Definition slash : N := 47%N.
Definition equals : N := 61%N.
Definition dquote : N := 34%N.
Definition squote : N := 39%N.
Definition bang : N := 33%N.
Definition question : N := 63%N.

(** One character: the next state and the element a closing [>] ends. *)
Definition step (st : state) (c : N) : state * option Tag :=
  match st with
  | InText => (if (c =? lt)%N then TagOpen else InText, None)
  | TagOpen =>
      (if is_alpha c then InName [lower c]
       else if (c =? slash)%N || (c =? bang)%N || (c =? question)%N then Skip
       else if (c =? lt)%N then TagOpen
       else InText, None)
  | Skip => (if (c =? gt)%N then InText else Skip, None)
  | InName n =>
      if (c =? gt)%N then (InText, Some (mk_tag n []))
      else if is_space c || (c =? slash)%N then (InAttrs n [], None)
      else (InName (n ++ [lower c]), None)
  | InAttrs n a =>
      if (c =? gt)%N then (InText, Some (mk_tag n a))
      else if is_space c || (c =? slash)%N then (InAttrs n a, None)
      else (InAttrName n a [lower c], None)
  | InAttrName n a k =>
      if (c =? gt)%N then (InText, Some (mk_tag n ((k, []) :: a)))
      else if (c =? equals)%N then (BeforeValue n a k, None)
      else if is_space c then (AfterAttrName n a k, None)
      else (InAttrName n a (k ++ [lower c]), None)
  | AfterAttrName n a k =>
      if (c =? gt)%N then (InText, Some (mk_tag n ((k, []) :: a)))
      else if (c =? equals)%N then (BeforeValue n a k, None)
      else if is_space c then (AfterAttrName n a k, None)
      else (InAttrName n ((k, []) :: a) [lower c], None)
  | BeforeValue n a k =>
      if (c =? gt)%N then (InText, Some (mk_tag n ((k, []) :: a)))
      else if is_space c then (BeforeValue n a k, None)
      else if (c =? dquote)%N || (c =? squote)%N
           then (InQuoted n a k c [], None)
      else (InUnquoted n a k [c], None)
  | InQuoted n a k q v =>
      if (c =? q)%N then (InAttrs n ((k, v) :: a), None)
      else (InQuoted n a k q (v ++ [c]), None)
  | InUnquoted n a k v =>
      if (c =? gt)%N then (InText, Some (mk_tag n ((k, v) :: a)))
      else if is_space c then (InAttrs n ((k, v) :: a), None)
      else (InUnquoted n a k (v ++ [c]), None)
  end.

Fixpoint scan (st : state) (s : pystr) : list Tag :=
  match s with
  | [] => []
  | c :: r =>
      match step st c with
      | (st', Some t) => t :: scan st' r
      | (st', None) => scan st' r
      end
  end.

(** The elements of a text, in document order; the scanner never raises. *)
Definition parse (html : pystr) : exn + list Tag := inr (scan InText html).

End HtmlScanner.

(** A double quote in a literal. *)
Definition q : pystr := [HtmlScanner.dquote].

(* ------------------------------------------------------------------ *)
(** ** The configured sources *)

(** [s.split(sep)] for a separator of one character: the pieces between
    the separators, one more than there are separators. *)
Fixpoint split_on (sep : N) (s : pystr) : list pystr :=
  match s with
  | [] => [[]]
  | c :: r =>
      if (c =? sep)%N then [] :: split_on sep r
      else match split_on sep r with
           | piece :: pieces => (c :: piece) :: pieces
           | [] => [[c]]
           end
  end.

(** The list [rss_urls]: the stripped non-blank lines of the secret
    [RSS_FEEDS], or nothing when the secret is missing. *)
Definition rss_urls (secret : option pystr) : list pystr :=
  match secret with
  | Some s =>
      map Py.strip
        (filter (fun url => Py.nonempty (Py.strip url)) (split_on 10 s))
  | None => []
  end.

(* ------------------------------------------------------------------ *)
(** ** More of the [datetime] module: dates from ordinals *)

Module Calendar.

Definition DI400Y : Z := Datetime.days_before_year 401.
Definition DI100Y : Z := Datetime.days_before_year 101.
Definition DI4Y : Z := Datetime.days_before_year 5.
Definition MAXORDINAL : Z := 3652059.

(** The end of [_ord2ymd]: the month and the day of the [n]-th day of a
    year, counted from 0, from an estimate of the month that is right or
    one too large. *)
Definition month_day (leapyear : bool) (n : Z) : Z * Z :=
  let month := Z.shiftr (n + 50) 5 in
  let preceding :=
    nth (Z.to_nat month) Datetime.DAYS_BEFORE_MONTH 0
    + (if (2 <? month) && leapyear then 1 else 0) in
  if n <? preceding then
    let month' := month - 1 in
    let preceding' :=
      preceding
      - (nth (Z.to_nat month') Datetime.DAYS_IN_MONTH 0
         + (if (month' =? 2) && leapyear then 1 else 0)) in
    (month', n - preceding' + 1)
  else (month, n - preceding + 1).

(** [_ord2ymd(n)]: the year, month and day of the ordinal [n], through
    the cycles of 400, 100 and 4 years. *)
Definition ord2ymd (ordinal : Z) : Z * Z * Z :=
  let n := ordinal - 1 in
  let n400 := n / DI400Y in
  let n := n mod DI400Y in
  let year := n400 * 400 + 1 in
  let n100 := n / DI100Y in
  let n := n mod DI100Y in
  let n4 := n / DI4Y in
  let n := n mod DI4Y in
  let n1 := n / 365 in
  let n := n mod 365 in
  let year := year + n100 * 100 + n4 * 4 + n1 in
  if (n1 =? 4) || (n100 =? 4) then (year - 1, 12, 31)
  else
    let leapyear := (n1 =? 3) && (negb (n4 =? 24) || (n100 =? 3)) in
    match month_day leapyear n with
    | (month, day) => (year, month, day)
    end.

(** [d.weekday()]: Monday is 0. *)
Definition weekday (d : datetime) : Z := (Datetime.toordinal d + 6) mod 7.

(** The microseconds from the start of ordinal 0 to [d]. *)
Definition microseconds_of (d : datetime) : Z :=
  ((Datetime.toordinal d * 86400
    + hour d * 3600 + minute d * 60 + second d) * 1000000)
  + microsecond d.

Definition out_of_range : exn := Raised (Py.lit "date value out of range").

(** [d + timedelta(microseconds=delta)]: the sum is normalised into days,
    seconds and microseconds; a day outside 1..[MAXORDINAL] raises
    [OverflowError]. *)
Definition add_microseconds (d : datetime) (delta : Z) : exn + datetime :=
  let total := microseconds_of d + delta in
  let days := total / 86400000000 in
  let rest := total mod 86400000000 in
  let seconds := rest / 1000000 in
  let us := rest mod 1000000 in
  let h := seconds / 3600 in
  let rem := seconds mod 3600 in
  if (0 <? days) && (days <=? MAXORDINAL) then
    match ord2ymd days with
    | (y, m, dd) => inr (mk_datetime y m dd h (rem / 60) (rem mod 60) us)
    end
  else inl out_of_range.

(** [d - timedelta(hours=h)]. *)
Definition sub_hours (d : datetime) (h : Z) : exn + datetime :=
  add_microseconds d (- (h * 3600 * 1000000)).

(** [d.strftime('%d/%m %H:%M')]. *)
Definition strftime_dm_HM (d : datetime) : pystr :=
  let n v := Py.digits 2 (Z.to_N v) in
  n (day d) ++ Py.lit "/" ++ n (month d) ++ Py.lit " "
  ++ n (hour d) ++ Py.lit ":" ++ n (minute d).

End Calendar.

(* ------------------------------------------------------------------ *)
(** ** The header of the page *)

(** [l[i]]: a negative index counts from the end; an index outside the
    list raises [IndexError]. *)
Definition py_index {A} (l : list A) (i : Z) : exn + A :=
  let len := Z.of_nat (length l) in
  let j := if i <? 0 then i + len else i in
  if (0 <=? j) && (j <? len) then
    match nth_error l (Z.to_nat j) with
    | Some x => inr x
    | None => inl (Raised (Py.lit "list index out of range"))
    end
  else inl (Raised (Py.lit "list index out of range")).

Definition days_pt : list pystr :=
  [ Py.lit "Segunda-feira"; Py.lit "Terça-feira"; Py.lit "Quarta-feira";
    Py.lit "Quinta-feira"; Py.lit "Sexta-feira"; Py.lit "Sábado";
    Py.lit "Domingo" ].

Definition months_pt : list pystr :=
  [ Py.lit "Janeiro"; Py.lit "Fevereiro"; Py.lit "Março"; Py.lit "Abril";
    Py.lit "Maio"; Py.lit "Junho"; Py.lit "Julho"; Py.lit "Agosto";
    Py.lit "Setembro"; Py.lit "Outubro"; Py.lit "Novembro";
    Py.lit "Dezembro" ].

(** [str(n)] for an integer. *)
Definition decimal (n : Z) : pystr :=
  Py.lit (DecimalString.NilZero.string_of_int (Z.to_int n)).

Section Header.

(** [str.upper], a function of the library. *)
Variable upper : pystr -> pystr.

(** The string [date_str] for the local time [now]. *)
Definition date_str (now : datetime) : exn + pystr :=
  match py_index days_pt (Calendar.weekday now) with
  | inl e => inl e
  | inr day_name =>
      match py_index months_pt (month now - 1) with
      | inl e => inl e
      | inr month_name =>
          inr (upper (day_name ++ Py.lit ", " ++ decimal (day now)
                      ++ Py.lit " DE " ++ month_name))
      end
  end.

End Header.

(* ------------------------------------------------------------------ *)
(** ** The cards of the page *)

(** The list the page renders: the filtered list cut at 20 items. *)
Definition rendered (now_utc : datetime) (fetched : list NewsItem.t)
  : list NewsItem.t :=
  firstn 20 (news_items now_utc fetched).

(** The string [display_str] of a card: the published time moved to
    Brazil for an item with a reliable time, else the raw date cut to 25
    characters and an ellipsis when it is longer than 30. *)
Definition display_str (item : NewsItem.t) : exn + pystr :=
  if NewsItem.has_time item then
    match Calendar.sub_hours (NewsItem.published item) 3 with
    | inr dt_brazil => inr (Calendar.strftime_dm_HM dt_brazil)
    | inl e => inl e
    end
  else
    let raw := NewsItem.raw_date item in
    inr (if (30 <? Z.of_nat (length raw))
         then Py.slice_to 25 raw ++ Py.lit "..."
         else raw).

(** [re.sub('<[^<]+?>', '', s)], read from left to right. [pending] is
    the text of a match in progress: a [<] and the characters after it,
    none of them a [<]. A [>] after at least one such character ends the
    match, which is dropped; a [<] or the end of the text gives the
    pending text back. *)
Fixpoint remove_tags (pending : option pystr) (s : pystr) : pystr :=
  match s with
  | [] => match pending with Some b => b | None => [] end
  | c :: r =>
      match pending with
      | None =>
          if (c =? 60)%N then remove_tags (Some [c]) r
          else c :: remove_tags None r
      | Some b =>
          if (c =? 60)%N then b ++ remove_tags (Some [c]) r
          else if (c =? 62)%N && (1 <? Z.of_nat (length b))
               then remove_tags None r
          else remove_tags (Some (b ++ [c])) r
      end
  end.

(** The preview of a card, shown when the item has a summary. *)
Definition clean_summary (item : NewsItem.t) : option pystr :=
  let summary_rss := NewsItem.summary_rss item in
  if Py.nonempty summary_rss
  then Some (Py.slice_to 200 (remove_tags None summary_rss) ++ Py.lit "...")
  else None.

(** What the article library gives for a URL after download and parse. *)
Record Article := mk_article {
  article_text : pystr;
  top_image : pystr }.

(** What the handler of the summary button shows. *)
Inductive message :=
| st_info (body : pystr)
| st_error (body : pystr).

Section Cards.

(** [Article(url)] downloaded and parsed: the article or an exception. *)
Variable newspaper : pystr -> exn + Article.

Variable backend : pystr -> pystr -> pystr -> pystr + pystr.


(** [get_article_image(url)], with the URLs downloaded so far. *)
Definition get_article_image (url : pystr) (net : list pystr)
  : option pystr * list pystr :=
  if negb (Py.nonempty url) then (None, net)
  else match newspaper url with
       | inr a =>
           if Py.nonempty (top_image a)
           then (Some (top_image a), net ++ [url])
           else (None, net ++ [url])
       | inl _ => (None, net ++ [url])
       end.

(** The value of [display_image] of a card. *)
Definition display_image (item : NewsItem.t) (net : list pystr)
  : option pystr * list pystr :=
  if Py.truthy (NewsItem.image item) then (NewsItem.image item, net)
  else get_article_image (NewsItem.link item) net.

(** The argument of [st.image], when the card calls it. *)
Definition st_image (item : NewsItem.t) (net : list pystr)
  : option pystr * list pystr :=
  match display_image item net with
  | (v, net') => (if Py.truthy v then v else None, net')
  end.


End Cards.

(* ------------------------------------------------------------------ *)
(** ** Vocabulary of the statements *)

(** [a] may stand before [b] in the returned list: [b] is not later. *)
Definition not_later (a b : NewsItem.t) : Prop :=
  Datetime.leb (NewsItem.published b) (NewsItem.published a) = true.

(** The items published at [d]. *)
Definition published_at (d : datetime) (l : list NewsItem.t)
  : list NewsItem.t :=
  filter (fun x => Datetime.eqb (NewsItem.published x) d) l.

(** The statement [m], run from [s], appends exactly the item [i] and
    does not raise. *)
Definition appends (m : M unit) (s : Run) (i : NewsItem.t) : Prop :=
  exists s', m s = (inr tt, s') /\ all_news s' = all_news s ++ [i].

(** The parsed date of the entry, if it has one, is one the [datetime]
    constructor accepts. *)
Definition entry_ok (e : RawEntry.t) : bool :=
  match published_parsed e with
  | Some t =>
      match Datetime.of_struct_time t with inr _ => true | inl _ => false end
  | None => true
  end.

(** The origin of an item: a listed URL whose feed was parsed, one of its
    entries, and the body of the loop appending the item for it. *)
Definition from_source (w : World) (fn : datetime) (urls : list pystr)
  (i : NewsItem.t) : Prop :=
  exists url feed e s0,
    In url urls
    /\ Py.nonempty (Py.strip url) = true
    /\ feedparser_parse w url = inr feed
    /\ In e (entries feed)
    /\ appends (process_entry w fn (get_default (feed_title feed) url) e)
         s0 i.

(** The parsed date [fetch_feeds] uses for [e] is [t]: the published one
    when the entry has it, else the updated one. *)
Definition parsed_date (e : RawEntry.t) (t : struct_time) : Prop :=
  RawEntry.published_parsed e = Some t
  \/ (RawEntry.published_parsed e = None
      /\ RawEntry.updated_parsed e = Some t).

(** [l'] is [l] with exactly the elements satisfying [P] kept, in the
    order and number in which they stand in [l]. *)
Inductive Kept {A : Type} (P : A -> Prop) : list A -> list A -> Prop :=
| Kept_nil : Kept P [] []
| Kept_take x l l' : P x -> Kept P l l' -> Kept P (x :: l) (x :: l')
| Kept_drop x l l' : ~ P x -> Kept P l l' -> Kept P (x :: l) l'.

(** The item was published no later than [now_utc] and at most [window]
    seconds before it. *)
Definition in_window (now_utc : datetime) (window : Z) (i : NewsItem.t)
  : Prop :=
  0 <= Datetime.sub_microseconds now_utc (NewsItem.published i)
    <= window * 1000000.

(** The strategy chain as the specification words it: five strategies
    tried in order, the first that locates a URL wins. *)
Module ImageSpec.

(** A strategy located a URL: it produced a string that is not empty. *)
Definition located (v : option pystr) : option pystr :=
  match v with
  | Some (c :: u) => Some (c :: u)
  | _ => None
  end.

(** The declared type starts with [image/]: its first six characters
    are these. A descriptor without a type has none. *)
Definition mime_is_image (ty : option pystr) : bool :=
  match ty with
  | Some s => Py.str_eqb (firstn 6 s) (Py.lit "image/")
  | None => false
  end.

(** 1. The URL of the first media-content descriptor whose medium is
    [image] or whose MIME type starts with [image/]. *)
Definition media_content_url (e : RawEntry.t) : option pystr :=
  match RawEntry.media_content e with
  | Some ms =>
      match
        find (fun m =>
                match media_medium m with
                | Some s => Py.str_eqb s (Py.lit "image")
                | None => false
                end || mime_is_image (media_type m)) ms
      with
      | Some m => media_url m
      | None => None
      end
  | None => None
  end.

(** 2. The URL of the first media-thumbnail descriptor. *)
Definition thumbnail (e : RawEntry.t) : option pystr :=
  match RawEntry.media_thumbnail e with
  | Some (th :: _) => thumbnail_url th
  | _ => None
  end.

Definition first_image_link (ls : option (list Link)) : option pystr :=
  match ls with
  | Some l =>
      match find (fun x => mime_is_image (link_type x)) l with
      | Some x => link_href x
      | None => None
      end
  | None => None
  end.

(** 3. The href of the first enclosure whose MIME type starts with
    [image/]. *)
Definition enclosure_href (e : RawEntry.t) : option pystr :=
  first_image_link (RawEntry.enclosures e).

(** 4. The href of the first link whose type starts with [image/]. *)
Definition link_href_of (e : RawEntry.t) : option pystr :=
  first_image_link (RawEntry.links e).

(** The summary text followed by the text bodies of the content
    variants, in order. *)
Definition html_text (e : RawEntry.t) : pystr :=
  match RawEntry.summary e with Some s => s | None => [] end
  ++ flat_map content_value
       (match RawEntry.content e with Some cs => cs | None => [] end).

(** 5. The [src] of the first [img] element of the summary followed by
    the content bodies, parsed as HTML; an empty text has no element and
    a failed parse gives none. *)
Definition embedded_img_src (soup : pystr -> exn + list Tag)
  (e : RawEntry.t) : option pystr :=
  match html_text e with
  | [] => None
  | html =>
      match soup html with
      | inr doc =>
          match soup_find (Py.lit "img") doc with
          | Some t => tag_get (Py.lit "src") (tag_attrs t)
          | None => None
          end
      | inl _ => None
      end
  end.

Fixpoint first_success (strategies : list (RawEntry.t -> option pystr))
  (e : RawEntry.t) : option pystr :=
  match strategies with
  | [] => None
  | strategy :: rest =>
      match located (strategy e) with
      | Some u => Some u
      | None => first_success rest e
      end
  end.

Definition chain (soup : pystr -> exn + list Tag)
  : list (RawEntry.t -> option pystr) :=
  [ media_content_url; thumbnail; enclosure_href; link_href_of;
    embedded_img_src soup ].

Definition resolve (soup : pystr -> exn + list Tag) (e : RawEntry.t)
  : option pystr :=
  first_success (chain soup) e.

(** The strategies that remain after the media-content descriptors. *)
Definition later_strategies (soup : pystr -> exn + list Tag)
  : list (RawEntry.t -> option pystr) :=
  [ thumbnail; enclosure_href; link_href_of; embedded_img_src soup ].

(** The four strategies that read a URL off a descriptor. *)
Definition descriptor_strategies : list (RawEntry.t -> option pystr) :=
  [ media_content_url; thumbnail; enclosure_href; link_href_of ].

End ImageSpec.

(** The entry with the key [media_content] removed. *)
Definition without_media_content (e : RawEntry.t) : RawEntry.t :=
  RawEntry.mk (RawEntry.title e) (RawEntry.link e) (RawEntry.published e)
    (RawEntry.updated e) (RawEntry.published_parsed e)
    (RawEntry.updated_parsed e) None (RawEntry.media_thumbnail e)
    (RawEntry.enclosures e) (RawEntry.links e) (RawEntry.summary e)
    (RawEntry.content e).

(** What is carried after a block, given what was carried before it and
    what the strategy of the block produces. *)
Definition carries (before produced after : option pystr) : Prop :=
  ImageSpec.located after =
  match ImageSpec.located before with
  | Some u => Some u
  | None => ImageSpec.located produced
  end.

(** The calls a summary of [text] makes before it returns when no model
    answers: one configuration with the key, then one request per model
    of [models_to_try], in order. *)
Definition all_attempts (api_key : pystr) (text : pystr) (g : Genai)
  : Genai :=
  mk_genai (configured g ++ [api_key])
    (requests g ++ map (fun m => (m, prompt text)) models_to_try).

(** [i] stands at two places of [l]. *)
Definition twice {A : Type} (i : A) (l : list A) : Prop :=
  exists l1 l2 l3, l = l1 ++ i :: l2 ++ i :: l3.

(** The entry carries a date string: its [published] or its [updated] is
    a string that is not empty. *)
Definition has_date_string (e : RawEntry.t) : Prop :=
  (exists c r, RawEntry.published e = Some (c :: r))
  \/ (exists c r, RawEntry.updated e = Some (c :: r)).

(** A summary seen as markup: stretches of text, tags, and [<] signs that
    open no tag. *)
Inductive piece :=
| text_piece (t : pystr)
| tag_piece (body : pystr)
| open_piece (after : pystr).

(** What a piece is written as, and what of it shows once the tags are
    taken out. *)
Definition markup (p : piece) : pystr :=
  match p with
  | text_piece t => t
  | tag_piece body => 60%N :: body ++ [62%N]
  | open_piece after => 60%N :: after
  end.

Definition visible (p : piece) : pystr :=
  match p with
  | text_piece t => t
  | tag_piece _ => []
  | open_piece after => 60%N :: after
  end.

Definition has (c : N) (s : pystr) : bool := existsb (N.eqb c) s.

(** The pieces are what they are said to be: a text holds no [<]; the
    body of a tag is not empty and holds no [<] and no [>]; a [<] that
    opens no tag meets no [>] before the next [<] or the end. *)
Fixpoint well_formed (ps : list piece) : bool :=
  match ps with
  | [] => true
  | text_piece t :: r => negb (has 60 t) && well_formed r
  | tag_piece body :: r =>
      Py.nonempty body && negb (has 60 body) && negb (has 62 body)
      && well_formed r
  | open_piece after :: r =>
      negb (has 60 after) && negb (has 62 after)
      && match r with text_piece _ :: _ => false | _ => true end
      && well_formed r
  end.

(** What a report of the loop over the URLs says. *)
Definition failed_source (w : World) (urls : list pystr) (r : report)
  : Prop :=
  In (fst r) urls
  /\ Py.nonempty (Py.strip (fst r)) = true
  /\ (feedparser_parse w (fst r) = inl (snd r)
      \/ exists feed e t,
           feedparser_parse w (fst r) = inr feed
           /\ In e (entries feed)
           /\ published_parsed e = Some t
           /\ Datetime.of_struct_time t = inl (snd r)).

(* ------------------------------------------------------------------ *)
(** ** Concrete feeds for the examples *)

Module Sample.

Definition entry (title link published : string)
  (parsed updated : option struct_time) : RawEntry.t :=
  RawEntry.mk (Some (Py.lit title)) (Some (Py.lit link))
    (Some (Py.lit published)) None parsed updated
    None None None None None None.

Definition at_time (h mi : Z) : struct_time :=
  mk_struct_time 2024 3 1 h mi 0 4 61 0.

Definition img (src : string) : pystr :=
  Py.lit "<img src=" ++ q ++ Py.lit src ++ q ++ Py.lit ">".

(** Two dated entries; the second has both parsed dates. *)
Definition a1 : RawEntry.t :=
  entry "A1" "http://a/1" "Fri, 01 Mar 2024 11:00:00 GMT"
    (Some (at_time 11 0)) None.
Definition a2 : RawEntry.t :=
  entry "A2" "http://a/2" "Fri, 01 Mar 2024 09:00:00 GMT"
    (Some (at_time 9 0)) (Some (at_time 10 30)).

(** An entry whose date the parser could not read. *)
Definition c1 : RawEntry.t :=
  entry "C1" "http://c/1" "01/03/2024 08h15" None None.

(** An entry with no date at all, and one dated in the afternoon. *)
Definition d1 : RawEntry.t :=
  RawEntry.mk (Some (Py.lit "D1")) None None None None None
    None None None None None None.
Definition d2 : RawEntry.t :=
  entry "D2" "http://d/2" "Fri, 01 Mar 2024 13:00:00 GMT"
    (Some (at_time 13 0)) None.

(** An entry whose parsed date has a second the constructor refuses. *)
Definition bad : RawEntry.t :=
  entry "E2" "http://e/2" "Fri, 01 Mar 2024 10:59:60 GMT"
    (Some (mk_struct_time 2024 3 1 10 59 60 4 61 0)) None.

Definition url_a : pystr := Py.lit "http://a/rss".
Definition url_b : pystr := Py.lit "http://b/rss".
Definition url_c : pystr := Py.lit "http://c/rss".
Definition url_d : pystr := Py.lit "http://d/rss".
Definition url_e : pystr := Py.lit "http://e/rss".
Definition url_twice : pystr := Py.lit "http://twice/rss".

Definition timed_out : exn := Raised (Py.lit "timed out").

Definition parse (url : pystr) : exn + ParsedFeed :=
  if Py.str_eqb url url_a then inr (mk_feed (Some (Py.lit "Feed A")) [a1; a2])
  else if Py.str_eqb url url_b then inl timed_out
  else if Py.str_eqb url url_c then inr (mk_feed None [c1])
  else if Py.str_eqb url url_d then inr (mk_feed (Some (Py.lit "Feed D")) [d1; d2])
  else if Py.str_eqb url url_e then inr (mk_feed (Some (Py.lit "Feed E")) [a1; bad; a2])
  else if Py.str_eqb url url_twice then inr (mk_feed (Some (Py.lit "Twice")) [a1; a1])
  else inr (mk_feed None []).

(** A clock that advances by one second at each read. *)
Definition world : World :=
  mk_world
    (fun n => mk_datetime 2024 3 1 12 0 (Z.of_nat n) 250)
    (fun n => mk_datetime 2024 3 1 9 0 (Z.of_nat n) 250)
    parse
    HtmlScanner.parse.

(** Entries for the image resolver. *)
Definition with_summary (html : pystr) : RawEntry.t :=
  RawEntry.mk None None None None None None None None None None
    (Some html) None.

Definition image_media (url : option pystr) : Media :=
  mk_media (Some (Py.lit "image")) None url.

Definition summary_img : pystr :=
  Py.lit "<p>text" ++ img "http://x/a.jpg" ++ Py.lit "</p>".

(** A media-content image and an image in the summary. *)
Definition img_both : RawEntry.t :=
  RawEntry.mk None None None None None None
    (Some [image_media (Some (Py.lit "http://a/m.jpg"))])
    None None None (Some summary_img) None.

(** No media descriptor, an image in the summary. *)
Definition img_html_only : RawEntry.t := with_summary summary_img.

(** The first image descriptor has no [url]; a later one and a thumbnail
    have one. *)
Definition media_no_url : RawEntry.t :=
  RawEntry.mk None None None None None None
    (Some [ mk_media (Some (Py.lit "video")) None (Some (Py.lit "http://a/v.mp4"));
            image_media None;
            image_media (Some (Py.lit "http://a/later.jpg")) ])
    (Some [mk_thumbnail (Some (Py.lit "http://a/thumb.jpg"))])
    None None None None.

(** The first [img] has no [src], or an empty one; the second has one. *)
Definition first_img_bare : RawEntry.t :=
  with_summary (Py.lit "<img alt=x>" ++ img "http://x/b.jpg").
Definition first_img_empty : RawEntry.t :=
  with_summary (Py.lit "<img src=" ++ q ++ q ++ Py.lit ">"
                ++ img "http://x/b.jpg").

(** A media-content image whose [url] is the empty string. *)
Definition media_empty_url : RawEntry.t :=
  RawEntry.mk None None None None None None
    (Some [image_media (Some [])]) None None None None None.

(** The same descriptor, and a thumbnail. *)
Definition media_empty_then_thumb : RawEntry.t :=
  RawEntry.mk None None None None None None
    (Some [image_media (Some [])])
    (Some [mk_thumbnail (Some (Py.lit "http://a/thumb.jpg"))])
    None None None None.

Definition video : Media :=
  mk_media (Some (Py.lit "video")) (Some (Py.lit "video/mp4"))
    (Some (Py.lit "http://a/v.mp4")).

Definition png_enclosure : Link :=
  mk_link (Some (Py.lit "image/png")) (Some (Py.lit "http://a/e.png")).

Definition mp3_enclosure : Link :=
  mk_link (Some (Py.lit "audio/mpeg")) (Some (Py.lit "http://a/e.mp3")).

Definition jpeg_link : Link :=
  mk_link (Some (Py.lit "image/jpeg")) (Some (Py.lit "http://a/l.jpg")).

Definition page_link : Link :=
  mk_link (Some (Py.lit "text/html")) (Some (Py.lit "http://a/page")).

(** Entries on which the second, the third and the fourth strategy are
    the first to find a URL: no image among the media descriptors and a
    thumbnail; no thumbnail and an image enclosure after a sound file;
    no image enclosure and an image link after the link of the page.
    Each has an image in its summary as well. *)
Definition img_thumbnail : RawEntry.t :=
  RawEntry.mk None None None None None None
    (Some [video])
    (Some [mk_thumbnail (Some (Py.lit "http://a/thumb.jpg"))])
    (Some [png_enclosure]) (Some [jpeg_link]) (Some summary_img) None.

Definition img_enclosure : RawEntry.t :=
  RawEntry.mk None None None None None None
    (Some [video]) (Some [])
    (Some [mp3_enclosure; png_enclosure]) (Some [jpeg_link])
    (Some summary_img) None.

Definition img_link : RawEntry.t :=
  RawEntry.mk None None None None None None
    None None
    (Some [mp3_enclosure]) (Some [page_link; jpeg_link])
    (Some summary_img) None.

(** Entries whose first image descriptor has no [url] and is followed by
    one that has: with an image enclosure, with an image link, with an
    image in the summary, and with nothing else. *)
Definition no_url_media : list Media :=
  [video; image_media None; image_media (Some (Py.lit "http://a/later.jpg"))].

Definition no_url_then_enclosure : RawEntry.t :=
  RawEntry.mk None None None None None None
    (Some no_url_media) None
    (Some [mp3_enclosure; png_enclosure]) (Some [jpeg_link])
    (Some summary_img) None.

Definition no_url_then_link : RawEntry.t :=
  RawEntry.mk None None None None None None
    (Some no_url_media) None
    None (Some [page_link; jpeg_link]) (Some summary_img) None.

Definition no_url_then_html : RawEntry.t :=
  RawEntry.mk None None None None None None
    (Some no_url_media) None None None (Some summary_img) None.

Definition no_url_alone : RawEntry.t :=
  RawEntry.mk None None None None None None
    (Some no_url_media) None None None None None.

(** The items of the entries above. *)
Definition item_a1 : NewsItem.t :=
  news_item world (Py.lit "Feed A") a1 (Datetime.made (at_time 11 0))
    (Py.lit "Fri, 01 Mar 2024 11:00:00 GMT") true.
Definition item_a2 : NewsItem.t :=
  news_item world (Py.lit "Feed A") a2 (Datetime.made (at_time 9 0))
    (Py.lit "Fri, 01 Mar 2024 09:00:00 GMT") true.
Definition item_c1 : NewsItem.t :=
  news_item world url_c c1 (utcnow world 0)
    (Py.lit "01/03/2024 08h15") false.
Definition item_d1 : NewsItem.t :=
  news_item world (Py.lit "Feed D") d1 (utcnow world 0)
    (Py.lit "2024-03-01 09:00:01.000250") false.
Definition item_d2 : NewsItem.t :=
  news_item world (Py.lit "Feed D") d2 (Datetime.made (at_time 13 0))
    (Py.lit "Fri, 01 Mar 2024 13:00:00 GMT") true.
Definition item_twice : NewsItem.t :=
  news_item world (Py.lit "Twice") a1 (Datetime.made (at_time 11 0))
    (Py.lit "Fri, 01 Mar 2024 11:00:00 GMT") true.

(** An item published at a given time of the first of March 2024. *)
Definition news_at (h mi : Z) : NewsItem.t :=
  NewsItem.mk (Py.lit "N") [] (Py.lit "Feed") (Datetime.made (at_time h mi))
    [] true [] None.

(** Noon of that day. *)
Definition noon : datetime := Datetime.made (at_time 12 0).

(** A backend on which every model fails for want of quota, and one on
    which the second model answers. *)
Definition no_quota : pystr -> pystr -> pystr -> pystr + pystr :=
  fun _ _ _ => inl (Py.lit "429 quota exceeded").

(** A text of 120 characters and one of 99. *)
Definition long_text : pystr := repeat 97%N 120.
Definition short_text : pystr := repeat 97%N 99.

Definition key : pystr := Py.lit "k".

End Sample.

(* ------------------------------------------------------------------ *)
(** ** Concrete pages for the examples *)

Module PageSample.

(** The secret of the sources, with blank lines and stray spaces. *)
Definition secret : pystr :=
  Py.lit "  http://a/rss " ++ nl ++ nl ++ Py.lit "http://c/rss" ++ nl
  ++ Py.lit "   " ++ nl.

(** Half past one in the morning of the first of March 2024. *)
Definition early : NewsItem.t := Sample.news_at 1 30.

(** An item whose raw date has 36 characters. *)
Definition long_raw : NewsItem.t :=
  NewsItem.mk (Py.lit "N") [] (Py.lit "Feed") (utcnow Sample.world 0)
    (Py.lit "Wed, 24 Dec 2024 10:00:00 GMT+extras") false [] None.

(** An item with a summary in HTML and a link. *)
Definition with_markup : NewsItem.t :=
  NewsItem.mk (Py.lit "N") (Py.lit "http://a/1") (Py.lit "Feed")
    (utcnow Sample.world 0) [] false
    (Py.lit "<p>one <b>two</b> 1 < 2</p>") (Some []).

(** That summary, piece by piece. *)
Definition markup_pieces : list piece :=
  [ tag_piece (Py.lit "p"); text_piece (Py.lit "one ");
    tag_piece (Py.lit "b"); text_piece (Py.lit "two");
    tag_piece (Py.lit "/b"); text_piece (Py.lit " 1 ");
    open_piece (Py.lit " 2"); tag_piece (Py.lit "/p") ].

(** The article library: one article with a top image and a short text,
    one address that fails. *)
Definition newspaper (url : pystr) : exn + Article :=
  if Py.str_eqb url (Py.lit "http://a/1")
  then inr (mk_article (Py.lit "too short") (Py.lit "http://a/top.jpg"))
  else inl (Raised (Py.lit "403")).

(** A backend on which the first model fails and the others answer. *)
Definition second_answers : pystr -> pystr -> pystr -> pystr + pystr :=
  fun _ model _ =>
    if Py.str_eqb model (Py.lit "gemini-2.5-flash")
    then inl (Py.lit "503 overloaded")
    else inr (Py.lit "Resumo.").

(** Two texts of 8001 characters that differ in the last one. *)
Definition text_b : pystr := repeat 97%N (N.to_nat 8000) ++ [98%N].
Definition text_c : pystr := repeat 97%N (N.to_nat 8000) ++ [99%N].

End PageSample.

(* ================================================================== *)
(** * Properties *)

(** The literals, the calendar and the scanner on known values. *)

Example lit_title :
  Py.lit "Sem Título" = [83; 101; 109; 32; 84; 237; 116; 117; 108; 111]%N.
Proof. reflexivity. Qed.

Example ordinal_2024 : Datetime.ymd2ord 2024 3 1 = 738946.
Proof. reflexivity. Qed.

Example str_datetime :
  Datetime.to_str (mk_datetime 2024 12 24 9 5 0 1500)
  = Py.lit "2024-12-24 09:05:00.001500".
Proof. reflexivity. Qed.

Example scan_img :
  HtmlScanner.parse
    (Py.lit "<p>text<img src=" ++ q ++ Py.lit "http://x/a.jpg" ++ q
     ++ Py.lit "></p>")
  = inr [ mk_tag (Py.lit "p") [];
          mk_tag (Py.lit "img") [(Py.lit "src", Py.lit "http://x/a.jpg")] ].
Proof. reflexivity. Qed.

(* ------------------------------------------------------------------ *)
(** ** The order on datetimes *)

Module DatetimeFacts.
Import Datetime.

Lemma lex_refl (a : list Z) : lex a a = Eq.
Proof.
  induction a as [|x a IH]; simpl; [reflexivity|].
  now rewrite Z.compare_refl.
Qed.

Lemma lex_eq (a b : list Z) : lex a b = Eq -> a = b.
Proof.
  revert b; induction a as [|x a IH]; intros [|y b]; simpl;
    try discriminate; [reflexivity|].
  destruct (Z.compare_spec x y) as [->|H|H]; try discriminate.
  intros E; f_equal; auto.
Qed.

Lemma lex_antisym (a b : list Z) : lex b a = CompOpp (lex a b).
Proof.
  revert b; induction a as [|x a IH]; intros [|y b]; simpl; try reflexivity.
  rewrite (Z.compare_antisym x y).
  destruct (x ?= y); simpl; auto.
Qed.

Lemma lex_le_trans (a b c : list Z) :
  lex a b <> Gt -> lex b c <> Gt -> lex a c <> Gt.
Proof.
  revert b c; induction a as [|x a IH]; intros [|y b] [|z c]; simpl;
    try congruence.
  destruct (x ?= y) eqn:Hxy; destruct (y ?= z) eqn:Hyz; try congruence.
  - apply Z.compare_eq in Hxy, Hyz; subst.
    rewrite Z.compare_refl; apply IH.
  - apply Z.compare_eq in Hxy; subst; rewrite Hyz; congruence.
  - apply Z.compare_eq in Hyz; subst; rewrite Hxy; congruence.
  - rewrite Z.compare_lt_iff in Hxy, Hyz.
    rewrite (proj2 (Z.compare_lt_iff x z)); [congruence|lia].
Qed.

Lemma fields_inj (a b : datetime) : fields a = fields b -> a = b.
Proof.
  destruct a, b; unfold fields; simpl; intros E.
  injection E; intros; subst; reflexivity.
Qed.

Lemma cmp_eq (a b : datetime) : cmp a b = Eq <-> a = b.
Proof.
  split.
  - intros E; apply fields_inj, lex_eq, E.
  - intros ->; apply lex_refl.
Qed.

Lemma eqb_eq (a b : datetime) : eqb a b = true <-> a = b.
Proof.
  unfold eqb; rewrite <- cmp_eq.
  destruct (cmp a b); split; congruence.
Qed.

Lemma leb_spec (a b : datetime) : leb a b = true <-> cmp a b <> Gt.
Proof.
  unfold leb, ltb, cmp; rewrite (lex_antisym (fields a) (fields b)).
  destruct (lex (fields a) (fields b)); simpl; split; congruence.
Qed.

Lemma leb_refl (a : datetime) : leb a a = true.
Proof. apply leb_spec; unfold cmp; rewrite lex_refl; discriminate. Qed.

Lemma leb_trans (a b c : datetime) :
  leb a b = true -> leb b c = true -> leb a c = true.
Proof. rewrite !leb_spec; apply lex_le_trans. Qed.

Lemma ltb_leb (a b : datetime) : ltb a b = true -> leb a b = true.
Proof.
  rewrite leb_spec; unfold ltb.
  destruct (cmp a b); congruence.
Qed.

Lemma ltb_irrefl (a : datetime) : ltb a a = false.
Proof. unfold ltb, cmp; now rewrite lex_refl. Qed.

End DatetimeFacts.

(* ------------------------------------------------------------------ *)
(** ** The final sort *)

Module SortFacts.
Import DatetimeFacts.

Lemma insert_desc_perm x l : Permutation (x :: l) (insert_desc x l).
Proof.
  induction l as [|y r IH]; simpl; [reflexivity|].
  destruct (Datetime.ltb (sort_key x) (sort_key y)); [|reflexivity].
  rewrite perm_swap; now apply perm_skip.
Qed.

Lemma sort_reverse_perm l : Permutation l (sort_reverse l).
Proof.
  induction l as [|x l IH]; simpl; [reflexivity|].
  rewrite <- insert_desc_perm; now apply perm_skip.
Qed.

Lemma not_later_trans a b c : not_later a b -> not_later b c -> not_later a c.
Proof. unfold not_later; intros H1 H2; eapply leb_trans; eassumption. Qed.

Lemma insert_desc_hd x y r :
  not_later y x -> HdRel not_later y r -> HdRel not_later y (insert_desc x r).
Proof.
  intros Hyx Hr; destruct r as [|z r]; simpl.
  - now constructor.
  - destruct (Datetime.ltb (sort_key x) (sort_key z)); constructor; auto.
    now inversion Hr.
Qed.

Lemma insert_desc_sorted x l :
  Sorted not_later l -> Sorted not_later (insert_desc x l).
Proof.
  induction 1 as [|y r Hs IH Hh]; simpl.
  - repeat constructor.
  - destruct (Datetime.ltb (sort_key x) (sort_key y)) eqn:E.
    + constructor; [exact IH|].
      apply insert_desc_hd; [|exact Hh].
      now apply ltb_leb.
    + constructor; [now constructor|].
      constructor. unfold not_later, Datetime.leb.
      unfold sort_key in E; now rewrite E.
Qed.

Lemma sort_reverse_sorted l : StronglySorted not_later (sort_reverse l).
Proof.
  apply Sorted_StronglySorted.
  - intros a b c; apply not_later_trans.
  - induction l as [|x l IH]; simpl; [constructor|].
    now apply insert_desc_sorted.
Qed.

Lemma insert_desc_published_at d x l :
  published_at d (insert_desc x l) = published_at d (x :: l).
Proof.
  induction l as [|y r IH]; [reflexivity|].
  simpl insert_desc.
  destruct (Datetime.ltb (sort_key x) (sort_key y)) eqn:E; [|reflexivity].
  unfold published_at in *; simpl in *; rewrite IH.
  destruct (Datetime.eqb (NewsItem.published x) d) eqn:Ex; [|reflexivity].
  destruct (Datetime.eqb (NewsItem.published y) d) eqn:Ey; [|reflexivity].
  apply eqb_eq in Ex, Ey; unfold sort_key in E.
  rewrite Ex, Ey, ltb_irrefl in E; discriminate.
Qed.

Lemma sort_reverse_stable d l :
  published_at d (sort_reverse l) = published_at d l.
Proof.
  induction l as [|x l IH]; [reflexivity|].
  simpl sort_reverse; rewrite insert_desc_published_at.
  unfold published_at in *; simpl; now rewrite IH.
Qed.

End SortFacts.

(* ------------------------------------------------------------------ *)
(** ** One entry, one feed, one list of sources *)

Module RunFacts.

Section WithWorld.

Variable w : World.

Lemma raw_published_total e s :
  exists raw n,
    raw_published w e s = (inr raw, mk_run (all_news s) n).
Proof.
  unfold raw_published.
  destruct (Py.or_else (RawEntry.published e) (RawEntry.updated e))
    as [[|c r]|]; destruct s as [news k]; simpl;
    unfold bind, read_clock, ret; simpl; eauto.
Qed.

(** What [process_entry] does, by the parsed date of the entry. *)
Lemma process_entry_run fn title e s :
  exists raw n,
    process_entry w fn title e s =
    match published_parsed e with
    | None =>
        (inr tt, mk_run (all_news s ++ [news_item w title e fn raw false]) n)
    | Some t =>
        match Datetime.of_struct_time t with
        | inr dt =>
            (inr tt,
             mk_run (all_news s ++ [news_item w title e dt raw true]) n)
        | inl ex => (inl ex, mk_run (all_news s) n)
        end
    end.
Proof.
  destruct (raw_published_total e s) as (raw & n & Hraw).
  exists raw, n.
  unfold process_entry, bind; rewrite Hraw.
  unfold timestamp.
  destruct (published_parsed e) as [t|]; simpl.
  - unfold bind, lift.
    destruct (Datetime.of_struct_time t); reflexivity.
  - reflexivity.
Qed.

Lemma process_entry_news fn title e s :
  (exists i, appends (process_entry w fn title e) s i)
  \/ (exists ex s', process_entry w fn title e s = (inl ex, s')
                    /\ all_news s' = all_news s).
Proof.
  destruct (process_entry_run fn title e s) as (raw & n & H).
  destruct (published_parsed e) as [t|].
  - destruct (Datetime.of_struct_time t) as [ex|dt].
    + right; eauto.
    + left; eexists; eexists; split; [exact H|reflexivity].
  - left; eexists; eexists; split; [exact H|reflexivity].
Qed.

(** The items the loop over the entries appends, each by the body of the
    loop on one of the entries. *)
Lemma for_each_news fn title es : forall s,
  exists items,
    all_news (snd (for_each (process_entry w fn title) es s))
    = all_news s ++ items
    /\ Forall (fun i => exists e s0, In e es
                 /\ appends (process_entry w fn title e) s0 i) items.
Proof.
  induction es as [|e es IH]; intros s; simpl.
  - exists []; rewrite app_nil_r; split; [reflexivity|constructor].
  - unfold bind at 1.
    destruct (process_entry_news fn title e s)
      as [(i & s' & Hrun & Hnews)|(ex & s' & Hrun & Hnews)];
      rewrite Hrun.
    + destruct (IH s') as (items & Hitems & Hall).
      exists (i :: items); split.
      * rewrite Hitems, Hnews, <- app_assoc; reflexivity.
      * constructor.
        -- exists e, s; split; [now left|].
           exists s'; auto.
        -- eapply Forall_impl; [|exact Hall].
           intros x (e0 & s0 & Hin & Happ); exists e0, s0.
           split; [now right|exact Happ].
    + exists []; simpl; rewrite app_nil_r; split; [exact Hnews|constructor].
Qed.

(** When every entry is accepted the loop appends one item per entry and
    does not raise. *)
Lemma for_each_ok fn title es : forall s,
  forallb entry_ok es = true ->
  exists items s',
    for_each (process_entry w fn title) es s = (inr tt, s')
    /\ all_news s' = all_news s ++ items
    /\ length items = length es.
Proof.
  induction es as [|e es IH]; intros s Hok; simpl in *.
  - exists [], s; rewrite app_nil_r; auto.
  - apply andb_true_iff in Hok; destruct Hok as [He Hes].
    destruct (process_entry_run fn title e s) as (raw & n & H).
    unfold entry_ok in He.
    unfold bind at 1; rewrite H.
    destruct (published_parsed e) as [t|];
      [destruct (Datetime.of_struct_time t) as [ex|dt]; [discriminate|]|];
      match goal with |- context [for_each _ _ ?s1] =>
        destruct (IH s1 Hes) as (items & s' & Hrun & Hnews & Hlen) end;
      simpl in Hnews; rewrite Hrun;
      eexists (_ :: items), s';
      (split; [reflexivity|split; [|simpl; now rewrite Hlen]]);
      rewrite Hnews, <- app_assoc; reflexivity.
Qed.

Lemma process_url_news fn url s :
  exists items,
    all_news (fst (process_url w fn url s)) = all_news s ++ items
    /\ Forall (from_source w fn [url]) items.
Proof.
  unfold process_url.
  destruct (Py.nonempty (Py.strip url)) eqn:Hblank; simpl.
  - unfold try_except, process_feed, bind, lift.
    destruct (feedparser_parse w url) as [ex|feed] eqn:Hparse.
    + exists []; simpl; rewrite app_nil_r; split; [reflexivity|constructor].
    + destruct (for_each_news fn (get_default (feed_title feed) url)
                  (entries feed) s) as (items & Hnews & Hall).
      exists items; split.
      * destruct (for_each _ _ s) as [[ex|[]] s']; exact Hnews.
      * eapply Forall_impl; [|exact Hall].
        intros i (e & s0 & Hin & Happ).
        exists url, feed, e, s0; repeat split; auto. now left.
  - exists []; rewrite app_nil_r; split; [reflexivity|constructor].
Qed.

Lemma from_source_incl fn us1 us2 i :
  incl us1 us2 -> from_source w fn us1 i -> from_source w fn us2 i.
Proof.
  intros Hincl (url & feed & e & s0 & Hin & H).
  exists url, feed, e, s0; split; [apply Hincl, Hin|exact H].
Qed.

Lemma process_urls_news fn urls : forall s,
  exists items,
    all_news (fst (process_urls w fn urls s)) = all_news s ++ items
    /\ Forall (from_source w fn urls) items.
Proof.
  induction urls as [|url urls IH]; intros s; simpl.
  - exists []; rewrite app_nil_r; split; [reflexivity|constructor].
  - destruct (process_url_news fn url s) as (i1 & H1 & F1).
    destruct (process_url w fn url s) as [s1 r1]; simpl in H1.
    destruct (IH s1) as (i2 & H2 & F2).
    destruct (process_urls w fn urls s1) as [s2 r2]; simpl in *.
    exists (i1 ++ i2); split.
    + rewrite H2, H1, app_assoc; reflexivity.
    + apply Forall_app; split;
        (eapply Forall_impl; [|eassumption]); intros i;
        apply from_source_incl; intros x Hx; simpl in *; tauto.
Qed.

(** Every returned item was appended for an entry of a listed source,
    with the first clock read of the call as the snapshot. *)
Lemma fetch_feeds_from_source urls i :
  In i (fetch_feeds w urls) -> from_source w (fixed_now w) urls i.
Proof.
  unfold fetch_feeds, appended, collect; intros Hin.
  apply (Permutation_in i (Permutation_sym (SortFacts.sort_reverse_perm _)))
    in Hin.
  destruct (process_urls_news (fixed_now w) urls (mk_run [] 1))
    as (items & Hnews & Hall).
  rewrite Hnews in Hin; simpl in Hin.
  rewrite Forall_forall in Hall; auto.
Qed.

Lemma process_urls_app fn us1 us2 s :
  process_urls w fn (us1 ++ us2) s =
  let (s1, r1) := process_urls w fn us1 s in
  let (s2, r2) := process_urls w fn us2 s1 in
  (s2, r1 ++ r2).
Proof.
  revert s; induction us1 as [|u us1 IH]; intros s; simpl.
  - destruct (process_urls w fn us2 s); reflexivity.
  - destruct (process_url w fn u s) as [s1 r1].
    rewrite IH.
    destruct (process_urls w fn us1 s1) as [s2 r2].
    destruct (process_urls w fn us2 s2) as [s3 r3].
    now rewrite app_assoc.
Qed.

Lemma process_url_raises fn url ex s :
  Py.nonempty (Py.strip url) = true ->
  feedparser_parse w url = inl ex ->
  process_url w fn url s = (s, [(url, ex)]).
Proof.
  intros Hb Hp; unfold process_url, try_except, process_feed, bind, lift.
  now rewrite Hb, Hp.
Qed.

Lemma process_url_ok fn url feed s :
  Py.nonempty (Py.strip url) = true ->
  feedparser_parse w url = inr feed ->
  forallb entry_ok (entries feed) = true ->
  exists items s',
    process_url w fn url s = (s', [])
    /\ all_news s' = all_news s ++ items
    /\ length items = length (entries feed).
Proof.
  intros Hb Hp Hok; unfold process_url, try_except, process_feed, bind, lift.
  rewrite Hb, Hp; simpl.
  destruct (for_each_ok fn (get_default (feed_title feed) url)
              (entries feed) s Hok) as (items & s' & Hrun & Hnews & Hlen).
  rewrite Hrun; eauto.
Qed.

End WithWorld.

End RunFacts.

(* ------------------------------------------------------------------ *)
(** ** Timestamps of the returned items *)

Module TimestampFacts.
Import RunFacts.

(** The item the body of the loop appends, read off its parsed date. *)
Lemma appends_inv w fn title e s i :
  appends (process_entry w fn title e) s i ->
  exists raw,
    match published_parsed e with
    | None => i = news_item w title e fn raw false
    | Some t =>
        exists dt, Datetime.of_struct_time t = inr dt
                   /\ i = news_item w title e dt raw true
    end.
Proof.
  intros (s' & Hrun & Hnews).
  destruct (process_entry_run w fn title e s) as (raw & n & H).
  exists raw; rewrite H in Hrun.
  destruct (published_parsed e) as [t|].
  - destruct (Datetime.of_struct_time t) as [ex|dt]; [discriminate|].
    exists dt; split; [reflexivity|].
    inversion Hrun; subst s'; simpl in Hnews.
    apply app_inv_head in Hnews; congruence.
  - inversion Hrun; subst s'; simpl in Hnews.
    apply app_inv_head in Hnews; congruence.
Qed.

Lemma undated_published_parsed e :
  RawEntry.published_parsed e = None ->
  RawEntry.updated_parsed e = None ->
  published_parsed e = None.
Proof. unfold published_parsed; intros -> ->; reflexivity. Qed.

(** An item without a reliable time carries the snapshot. *)
Lemma unreliable_is_snapshot w fn title e s i :
  appends (process_entry w fn title e) s i ->
  NewsItem.has_time i = false ->
  NewsItem.published i = fn /\ published_parsed e = None.
Proof.
  intros Happ Hflag; destruct (appends_inv _ _ _ _ _ _ Happ) as (raw & H).
  destruct (published_parsed e) as [t|].
  - destruct H as (dt & _ & ->); discriminate.
  - subst i; auto.
Qed.

End TimestampFacts.

(** C1. An entry with neither [published_parsed] nor [updated_parsed]
    always yields an item, with [has_time] false and [published] equal to
    the snapshot handed to the loop body. In a call the snapshot is the
    first clock read, made before any source is fetched: every returned
    item was appended for an entry of a listed source under that
    snapshot, and any two returned items without a reliable time, from
    whatever sources, carry it and compare equal on [published]. *)
Theorem undated_entries_share_snapshot (w : World) (urls : list pystr) :
  (forall fn title e s,
      RawEntry.published_parsed e = None ->
      RawEntry.updated_parsed e = None ->
      exists i, appends (process_entry w fn title e) s i
                /\ NewsItem.has_time i = false
                /\ NewsItem.published i = fn)
  /\ (forall i, In i (fetch_feeds w urls) ->
        exists url feed e s0,
          In url urls
          /\ feedparser_parse w url = inr feed
          /\ In e (entries feed)
          /\ appends (process_entry w (utcnow w 0)
                        (get_default (feed_title feed) url) e) s0 i
          /\ (NewsItem.has_time i = false <->
              RawEntry.published_parsed e = None
              /\ RawEntry.updated_parsed e = None))
  /\ (forall i j,
        In i (fetch_feeds w urls) -> In j (fetch_feeds w urls) ->
        NewsItem.has_time i = false -> NewsItem.has_time j = false ->
        NewsItem.published i = utcnow w 0
        /\ NewsItem.published j = utcnow w 0
        /\ Datetime.cmp (NewsItem.published i) (NewsItem.published j) = Eq).
Proof.
  split; [|split].
  - intros fn title e s Hp Hu.
    pose proof (TimestampFacts.undated_published_parsed e Hp Hu) as Hnone.
    destruct (RunFacts.process_entry_run w fn title e s) as (raw & n & H).
    rewrite Hnone in H.
    exists (news_item w title e fn raw false); repeat split.
    eexists; split; [exact H|reflexivity].
  - intros i Hin.
    destruct (RunFacts.fetch_feeds_from_source w urls i Hin)
      as (url & feed & e & s0 & Hurl & _ & Hparse & He & Happ).
    exists url, feed, e, s0.
    split; [exact Hurl|]; split; [exact Hparse|]; split; [exact He|].
    split; [exact Happ|]; split.
    + intros Hflag.
      destruct (TimestampFacts.unreliable_is_snapshot _ _ _ _ _ _ Happ Hflag)
        as [_ Hnone].
      unfold published_parsed in Hnone.
      destruct (RawEntry.published_parsed e); [discriminate|auto].
    + intros [Hp Hu].
      destruct (TimestampFacts.appends_inv _ _ _ _ _ _ Happ) as (raw & H).
      rewrite (TimestampFacts.undated_published_parsed e Hp Hu) in H.
      now subst i.
  - intros i j Hi Hj Fi Fj.
    destruct (RunFacts.fetch_feeds_from_source w urls i Hi)
      as (ui & fi & ei & si & _ & _ & _ & _ & Hai).
    destruct (RunFacts.fetch_feeds_from_source w urls j Hj)
      as (uj & fj & ej & sj & _ & _ & _ & _ & Haj).
    destruct (TimestampFacts.unreliable_is_snapshot _ _ _ _ _ _ Hai Fi)
      as [Pi _].
    destruct (TimestampFacts.unreliable_is_snapshot _ _ _ _ _ _ Haj Fj)
      as [Pj _].
    unfold fixed_now in Pi, Pj.
    repeat split; auto.
    apply DatetimeFacts.cmp_eq; congruence.
Qed.

Module ConversionFacts.
Import Datetime.

Lemma of_struct_time_valid t :
  valid t = true -> of_struct_time t = inr (made t).
Proof.
  unfold valid; intros H.
  rewrite !andb_true_iff in H.
  destruct H as [[[[[H1 H2] H3] H4] H5] H6].
  unfold of_struct_time, new, made.
  now rewrite H1, H2, H3, H4, H5, H6.
Qed.

Lemma of_struct_time_invalid t :
  valid t = false -> exists ex, of_struct_time t = inl ex.
Proof.
  unfold valid, of_struct_time, new; intros H.
  repeat match goal with
         | |- context [negb (in_range ?a ?b ?c)] =>
             destruct (in_range a b c); simpl in *; eauto
         end.
  discriminate.
Qed.

Lemma of_struct_time_inr t dt :
  of_struct_time t = inr dt -> valid t = true /\ dt = made t.
Proof.
  intros H; destruct (valid t) eqn:E.
  - rewrite (of_struct_time_valid t E) in H; split; congruence.
  - destruct (of_struct_time_invalid t E) as (ex & Hex); congruence.
Qed.

End ConversionFacts.

(** C6. For an entry with a parsed published date, or without one but
    with a parsed updated date, the conversion is the [datetime] of the
    six leading fields of that date, the published one taking priority:
    when the constructor accepts the fields the item is appended with
    exactly that [published] and with [has_time] true, and when it
    refuses them it raises and nothing is appended. Every returned item
    with a reliable time carries the conversion of the parsed date of its
    entry. *)
Theorem parsed_date_is_published (w : World) :
  (forall fn title e t s,
      parsed_date e t ->
      if Datetime.valid t
      then exists i, appends (process_entry w fn title e) s i
                     /\ NewsItem.published i = Datetime.made t
                     /\ NewsItem.has_time i = true
      else exists ex s', process_entry w fn title e s = (inl ex, s')
                         /\ Datetime.of_struct_time t = inl ex
                         /\ all_news s' = all_news s)
  /\ (forall urls i,
        In i (fetch_feeds w urls) -> NewsItem.has_time i = true ->
        exists url feed e t,
          In url urls
          /\ feedparser_parse w url = inr feed
          /\ In e (entries feed)
          /\ parsed_date e t
          /\ Datetime.valid t = true
          /\ NewsItem.published i = Datetime.made t).
Proof.
  assert (Hpd : forall e t, parsed_date e t -> published_parsed e = Some t).
  { intros e t [H|[H1 H2]]; unfold published_parsed; rewrite ?H, ?H1; auto. }
  split.
  - intros fn title e t s Hdate.
    destruct (RunFacts.process_entry_run w fn title e s) as (raw & n & H).
    rewrite (Hpd e t Hdate) in H.
    destruct (Datetime.valid t) eqn:Hv.
    + rewrite (ConversionFacts.of_struct_time_valid t Hv) in H.
      eexists; split; [eexists; split; [exact H|reflexivity]|].
      split; reflexivity.
    + destruct (ConversionFacts.of_struct_time_invalid t Hv) as (ex & Hex).
      rewrite Hex in H; eauto.
  - intros urls i Hin Hflag.
    destruct (RunFacts.fetch_feeds_from_source w urls i Hin)
      as (url & feed & e & s0 & Hurl & _ & Hparse & He & Happ).
    destruct (TimestampFacts.appends_inv _ _ _ _ _ _ Happ) as (raw & H).
    destruct (published_parsed e) as [t|] eqn:Ht.
    + destruct H as (dt & Hdt & ->).
      apply ConversionFacts.of_struct_time_inr in Hdt; destruct Hdt as [Hv ->].
      exists url, feed, e, t.
      split; [exact Hurl|]; split; [exact Hparse|]; split; [exact He|].
      split; [|split; [exact Hv|reflexivity]].
      unfold published_parsed in Ht; unfold parsed_date.
      destruct (RawEntry.published_parsed e); [left; congruence|right; auto].
    + subst i; discriminate.
Qed.

(* ------------------------------------------------------------------ *)
(** ** The returned list *)

Module AggregateFacts.
Import RunFacts.

Lemma appended_prefix w us1 us2 :
  exists tail, appended w (us1 ++ us2) = appended w us1 ++ tail.
Proof.
  unfold appended, collect; rewrite process_urls_app.
  destruct (process_urls w (fixed_now w) us1 (mk_run [] 1)) as [s1 r1].
  destruct (process_urls_news w (fixed_now w) us2 s1) as (items & H & _).
  destruct (process_urls w (fixed_now w) us2 s1) as [s2 r2]; simpl in *.
  eauto.
Qed.

(** One item for each entry met, as long as the entries are accepted. *)
Lemma process_urls_length w fn urls : forall s,
  (forall url, In url urls -> forallb entry_ok (entries_of w url) = true) ->
  length (all_news (fst (process_urls w fn urls s)))
  = (length (all_news s) + length (flat_map (entries_of w) urls))%nat.
Proof.
  induction urls as [|url urls IH]; intros s Hok; simpl.
  - lia.
  - assert (H1 : exists s1 r1,
               process_url w fn url s = (s1, r1)
               /\ length (all_news s1)
                  = (length (all_news s) + length (entries_of w url))%nat).
    { pose proof (Hok url (or_introl eq_refl)) as Hu.
      unfold entries_of in *.
      destruct (Py.nonempty (Py.strip url)) eqn:Hb; simpl in *.
      - destruct (feedparser_parse w url) as [ex|feed] eqn:Hp.
        + rewrite (process_url_raises w fn url ex s Hb Hp).
          eexists _, _; split; [reflexivity|simpl; lia].
        + destruct (process_url_ok w fn url feed s Hb Hp Hu)
            as (items & s' & Hrun & Hnews & Hlen).
          rewrite Hrun; eexists _, _; split; [reflexivity|].
          rewrite Hnews, length_app; lia.
      - unfold process_url; rewrite Hb; simpl.
        eexists _, _; split; [reflexivity|simpl; lia]. }
    destruct H1 as (s1 & r1 & Hrun & Hlen); rewrite Hrun.
    specialize (IH s1 (fun u Hu => Hok u (or_intror Hu))).
    destruct (process_urls w fn urls s1) as [s2 r2]; simpl in *.
    rewrite IH, Hlen, length_app; lia.
Qed.

Lemma fetch_feeds_length w urls :
  (forall url, In url urls -> forallb entry_ok (entries_of w url) = true) ->
  length (fetch_feeds w urls) = length (flat_map (entries_of w) urls).
Proof.
  intros Hok; unfold fetch_feeds.
  rewrite <- (Permutation_length (SortFacts.sort_reverse_perm _)).
  unfold appended, collect; rewrite process_urls_length by exact Hok.
  reflexivity.
Qed.

(** A source whose parse raises leaves the run as it was and is reported
    once, wherever it stands in the list. *)
Lemma collect_skips_failure w us1 us2 b ex :
  Py.nonempty (Py.strip b) = true ->
  feedparser_parse w b = inl ex ->
  exists s r1 r2,
    collect w (us1 ++ us2) = (s, r1 ++ r2)
    /\ collect w (us1 ++ b :: us2) = (s, r1 ++ (b, ex) :: r2).
Proof.
  intros Hb Hp; unfold collect; rewrite !process_urls_app.
  destruct (process_urls w (fixed_now w) us1 (mk_run [] 1)) as [s1 r1].
  simpl; rewrite (process_url_raises w _ b ex s1 Hb Hp).
  destruct (process_urls w (fixed_now w) us2 s1) as [s2 r2].
  exists s2, r1, r2; auto.
Qed.

End AggregateFacts.

(** C7. The returned list is in descending order of [published] (no
    item stands before one published later), it is a rearrangement of the
    list in the order of appending, and the sort is stable: for every
    instant the items published at it come out in the order in which they
    were appended. That order is source-encounter order: what the sources
    listed first appended is a prefix of it. *)
Theorem fetch_feeds_sorted_stable (w : World) (urls : list pystr) :
  StronglySorted not_later (fetch_feeds w urls)
  /\ Permutation (appended w urls) (fetch_feeds w urls)
  /\ (forall d,
        published_at d (fetch_feeds w urls) = published_at d (appended w urls))
  /\ (forall us1 us2, urls = us1 ++ us2 ->
        exists tail, appended w urls = appended w us1 ++ tail).
Proof.
  unfold fetch_feeds; split; [|split; [|split]].
  - apply SortFacts.sort_reverse_sorted.
  - apply SortFacts.sort_reverse_perm.
  - intros d; apply SortFacts.sort_reverse_stable.
  - intros us1 us2 ->; apply AggregateFacts.appended_prefix.
Qed.

(* ------------------------------------------------------------------ *)
(** ** Entries met more than once *)

Module RepeatFacts.
Import RunFacts.

(** The raw date the body of the loop computes, and the clock reads it
    makes. *)
Lemma raw_published_spec w e s :
  match Py.or_else (RawEntry.published e) (RawEntry.updated e) with
  | Some (c :: r) =>
      raw_published w e s = (inr (c :: r), s)
  | _ =>
      raw_published w e s
      = (inr (Datetime.to_str (now w (clock_reads s))),
         mk_run (all_news s) (S (clock_reads s)))
  end.
Proof.
  unfold raw_published.
  destruct (Py.or_else (RawEntry.published e) (RawEntry.updated e))
    as [[|c r]|]; reflexivity.
Qed.

(** The raw date of an appended item. *)
Lemma appends_raw_date w fn title e s i :
  appends (process_entry w fn title e) s i ->
  match Py.or_else (RawEntry.published e) (RawEntry.updated e) with
  | Some (c :: r) => NewsItem.raw_date i = c :: r
  | _ => NewsItem.raw_date i = Datetime.to_str (now w (clock_reads s))
  end.
Proof.
  intros (s' & Hrun & Hnews).
  pose proof (raw_published_spec w e s) as Hraw.
  unfold process_entry, bind in Hrun.
  assert (Hitem : forall raw s1,
             raw_published w e s = (inr raw, s1) ->
             all_news s1 = all_news s -> NewsItem.raw_date i = raw).
  { intros raw s1 Hr Hs1; rewrite Hr in Hrun.
    unfold timestamp in Hrun.
    destruct (published_parsed e) as [t|]; simpl in Hrun.
    - unfold bind, lift in Hrun.
      destruct (Datetime.of_struct_time t) as [ex|dt]; [discriminate|].
      simpl in Hrun; inversion Hrun; subst s'; simpl in Hnews.
      rewrite Hs1 in Hnews; apply app_inv_head in Hnews.
      inversion Hnews; reflexivity.
    - inversion Hrun; subst s'; simpl in Hnews.
      rewrite Hs1 in Hnews; apply app_inv_head in Hnews.
      inversion Hnews; reflexivity. }
  destruct (Py.or_else (RawEntry.published e) (RawEntry.updated e))
    as [[|c r]|]; eapply Hitem; eauto.
Qed.

(** With accepted entries the loop appends, entry by entry, the item of
    each. *)
Lemma for_each_ok_items w fn title es : forall s,
  forallb entry_ok es = true ->
  exists items s',
    for_each (process_entry w fn title) es s = (inr tt, s')
    /\ all_news s' = all_news s ++ items
    /\ Forall2 (fun e i => exists s0,
                  appends (process_entry w fn title e) s0 i) es items.
Proof.
  induction es as [|e es IH]; intros s Hok; simpl in *.
  - exists [], s; rewrite app_nil_r; repeat split; constructor.
  - apply andb_true_iff in Hok; destruct Hok as [He Hes].
    destruct (process_entry_news w fn title e s)
      as [(i & s1 & Hrun & Hnews)|(ex & s1 & Hrun & _)].
    + destruct (IH s1 Hes) as (items & s' & Hloop & Hall & Hitems).
      exists (i :: items), s'; unfold bind; rewrite Hrun.
      split; [exact Hloop|]; split.
      * rewrite Hall, Hnews, <- app_assoc; reflexivity.
      * constructor; [|exact Hitems].
        exists s, s1; auto.
    + exfalso.
      destruct (process_entry_run w fn title e s) as (raw & n & H).
      unfold entry_ok in He; rewrite Hrun in H.
      destruct (published_parsed e) as [t|]; [|discriminate].
      destruct (Datetime.of_struct_time t); discriminate.
Qed.

Lemma date_string_or_else e :
  has_date_string e ->
  exists c r,
    Py.or_else (RawEntry.published e) (RawEntry.updated e) = Some (c :: r).
Proof.
  unfold Py.or_else; intros [(c & r & H)|(c & r & H)].
  - rewrite H; simpl; eauto.
  - destruct (RawEntry.published e) as [[|c' r']|]; simpl; eauto.
Qed.

(** The item of an entry that carries a date string does not depend on
    the run in which the entry is met. *)
Lemma appends_same w fn title e s1 s2 i1 i2 :
  has_date_string e ->
  appends (process_entry w fn title e) s1 i1 ->
  appends (process_entry w fn title e) s2 i2 ->
  i1 = i2.
Proof.
  intros Hd H1 H2.
  destruct (date_string_or_else e Hd) as (c & r & Hraw).
  pose proof (appends_raw_date _ _ _ _ _ _ H1) as R1.
  pose proof (appends_raw_date _ _ _ _ _ _ H2) as R2.
  rewrite Hraw in R1, R2.
  destruct (TimestampFacts.appends_inv _ _ _ _ _ _ H1) as (raw1 & E1).
  destruct (TimestampFacts.appends_inv _ _ _ _ _ _ H2) as (raw2 & E2).
  destruct (published_parsed e) as [t|].
  - destruct E1 as (dt1 & C1 & ->), E2 as (dt2 & C2 & ->).
    simpl in R1, R2; subst raw1 raw2; congruence.
  - subst i1 i2; simpl in R1, R2; subst raw1 raw2; reflexivity.
Qed.

Lemma twice_in_app {A} (i : A) l1 l2 :
  In i l1 -> In i l2 -> twice i (l1 ++ l2).
Proof.
  intros H1 H2.
  apply in_split in H1; destruct H1 as (a & b & ->).
  apply in_split in H2; destruct H2 as (c & d & ->).
  exists a, (b ++ c), d.
  rewrite <- ?app_assoc; simpl; rewrite <- ?app_assoc; reflexivity.
Qed.

Lemma twice_within {A} (i : A) before l after :
  twice i l -> twice i (before ++ l ++ after).
Proof.
  intros (l1 & l2 & l3 & ->).
  exists (before ++ l1), l2, (l3 ++ after).
  rewrite <- ?app_assoc; simpl; rewrite <- ?app_assoc; reflexivity.
Qed.

Lemma twice_perm {A} (i : A) l l' :
  Permutation l l' -> twice i l -> twice i l'.
Proof.
  intros Hp (l1 & l2 & l3 & ->).
  assert (Hin : In i l')
    by (eapply Permutation_in; [exact Hp|apply in_elt]).
  apply in_split in Hin; destruct Hin as (a & b & ->).
  apply Permutation_app_inv in Hp.
  assert (Hin : In i (a ++ b))
    by (eapply Permutation_in; [exact Hp|];
        apply in_or_app; right; apply in_elt).
  apply in_app_or in Hin; destruct Hin as [Hin|Hin];
    apply in_split in Hin; destruct Hin as (c & d & ->).
  - exists c, d, b.
    rewrite <- ?app_assoc; simpl; rewrite <- ?app_assoc; reflexivity.
  - exists a, c, d; reflexivity.
Qed.

Lemma twice_not_NoDup {A} (i : A) l : twice i l -> ~ NoDup l.
Proof.
  intros (l1 & l2 & l3 & ->) H.
  apply NoDup_remove_2 in H; apply H.
  apply in_or_app; right; apply in_elt.
Qed.

(** Related lists: an element met twice on the left has its two
    counterparts on the right. *)
Lemma Forall2_twice {A B} (R : A -> B -> Prop) x l l' :
  Forall2 R l l' -> twice x l ->
  exists j1 y j2 y' j3,
    l' = j1 ++ y :: j2 ++ y' :: j3 /\ R x y /\ R x y'.
Proof.
  intros HF (l1 & l2 & l3 & ->).
  apply Forall2_app_inv_l in HF; destruct HF as (j1 & r1 & _ & HF & ->).
  inversion HF as [|x0 y ? r2 Hy HF2]; subst.
  apply Forall2_app_inv_l in HF2; destruct HF2 as (j2 & r3 & _ & HF3 & ->).
  inversion HF3 as [|x1 y' ? j3 Hy' _]; subst.
  exists j1, y, j2, y', j3; auto.
Qed.

Lemma Forall2_In {A B} (R : A -> B -> Prop) l l' x :
  Forall2 R l l' -> In x l -> exists y, In y l' /\ R x y.
Proof.
  induction 1 as [|a b l l' Hab _ IH]; intros Hin; [destruct Hin|].
  destruct Hin as [<-|Hin].
  - exists b; split; [now left|exact Hab].
  - destruct (IH Hin) as (y & Hy & Hr); exists y; split; [now right|exact Hr].
Qed.

(** What a listed source with accepted entries appends: after what the
    sources before it appended, the item of each of its entries. *)
Lemma appended_at w us1 url us2 feed :
  Py.nonempty (Py.strip url) = true ->
  feedparser_parse w url = inr feed ->
  forallb entry_ok (entries feed) = true ->
  exists items after,
    appended w (us1 ++ url :: us2) = appended w us1 ++ items ++ after
    /\ Forall2 (fun e i => exists s0,
                  appends (process_entry w (fixed_now w)
                             (get_default (feed_title feed) url) e) s0 i)
         (entries feed) items.
Proof.
  intros Hb Hp Hok; unfold appended, collect.
  rewrite process_urls_app.
  destruct (process_urls w (fixed_now w) us1 (mk_run [] 1)) as [s1 r1].
  cbn [process_urls fst].
  destruct (for_each_ok_items w (fixed_now w)
              (get_default (feed_title feed) url) (entries feed) s1 Hok)
    as (items & s2 & Hloop & Hnews & Hall).
  assert (Hrun : process_url w (fixed_now w) url s1 = (s2, [])).
  { unfold process_url, try_except, process_feed, bind, lift.
    now rewrite Hb, Hp, Hloop. }
  rewrite Hrun.
  destruct (process_urls_news w (fixed_now w) us2 s2) as (after & Hafter & _).
  destruct (process_urls w (fixed_now w) us2 s2) as [s3 r3].
  cbn [fst] in *.
  exists items, after; split; [|exact Hall].
  now rewrite Hafter, Hnews, <- app_assoc.
Qed.

End RepeatFacts.

(** C4, as the code has it. The returned list is time-ordered and keeps
    every appended item as often as it was appended: it is a
    rearrangement of the appended list, and when the parsed dates of the
    entries met are accepted it has one item for each entry met. Nothing
    is removed as a duplicate: an entry that carries a date string and
    stands twice in the feed of a listed source, or stands in the feed
    of a source listed twice, has its item twice in the returned list,
    the parsed dates of that feed being accepted. *)
Theorem fetch_feeds_keeps_every_item (w : World) (urls : list pystr) :
  StronglySorted not_later (fetch_feeds w urls)
  /\ Permutation (appended w urls) (fetch_feeds w urls)
  /\ length (fetch_feeds w urls) = length (appended w urls)
  /\ ((forall url, In url urls ->
         forallb entry_ok (entries_of w url) = true) ->
      length (fetch_feeds w urls) = length (flat_map (entries_of w) urls))
  /\ (forall url feed e,
        In url urls ->
        Py.nonempty (Py.strip url) = true ->
        feedparser_parse w url = inr feed ->
        forallb entry_ok (entries feed) = true ->
        twice e (entries feed) ->
        has_date_string e ->
        exists i s0,
          appends (process_entry w (utcnow w 0)
                     (get_default (feed_title feed) url) e) s0 i
          /\ twice i (fetch_feeds w urls)
          /\ ~ NoDup (fetch_feeds w urls))
  /\ (forall url feed e,
        twice url urls ->
        Py.nonempty (Py.strip url) = true ->
        feedparser_parse w url = inr feed ->
        forallb entry_ok (entries feed) = true ->
        In e (entries feed) ->
        has_date_string e ->
        exists i s0,
          appends (process_entry w (utcnow w 0)
                     (get_default (feed_title feed) url) e) s0 i
          /\ twice i (fetch_feeds w urls)
          /\ ~ NoDup (fetch_feeds w urls)).
Proof.
  assert (Hsorted : forall i, twice i (appended w urls) ->
            twice i (fetch_feeds w urls) /\ ~ NoDup (fetch_feeds w urls)).
  { intros i Hi.
    assert (Ht : twice i (fetch_feeds w urls))
      by (eapply RepeatFacts.twice_perm;
          [apply SortFacts.sort_reverse_perm|exact Hi]).
    split; [exact Ht|now apply (RepeatFacts.twice_not_NoDup i)]. }
  split; [|split; [|split; [|split; [|split]]]].
  - apply SortFacts.sort_reverse_sorted.
  - apply SortFacts.sort_reverse_perm.
  - symmetry; apply Permutation_length, SortFacts.sort_reverse_perm.
  - apply AggregateFacts.fetch_feeds_length.
  - intros url feed e Hin Hb Hp Hok He Hd.
    apply in_split in Hin; destruct Hin as (us1 & us2 & ->).
    destruct (RepeatFacts.appended_at w us1 url us2 feed Hb Hp Hok)
      as (items & after & Happ & Hall).
    destruct (RepeatFacts.Forall2_twice _ _ _ _ Hall He)
      as (j1 & i & j2 & i' & j3 & -> & (s0 & Hi) & (s0' & Hi')).
    assert (i' = i) by (eapply RepeatFacts.appends_same; eauto); subst i'.
    exists i, s0; split; [exact Hi|].
    apply Hsorted; rewrite Happ.
    apply RepeatFacts.twice_within; exists j1, j2, j3; reflexivity.
  - intros url feed e (us1 & us2 & us3 & ->) Hb Hp Hok He Hd.
    destruct (RepeatFacts.appended_at w us1 url us2 feed Hb Hp Hok)
      as (items & after & Happ & Hall).
    replace (us1 ++ url :: us2 ++ url :: us3)
      with ((us1 ++ url :: us2) ++ url :: us3) in *
      by (now rewrite <- app_assoc).
    destruct (RepeatFacts.appended_at w (us1 ++ url :: us2) url us3 feed
                Hb Hp Hok) as (items2 & after2 & Happ2 & Hall2).
    destruct (RepeatFacts.Forall2_In _ _ _ _ Hall He)
      as (i & Hin & s0 & Hi).
    destruct (RepeatFacts.Forall2_In _ _ _ _ Hall2 He)
      as (i' & Hin' & s0' & Hi').
    assert (i' = i) by (eapply RepeatFacts.appends_same; eauto); subst i'.
    exists i, s0; split; [exact Hi|].
    apply Hsorted; rewrite Happ2, Happ.
    apply RepeatFacts.twice_in_app.
    + apply in_or_app; right; apply in_or_app; now left.
    + apply in_or_app; now left.
Qed.

(** C4, as stated, fails: a feed that carries the same entry twice comes
    back as the same item twice. *)
Lemma fetch_feeds_repeats_items :
  fetch_feeds Sample.world [Sample.url_twice]
  = [Sample.item_twice; Sample.item_twice]
  /\ ~ NoDup (fetch_feeds Sample.world [Sample.url_twice]).
Proof.
  assert (E : fetch_feeds Sample.world [Sample.url_twice]
              = [Sample.item_twice; Sample.item_twice])
    by (vm_compute; reflexivity).
  split; [exact E|].
  rewrite E; intros H; inversion H as [|x l Hnot _]; subst.
  apply Hnot; now left.
Qed.

(** C2. A source whose fetch raises is caught and reported with its URL
    and its exception; the call returns the list it returns without that
    source, the appended list and every other report being the same, so
    the items of the other sources are neither removed nor reordered. The
    call itself returns a list whatever the sources do. With a first
    source of two accepted entries, a failing second one and a third of
    one accepted entry, three items come back in descending order of
    [published]. *)
Theorem failing_source_is_isolated (w : World) (us1 us2 : list pystr)
  (b : pystr) (ex : exn) :
  Py.nonempty (Py.strip b) = true ->
  feedparser_parse w b = inl ex ->
  fetch_feeds w (us1 ++ b :: us2) = fetch_feeds w (us1 ++ us2)
  /\ appended w (us1 ++ b :: us2) = appended w (us1 ++ us2)
  /\ (exists r1 r2,
        fetch_feeds_errors w (us1 ++ us2) = r1 ++ r2
        /\ fetch_feeds_errors w (us1 ++ b :: us2) = r1 ++ (b, ex) :: r2)
  /\ (forall a c fa fc,
        us1 = [a] -> us2 = [c] ->
        Py.nonempty (Py.strip a) = true -> Py.nonempty (Py.strip c) = true ->
        feedparser_parse w a = inr fa -> feedparser_parse w c = inr fc ->
        length (entries fa) = 2%nat -> length (entries fc) = 1%nat ->
        forallb entry_ok (entries fa) = true ->
        forallb entry_ok (entries fc) = true ->
        length (fetch_feeds w [a; b; c]) = 3%nat
        /\ StronglySorted not_later (fetch_feeds w [a; b; c])).
Proof.
  intros Hb Hp.
  destruct (AggregateFacts.collect_skips_failure w us1 us2 b ex Hb Hp)
    as (s & r1 & r2 & H0 & H1).
  assert (Happ : appended w (us1 ++ b :: us2) = appended w (us1 ++ us2))
    by (unfold appended; now rewrite H0, H1).
  split; [unfold fetch_feeds; now rewrite Happ|].
  split; [exact Happ|].
  split; [exists r1, r2; unfold fetch_feeds_errors; now rewrite H0, H1|].
  intros a c fa fc -> -> Ha Hc Hpa Hpc La Lc Oa Oc.
  split; [|apply SortFacts.sort_reverse_sorted].
  assert (Ea : entries_of w a = entries fa)
    by (unfold entries_of; now rewrite Ha, Hpa).
  assert (Eb : entries_of w b = [])
    by (unfold entries_of; now rewrite Hb, Hp).
  assert (Ec : entries_of w c = entries fc)
    by (unfold entries_of; now rewrite Hc, Hpc).
  rewrite AggregateFacts.fetch_feeds_length.
  - simpl; rewrite Ea, Eb, Ec; simpl.
    rewrite app_nil_r, length_app, La, Lc; reflexivity.
  - intros u [<-|[<-|[<-|[]]]]; rewrite ?Ea, ?Eb, ?Ec; auto.
Qed.

(* ------------------------------------------------------------------ *)
(** ** The recency filter *)

Module FilterFacts.

Lemma within_window_spec now_utc window i :
  within_window now_utc window i = true <-> in_window now_utc window i.
Proof.
  unfold within_window, in_window.
  rewrite andb_true_iff, !Z.leb_le; tauto.
Qed.

Lemma filter_Kept {A} (f : A -> bool) (P : A -> Prop) l :
  (forall x, f x = true <-> P x) -> Kept P l (filter f l).
Proof.
  intros H; induction l as [|x l IH]; simpl; [constructor|].
  destruct (f x) eqn:E.
  - constructor; [now apply H|exact IH].
  - constructor; [|exact IH].
    intros HP; apply H in HP; congruence.
Qed.

End FilterFacts.

(** C5. For every list, reference instant and window in seconds, the
    filter keeps exactly the items published at most the window before
    the reference and not after it, in their input order and as they
    are; the difference is not clamped, so an item published after the
    reference is dropped. The page applies it with a window of 7200
    seconds: an item published one hour before the reference stays, one
    published three hours before it or ten minutes after it goes. *)
Theorem recency_filter_keeps_window (now_utc : datetime) (window : Z)
  (items : list NewsItem.t) :
  Kept (in_window now_utc window) items (recency_filter now_utc window items)
  /\ (forall i, In i (recency_filter now_utc window items)
                <-> In i items /\ in_window now_utc window i)
  /\ (forall i, Datetime.sub_microseconds now_utc (NewsItem.published i) < 0
                -> ~ In i (recency_filter now_utc window items))
  /\ news_items now_utc items = recency_filter now_utc 7200 items
  /\ (forall i, In i items ->
        Datetime.sub_microseconds now_utc (NewsItem.published i)
        = 3600 * 1000000 ->
        In i (news_items now_utc items))
  /\ (forall i,
        Datetime.sub_microseconds now_utc (NewsItem.published i)
        = 3 * 3600 * 1000000 ->
        ~ In i (news_items now_utc items))
  /\ (forall i,
        Datetime.sub_microseconds now_utc (NewsItem.published i)
        = - (600 * 1000000) ->
        ~ In i (news_items now_utc items)).
Proof.
  assert (Hin : forall W i, In i (recency_filter now_utc W items)
                            <-> In i items /\ in_window now_utc W i).
  { intros W i; unfold recency_filter.
    rewrite filter_In, FilterFacts.within_window_spec; tauto. }
  split; [|split; [|split; [|split; [|split; [|split]]]]].
  - apply FilterFacts.filter_Kept, FilterFacts.within_window_spec.
  - apply Hin.
  - intros i Hneg Hi; apply Hin in Hi; unfold in_window in Hi; lia.
  - reflexivity.
  - intros i Hi Hd; apply Hin; split; [exact Hi|].
    unfold in_window; lia.
  - intros i Hd Hi; apply Hin in Hi; unfold in_window in Hi; lia.
  - intros i Hd Hi; apply Hin in Hi; unfold in_window in Hi; lia.
Qed.

(* ------------------------------------------------------------------ *)
(** ** Image resolution *)

Module ImageFacts.
Import ImageSpec.

Lemma located_truthy v : located v = if Py.truthy v then v else None.
Proof. destruct v as [[|c u]|]; reflexivity. Qed.

Lemma str_eqb_refl s : Py.str_eqb s s = true.
Proof.
  unfold Py.str_eqb; destruct (list_eq_dec N.eq_dec s s); congruence.
Qed.

Lemma str_eqb_cons a b x y :
  Py.str_eqb (b :: x) (a :: y) = (a =? b)%N && Py.str_eqb x y.
Proof.
  unfold Py.str_eqb.
  destruct (list_eq_dec N.eq_dec (b :: x) (a :: y)) as [E|E].
  - inversion E; subst; rewrite N.eqb_refl.
    destruct (list_eq_dec N.eq_dec y y); [reflexivity|congruence].
  - destruct (N.eqb_spec a b) as [Hab|Hab]; [|reflexivity].
    destruct (list_eq_dec N.eq_dec x y) as [Hxy|Hxy]; [|reflexivity].
    exfalso; apply E; congruence.
Qed.

(** [s.startswith(p)] compares the first [len(p)] characters of [s]
    with [p]. *)
Lemma startswith_firstn p : forall s,
  Py.startswith p s = Py.str_eqb (firstn (length p) s) p.
Proof.
  induction p as [|a p IH]; intros s; simpl.
  - symmetry; apply str_eqb_refl.
  - destruct s as [|b s]; simpl.
    + unfold Py.str_eqb.
      destruct (list_eq_dec N.eq_dec [] (a :: p)); [discriminate|reflexivity].
    + now rewrite str_eqb_cons, IH.
Qed.

Lemma mime_is_image_eq ty : mime_is_image ty = type_is_image ty.
Proof.
  destruct ty as [s|]; [|reflexivity].
  unfold mime_is_image, type_is_image.
  now rewrite startswith_firstn.
Qed.

Lemma html_text_eq e : html_text e = content_to_parse e.
Proof.
  unfold html_text, content_to_parse.
  destruct (RawEntry.content e) as [cs|]; [|reflexivity].
  now rewrite flat_map_concat_map.
Qed.

Lemma find_ext {A} (f g : A -> bool) l :
  (forall x, f x = g x) -> find f l = find g l.
Proof.
  intros H; induction l as [|x l IH]; simpl; [reflexivity|].
  now rewrite H, IH.
Qed.

Lemma media_content_step_spec e :
  located (media_content_step e None) = located (media_content_url e).
Proof.
  unfold media_content_step, media_content_url.
  destruct (RawEntry.media_content e) as [ms|]; [|reflexivity].
  erewrite find_ext; [reflexivity|].
  intros m; unfold media_is_image; now rewrite mime_is_image_eq.
Qed.

Lemma media_thumbnail_step_spec e c :
  carries c (thumbnail e) (media_thumbnail_step e c).
Proof.
  unfold carries, media_thumbnail_step, thumbnail; rewrite (located_truthy c).
  destruct (Py.truthy c) eqn:E.
  - rewrite located_truthy, E; destruct c; [reflexivity|discriminate].
  - destruct (RawEntry.media_thumbnail e) as [[|th r]|]; try reflexivity;
      rewrite located_truthy, E; reflexivity.
Qed.

Lemma first_image_href_spec ls c :
  carries c (first_image_link ls) (first_image_href ls c).
Proof.
  unfold carries, first_image_href, first_image_link;
    rewrite (located_truthy c).
  destruct (Py.truthy c) eqn:E.
  - rewrite located_truthy, E; destruct c; [reflexivity|discriminate].
  - destruct ls as [l|]; [|rewrite located_truthy, E; reflexivity].
    rewrite (find_ext (fun x => mime_is_image (link_type x)) link_is_image)
      by (intros x; apply mime_is_image_eq).
    destruct (find link_is_image l); [reflexivity|].
    rewrite located_truthy, E; reflexivity.
Qed.

Lemma html_step_spec soup e c :
  carries c (embedded_img_src soup e) (html_step soup e c).
Proof.
  unfold carries, html_step, embedded_img_src, html_scan;
    rewrite html_text_eq, (located_truthy c).
  destruct (Py.truthy c) eqn:E.
  - rewrite located_truthy, E; destruct c; [reflexivity|discriminate].
  - assert (Hc : located c = None) by (now rewrite located_truthy, E).
    destruct (content_to_parse e) as [|a html]; simpl; [exact Hc|].
    destruct (soup (a :: html)) as [ex|doc]; [exact Hc|].
    destruct (soup_find (Py.lit "img") doc) as [t|]; [|exact Hc].
    destruct (Py.truthy (tag_get (Py.lit "src") (tag_attrs t))) eqn:Es.
    + reflexivity.
    + rewrite Hc, located_truthy, Es; reflexivity.
Qed.

(** The code agrees with the chain of the specification. *)
Lemma resolve_image_refines soup e :
  located (resolve_image soup e) = ImageSpec.resolve soup e.
Proof.
  unfold resolve_image, ImageSpec.resolve, chain; simpl.
  rewrite html_step_spec.
  unfold links_step, enclosures_step.
  rewrite first_image_href_spec, first_image_href_spec.
  rewrite media_thumbnail_step_spec, media_content_step_spec.
  unfold enclosure_href, link_href_of.
  destruct (located (media_content_url e)); [reflexivity|].
  destruct (located (thumbnail e)); [reflexivity|].
  destruct (located (first_image_link (RawEntry.enclosures e)));
    [reflexivity|].
  destruct (located (first_image_link (RawEntry.links e))); [reflexivity|].
  destruct (located (embedded_img_src soup e)); reflexivity.
Qed.

Lemma located_some v u : located v = Some u -> v = Some u /\ u <> [].
Proof.
  destruct v as [[|c r]|]; simpl; try discriminate.
  intros H; inversion H; subst; split; [reflexivity|discriminate].
Qed.

Lemma located_none v : located v = None -> v = None \/ v = Some [].
Proof. destruct v as [[|c r]|]; simpl; auto; discriminate. Qed.

(** A located URL passes through every later block. *)
Lemma keeps_located soup e u :
  u <> [] ->
  html_step soup e
    (links_step e (enclosures_step e (media_thumbnail_step e (Some u))))
  = Some u.
Proof.
  intros Hu.
  assert (T : Py.truthy (Some u) = true) by (destruct u; [easy|reflexivity]).
  unfold html_step, links_step, enclosures_step, first_image_href,
    media_thumbnail_step.
  now rewrite !T.
Qed.

Lemma find_first {A} (f : A -> bool) pre x post :
  forallb (fun y => negb (f y)) pre = true -> f x = true ->
  find f (pre ++ x :: post) = Some x.
Proof.
  induction pre as [|y pre IH]; simpl; intros Hpre Hx.
  - now rewrite Hx.
  - apply andb_true_iff in Hpre; destruct Hpre as [Hy Hpre].
    apply negb_true_iff in Hy; rewrite Hy; auto.
Qed.

(** The href of the first image-typed descriptor of a list. *)
Lemma first_image_link_first ls pre x post :
  ls = Some (pre ++ x :: post) ->
  forallb (fun y => negb (link_is_image y)) pre = true ->
  link_is_image x = true ->
  first_image_link ls = link_href x.
Proof.
  intros -> Hpre Hx; unfold first_image_link.
  rewrite (find_ext (fun y => mime_is_image (link_type y)) link_is_image)
    by (intros y; apply mime_is_image_eq).
  now rewrite (find_first _ pre x post Hpre Hx).
Qed.

(** The [src] of the first [img] element of the parsed text. *)
Lemma embedded_img_src_first soup e doc t :
  content_to_parse e <> [] ->
  soup (content_to_parse e) = inr doc ->
  soup_find (Py.lit "img") doc = Some t ->
  embedded_img_src soup e = tag_get (Py.lit "src") (tag_attrs t).
Proof.
  intros Hc Hsoup Hfind; unfold embedded_img_src; rewrite html_text_eq.
  destruct (content_to_parse e) as [|a html]; [congruence|].
  now rewrite Hsoup, Hfind.
Qed.

(** Blocks 2 to 5, run without a URL, follow the chain of the strategies
    that remain. *)
Lemma later_blocks_refine soup e :
  located
    (html_step soup e
       (links_step e (enclosures_step e (media_thumbnail_step e None))))
  = first_success (later_strategies soup) e.
Proof.
  unfold later_strategies; simpl.
  rewrite html_step_spec.
  unfold links_step, enclosures_step.
  rewrite first_image_href_spec, first_image_href_spec.
  rewrite media_thumbnail_step_spec.
  unfold enclosure_href, link_href_of; simpl.
  destruct (located (thumbnail e)); [reflexivity|].
  destruct (located (first_image_link (RawEntry.enclosures e)));
    [reflexivity|].
  destruct (located (first_image_link (RawEntry.links e))); [reflexivity|].
  destruct (located (embedded_img_src soup e)); reflexivity.
Qed.

(** An empty string is never found by block 5: it was carried there. *)
Lemma html_step_empty soup e c : html_step soup e c = Some [] -> c = Some [].
Proof.
  unfold html_step, html_scan.
  destruct (Py.truthy c) eqn:T; [intros ->; discriminate|].
  destruct (Py.nonempty (content_to_parse e)); [|auto].
  destruct (soup (content_to_parse e)) as [ex|doc]; [auto|].
  destruct (soup_find (Py.lit "img") doc) as [t|]; [|auto].
  destruct (Py.truthy (tag_get (Py.lit "src") (tag_attrs t))) eqn:Ts; [|auto].
  intros H; rewrite H in Ts; discriminate.
Qed.

Lemma first_image_href_empty ls c :
  first_image_href ls c = Some [] ->
  c = Some [] \/ first_image_link ls = Some [].
Proof.
  unfold first_image_href, first_image_link.
  destruct (Py.truthy c) eqn:T; [intros ->; discriminate|].
  destruct ls as [l|]; [|auto].
  rewrite (find_ext (fun x => mime_is_image (link_type x)) link_is_image)
    by (intros x; apply mime_is_image_eq).
  destruct (find link_is_image l); auto.
Qed.

Lemma media_thumbnail_step_empty e c :
  media_thumbnail_step e c = Some [] -> c = Some [] \/ thumbnail e = Some [].
Proof.
  unfold media_thumbnail_step, thumbnail.
  destruct (Py.truthy c) eqn:T; [intros ->; discriminate|].
  destruct (RawEntry.media_thumbnail e) as [[|th r]|]; auto.
Qed.

Lemma media_content_step_empty e :
  media_content_step e None = Some [] -> media_content_url e = Some [].
Proof.
  unfold media_content_step, media_content_url.
  destruct (RawEntry.media_content e) as [ms|]; [|discriminate].
  rewrite (find_ext
             (fun m => match media_medium m with
                       | Some s => Py.str_eqb s (Py.lit "image")
                       | None => false
                       end || mime_is_image (media_type m)) media_is_image)
    by (intros m; unfold media_is_image; now rewrite mime_is_image_eq).
  destruct (find media_is_image ms); [auto|discriminate].
Qed.

(** An empty string returned by the resolver was read off a descriptor. *)
Lemma resolve_image_empty soup e :
  resolve_image soup e = Some [] ->
  exists strategy, In strategy descriptor_strategies /\ strategy e = Some [].
Proof.
  unfold resolve_image, links_step, enclosures_step, descriptor_strategies.
  intros H; apply html_step_empty in H.
  apply first_image_href_empty in H; destruct H as [H|H];
    [|exists link_href_of; split; [simpl; tauto|exact H]].
  apply first_image_href_empty in H; destruct H as [H|H];
    [|exists enclosure_href; split; [simpl; tauto|exact H]].
  apply media_thumbnail_step_empty in H; destruct H as [H|H];
    [|exists thumbnail; split; [simpl; tauto|exact H]].
  apply media_content_step_empty in H.
  exists media_content_url; split; [simpl; tauto|exact H].
Qed.

End ImageFacts.

(** C3, as the code has it. The resolver tries the five strategies in
    the fixed order media content, media thumbnail, enclosures, links,
    embedded HTML, and the first that finds a URL wins, a URL being found
    when the strategy yields a string that is not empty: the resolver
    then returns exactly that URL. When no strategy finds one the
    resolver returns nothing or the empty string, and the empty string
    only when one of the four descriptor strategies read it off the
    descriptor it accepted. In particular the non-empty URL of the first
    media-content image descriptor wins over any image in the HTML, and
    with no descriptor at all the [src] of the first [img] of the
    summary and content text is returned. *)
Theorem image_resolution_follows_chain (soup : pystr -> exn + list Tag)
  (e : RawEntry.t) :
  ImageSpec.located (resolve_image soup e) = ImageSpec.resolve soup e
  /\ (forall u, ImageSpec.resolve soup e = Some u ->
                resolve_image soup e = Some u /\ u <> [])
  /\ (ImageSpec.resolve soup e = None ->
      resolve_image soup e = None
      \/ (resolve_image soup e = Some []
          /\ exists strategy,
               In strategy ImageSpec.descriptor_strategies
               /\ strategy e = Some []))
  /\ (forall ms m u,
        RawEntry.media_content e = Some ms ->
        find media_is_image ms = Some m ->
        media_url m = Some u -> u <> [] ->
        resolve_image soup e = Some u)
  /\ (forall doc t u,
        RawEntry.media_content e = None ->
        RawEntry.media_thumbnail e = None ->
        RawEntry.enclosures e = None ->
        RawEntry.links e = None ->
        content_to_parse e <> [] ->
        soup (content_to_parse e) = inr doc ->
        soup_find (Py.lit "img") doc = Some t ->
        tag_get (Py.lit "src") (tag_attrs t) = Some u -> u <> [] ->
        resolve_image soup e = Some u).
Proof.
  pose proof (ImageFacts.resolve_image_refines soup e) as R.
  split; [exact R|]; split; [|split; [|split]].
  - intros u Hu; rewrite <- R in Hu.
    now apply ImageFacts.located_some.
  - intros Hn; rewrite <- R in Hn.
    destruct (ImageFacts.located_none _ Hn) as [H|H]; [now left|right].
    split; [exact H|now apply (ImageFacts.resolve_image_empty soup)].
  - intros ms m u Hms Hfind Hurl Hu.
    unfold resolve_image, media_content_step.
    rewrite Hms, Hfind, Hurl.
    now apply ImageFacts.keeps_located.
  - intros doc t u Hm Hth Hen Hl Hc Hsoup Hfind Hsrc Hu.
    unfold resolve_image, media_content_step, media_thumbnail_step,
      links_step, enclosures_step, first_image_href, html_step, html_scan.
    rewrite Hm, Hth, Hen, Hl; simpl.
    destruct (content_to_parse e) as [|a html] eqn:Ec; [congruence|].
    simpl; rewrite Hsoup, Hfind, Hsrc.
    destruct u; [congruence|reflexivity].
Qed.

(** C3, as stated, fails. A media-content image descriptor whose [url]
    is the empty string finds no URL, and no other strategy has anything
    to read: the resolver returns the empty string, not nothing. Nor is
    that string a success that wins: with a thumbnail beside the same
    descriptor the thumbnail is returned. *)
Lemma image_resolution_returns_empty_string :
  ImageSpec.media_content_url Sample.media_empty_url = Some []
  /\ ImageSpec.resolve HtmlScanner.parse Sample.media_empty_url = None
  /\ resolve_image HtmlScanner.parse Sample.media_empty_url = Some []
  /\ resolve_image HtmlScanner.parse Sample.media_empty_url <> None
  /\ ImageSpec.media_content_url Sample.media_empty_then_thumb = Some []
  /\ resolve_image HtmlScanner.parse Sample.media_empty_then_thumb
     = Some (Py.lit "http://a/thumb.jpg").
Proof.
  split; [reflexivity|]; split; [reflexivity|]; split; [reflexivity|].
  split; [discriminate|]; split; reflexivity.
Qed.

(** C9. When the first media-content descriptor that passes the image
    test has no [url], block 1 stops there and leaves no URL, whatever
    descriptors follow it; the resolver then gives what blocks 2 to 5
    give, which is what it gives for the entry without [media_content].
    The four later strategies are tried in their order, the first that
    finds a URL winning: the URL of the first thumbnail is returned;
    without one, the href of the first image enclosure; without one, the
    href of the first image link; without one, the [src] of the first
    [img] of the summary and content text. *)
Theorem media_without_url_falls_through (soup : pystr -> exn + list Tag)
  (e : RawEntry.t) (pre post : list Media) (m : Media) :
  RawEntry.media_content e = Some (pre ++ m :: post) ->
  forallb (fun x => negb (media_is_image x)) pre = true ->
  media_is_image m = true ->
  media_url m = None ->
  media_content_step e None = None
  /\ resolve_image soup e
     = html_step soup e
         (links_step e (enclosures_step e (media_thumbnail_step e None)))
  /\ resolve_image soup e = resolve_image soup (without_media_content e)
  /\ (forall th rest u,
        RawEntry.media_thumbnail e = Some (th :: rest) ->
        thumbnail_url th = Some u -> u <> [] ->
        resolve_image soup e = Some u)
  /\ ImageSpec.located (resolve_image soup e)
     = ImageSpec.first_success (ImageSpec.later_strategies soup) e
  /\ (forall before x after u,
        ImageSpec.located (ImageSpec.thumbnail e) = None ->
        RawEntry.enclosures e = Some (before ++ x :: after) ->
        forallb (fun y => negb (link_is_image y)) before = true ->
        link_is_image x = true ->
        link_href x = Some u -> u <> [] ->
        resolve_image soup e = Some u)
  /\ (forall before x after u,
        ImageSpec.located (ImageSpec.thumbnail e) = None ->
        ImageSpec.located (ImageSpec.enclosure_href e) = None ->
        RawEntry.links e = Some (before ++ x :: after) ->
        forallb (fun y => negb (link_is_image y)) before = true ->
        link_is_image x = true ->
        link_href x = Some u -> u <> [] ->
        resolve_image soup e = Some u)
  /\ (forall doc t u,
        ImageSpec.located (ImageSpec.thumbnail e) = None ->
        ImageSpec.located (ImageSpec.enclosure_href e) = None ->
        ImageSpec.located (ImageSpec.link_href_of e) = None ->
        content_to_parse e <> [] ->
        soup (content_to_parse e) = inr doc ->
        soup_find (Py.lit "img") doc = Some t ->
        tag_get (Py.lit "src") (tag_attrs t) = Some u -> u <> [] ->
        resolve_image soup e = Some u)
  /\ (ImageSpec.first_success (ImageSpec.later_strategies soup) e = None ->
      Py.truthy (resolve_image soup e) = false).
Proof.
  intros Hms Hpre Hm Hurl.
  assert (H1 : media_content_step e None = None).
  { unfold media_content_step.
    now rewrite Hms, (ImageFacts.find_first _ pre m post Hpre Hm). }
  assert (H2 : resolve_image soup e
               = html_step soup e
                   (links_step e
                      (enclosures_step e (media_thumbnail_step e None))))
    by (unfold resolve_image; now rewrite H1).
  assert (H3 : ImageSpec.located (resolve_image soup e)
               = ImageSpec.first_success (ImageSpec.later_strategies soup) e)
    by (rewrite H2; apply ImageFacts.later_blocks_refine).
  assert (Hwin : forall u,
             ImageSpec.first_success (ImageSpec.later_strategies soup) e
             = Some u -> resolve_image soup e = Some u).
  { intros u Hu; rewrite <- H3 in Hu.
    now apply ImageFacts.located_some in Hu. }
  split; [exact H1|]; split; [exact H2|]; split; [|split; [|split]].
  - rewrite H2; reflexivity.
  - intros th rest u Hth Hu Hne; rewrite H2.
    unfold media_thumbnail_step at 1; simpl; rewrite Hth, Hu.
    unfold html_step, links_step, enclosures_step, first_image_href.
    assert (T : Py.truthy (Some u) = true)
      by (destruct u; [congruence|reflexivity]).
    now rewrite !T.
  - exact H3.
  - split; [|split; [|split]].
    + intros before x after u Hth Hen Hbefore Hx Hhref Hne; apply Hwin.
      unfold ImageSpec.later_strategies; cbn [ImageSpec.first_success].
      rewrite Hth; unfold ImageSpec.enclosure_href.
      rewrite (ImageFacts.first_image_link_first _ _ _ _ Hen Hbefore Hx).
      rewrite Hhref; destruct u; [congruence|reflexivity].
    + intros before x after u Hth Hen Hl Hbefore Hx Hhref Hne; apply Hwin.
      unfold ImageSpec.later_strategies; cbn [ImageSpec.first_success].
      rewrite Hth, Hen; unfold ImageSpec.link_href_of.
      rewrite (ImageFacts.first_image_link_first _ _ _ _ Hl Hbefore Hx).
      rewrite Hhref; destruct u; [congruence|reflexivity].
    + intros doc t u Hth Hen Hl Hc Hsoup Hfind Hsrc Hne; apply Hwin.
      unfold ImageSpec.later_strategies; cbn [ImageSpec.first_success].
      rewrite Hth, Hen, Hl.
      rewrite (ImageFacts.embedded_img_src_first soup e doc t Hc Hsoup Hfind).
      rewrite Hsrc; destruct u; [congruence|reflexivity].
    + intros Hnone; rewrite <- H3 in Hnone.
      rewrite ImageFacts.located_truthy in Hnone.
      destruct (Py.truthy (resolve_image soup e)) eqn:T; [|reflexivity].
      destruct (resolve_image soup e); discriminate.
Qed.

(** C10. Block 5 looks at the first [img] element only: when that
    element has no [src], or an empty one, the block leaves [image_url]
    as it found it, whatever elements follow, so a resolution that
    reached the block without a URL ends without one. When the summary
    and the content bodies are all empty the parser is not consulted:
    under every parser the block leaves [image_url] as it found it. *)
Theorem html_scan_reads_first_img_only (soup : pystr -> exn + list Tag)
  (e : RawEntry.t) (image_url : option pystr) :
  (forall pre t post,
      soup (content_to_parse e) = inr (pre ++ t :: post) ->
      forallb (fun x => negb (Py.str_eqb (tag_name x) (Py.lit "img"))) pre
      = true ->
      tag_name t = Py.lit "img" ->
      tag_get (Py.lit "src") (tag_attrs t) = None
      \/ tag_get (Py.lit "src") (tag_attrs t) = Some [] ->
      html_scan soup (content_to_parse e) image_url = image_url
      /\ html_step soup e image_url = image_url
      /\ (Py.truthy
            (links_step e
               (enclosures_step e
                  (media_thumbnail_step e (media_content_step e None))))
          = false ->
          Py.truthy (resolve_image soup e) = false))
  /\ (content_to_parse e = [] ->
      forall parser, html_step parser e image_url = image_url).
Proof.
  split.
  - intros pre t post Hsoup Hpre Ht Hsrc.
    assert (Hfind : soup_find (Py.lit "img") (pre ++ t :: post) = Some t).
    { apply ImageFacts.find_first; [exact Hpre|].
      rewrite Ht; unfold Py.str_eqb.
      destruct (list_eq_dec N.eq_dec (Py.lit "img") (Py.lit "img"));
        congruence. }
    assert (Hscan : forall c,
               html_scan soup (content_to_parse e) c = c).
    { intros c; unfold html_scan; rewrite Hsoup, Hfind.
      destruct Hsrc as [-> | ->]; reflexivity. }
    assert (Hstep : forall c, html_step soup e c = c).
    { intros c; unfold html_step; rewrite Hscan.
      destruct (Py.truthy c), (Py.nonempty (content_to_parse e));
        reflexivity. }
    split; [apply Hscan|]; split; [apply Hstep|].
    unfold resolve_image; now rewrite Hstep.
  - intros Hempty parser; unfold html_step; rewrite Hempty; simpl.
    destruct (Py.truthy image_url); reflexivity.
Qed.

(* ------------------------------------------------------------------ *)
(** ** Summarisation *)

Module SummarizeFacts.

(** Every remaining model fails with the message [err] gives it. *)
Lemma try_models_all_fail backend api_key p err models : forall errors g,
  (forall m, In m models -> backend api_key m p = inl (err m)) ->
  try_models backend api_key p models errors g
  = (failure_message
       (errors ++ map (fun m => error_line m (err m)) models),
     mk_genai (configured g)
       (requests g ++ map (fun m => (m, p)) models)).
Proof.
  induction models as [|m models IH]; intros errors g Hfail; simpl.
  - rewrite !app_nil_r; destruct g; reflexivity.
  - rewrite (Hfail m (or_introl eq_refl)).
    rewrite IH by (intros m' Hm'; apply Hfail; now right).
    simpl; now rewrite <- !app_assoc.
Qed.

End SummarizeFacts.

(** C8. A text that is absent, or shorter than 100 characters, gets the
    fixed warning back and the model library is left untouched: no key
    is configured and no request is made, whatever the backend would
    answer. When the text is long enough and every model of the list
    fails, the message returned is the failure heading followed by one
    line per model tried, in order, each made of the model name and of
    the failure, and every model was asked once. Written out: the
    heading, a line feed, and the five lines [model: failure] of the
    five models in the order of the list, with a line feed between two
    lines and none at the end; the key was configured once and the five
    requests carry the prompt of the text. *)
Theorem summarize_short_or_exhausted
  (backend : pystr -> pystr -> pystr -> pystr + pystr)
  (api_key : pystr) (g : Genai) :
  summarize_with_gemini backend None api_key g = (short_content_warning, g)
  /\ (forall t, (length t < 100)%nat ->
        summarize_with_gemini backend (Some t) api_key g
        = (short_content_warning, g))
  /\ (forall t err,
        (100 <= length t)%nat ->
        (forall m, In m models_to_try ->
                   backend api_key m (prompt t) = inl (err m)) ->
        summarize_with_gemini backend (Some t) api_key g
        = (failure_message
             (map (fun m => error_line m (err m)) models_to_try),
           all_attempts api_key t g))
  /\ (forall t e1 e2 e3 e4 e5,
        (100 <= length t)%nat ->
        backend api_key (Py.lit "gemini-2.5-flash") (prompt t) = inl e1 ->
        backend api_key (Py.lit "gemini-2.0-flash") (prompt t) = inl e2 ->
        backend api_key (Py.lit "gemini-flash-latest") (prompt t) = inl e3 ->
        backend api_key (Py.lit "gemini-2.5-pro") (prompt t) = inl e4 ->
        backend api_key (Py.lit "gemini-pro-latest") (prompt t) = inl e5 ->
        summarize_with_gemini backend (Some t) api_key g
        = (Py.lit "❌ Falha ao gerar resumo. Erros:" ++ [10%N]
           ++ Py.lit "gemini-2.5-flash" ++ Py.lit ": " ++ e1 ++ [10%N]
           ++ Py.lit "gemini-2.0-flash" ++ Py.lit ": " ++ e2 ++ [10%N]
           ++ Py.lit "gemini-flash-latest" ++ Py.lit ": " ++ e3 ++ [10%N]
           ++ Py.lit "gemini-2.5-pro" ++ Py.lit ": " ++ e4 ++ [10%N]
           ++ Py.lit "gemini-pro-latest" ++ Py.lit ": " ++ e5,
           mk_genai (configured g ++ [api_key])
             (requests g
              ++ [ (Py.lit "gemini-2.5-flash", prompt t);
                   (Py.lit "gemini-2.0-flash", prompt t);
                   (Py.lit "gemini-flash-latest", prompt t);
                   (Py.lit "gemini-2.5-pro", prompt t);
                   (Py.lit "gemini-pro-latest", prompt t) ]))).
Proof.
  split; [reflexivity|]; split; [|split].
  - intros t Hlen; unfold summarize_with_gemini.
    assert (E : (Z.of_nat (length t) <? 100) = true)
      by (apply Z.ltb_lt; lia).
    now rewrite E, orb_true_r.
  - intros t err Hlen Hfail; unfold summarize_with_gemini.
    assert (E : (Z.of_nat (length t) <? 100) = false)
      by (apply Z.ltb_ge; lia).
    assert (N : Py.nonempty t = true)
      by (destruct t; [simpl in Hlen; lia|reflexivity]).
    rewrite E, N; simpl negb; simpl orb; cbv iota.
    rewrite (SummarizeFacts.try_models_all_fail backend api_key (prompt t)
               err models_to_try [] _ Hfail).
    reflexivity.
  - intros t e1 e2 e3 e4 e5 Hlen H1 H2 H3 H4 H5.
    unfold summarize_with_gemini.
    assert (E : (Z.of_nat (length t) <? 100) = false)
      by (apply Z.ltb_ge; lia).
    assert (N : Py.nonempty t = true)
      by (destruct t; [simpl in Hlen; lia|reflexivity]).
    rewrite E, N; simpl negb; simpl orb; cbv iota.
    unfold models_to_try; cbn [try_models].
    rewrite H1; cbn [try_models]; rewrite H2; cbn [try_models].
    rewrite H3; cbn [try_models]; rewrite H4; cbn [try_models].
    rewrite H5; cbn [configured requests app].
    unfold failure_message, error_line, nl; cbn [Py.join app].
    rewrite <- !app_assoc; reflexivity.
Qed.

(* ------------------------------------------------------------------ *)
(** ** The theorems on the sample feeds *)

Ltac in_list :=
  simpl; repeat (first [left; reflexivity | right]).

(** Sources D and C: the two undated items, of different sources, carry
    the first clock read, although the clock was read again for D1. *)
Lemma undated_entries_share_snapshot_witness :
  In Sample.item_d1 (fetch_feeds Sample.world [Sample.url_d; Sample.url_c])
  /\ In Sample.item_c1 (fetch_feeds Sample.world [Sample.url_d; Sample.url_c])
  /\ NewsItem.source Sample.item_d1 <> NewsItem.source Sample.item_c1
  /\ NewsItem.has_time Sample.item_d1 = false
  /\ NewsItem.has_time Sample.item_c1 = false
  /\ NewsItem.published Sample.item_d1 = utcnow Sample.world 0
  /\ NewsItem.published Sample.item_c1 = utcnow Sample.world 0
  /\ Datetime.cmp (NewsItem.published Sample.item_d1)
       (NewsItem.published Sample.item_c1) = Eq.
Proof.
  assert (E : fetch_feeds Sample.world [Sample.url_d; Sample.url_c]
              = [Sample.item_d2; Sample.item_d1; Sample.item_c1])
    by (vm_compute; reflexivity).
  assert (Hd : In Sample.item_d1
                 (fetch_feeds Sample.world [Sample.url_d; Sample.url_c]))
    by (rewrite E; in_list).
  assert (Hc : In Sample.item_c1
                 (fetch_feeds Sample.world [Sample.url_d; Sample.url_c]))
    by (rewrite E; in_list).
  split; [exact Hd|]; split; [exact Hc|].
  split; [vm_compute; discriminate|].
  split; [reflexivity|]; split; [reflexivity|].
  exact (proj2 (proj2 (undated_entries_share_snapshot Sample.world
                         [Sample.url_d; Sample.url_c]))
           Sample.item_d1 Sample.item_c1 Hd Hc eq_refl eq_refl).
Defined.

(** Sources A, B and C, B failing. *)
Lemma failing_source_is_isolated_witness :
  Py.nonempty (Py.strip Sample.url_b) = true
  /\ feedparser_parse Sample.world Sample.url_b = inl Sample.timed_out
  /\ fetch_feeds Sample.world [Sample.url_a; Sample.url_b; Sample.url_c]
     = fetch_feeds Sample.world [Sample.url_a; Sample.url_c]
  /\ length
       (fetch_feeds Sample.world [Sample.url_a; Sample.url_b; Sample.url_c])
     = 3%nat
  /\ StronglySorted not_later
       (fetch_feeds Sample.world [Sample.url_a; Sample.url_b; Sample.url_c])
  /\ fetch_feeds Sample.world [Sample.url_a; Sample.url_b; Sample.url_c]
     = [Sample.item_c1; Sample.item_a1; Sample.item_a2]
  /\ fetch_feeds_errors Sample.world
       [Sample.url_a; Sample.url_b; Sample.url_c]
     = [(Sample.url_b, Sample.timed_out)].
Proof.
  destruct (failing_source_is_isolated Sample.world [Sample.url_a]
              [Sample.url_c] Sample.url_b Sample.timed_out
              eq_refl eq_refl) as (Hsame & _ & _ & Hthree).
  destruct (Hthree Sample.url_a Sample.url_c
              (mk_feed (Some (Py.lit "Feed A")) [Sample.a1; Sample.a2])
              (mk_feed None [Sample.c1])
              eq_refl eq_refl eq_refl eq_refl eq_refl eq_refl
              eq_refl eq_refl eq_refl eq_refl) as [Hlen Hsorted].
  split; [reflexivity|]; split; [reflexivity|].
  split; [exact Hsame|]; split; [exact Hlen|]; split; [exact Hsorted|].
  split; vm_compute; reflexivity.
Defined.

(** One entry for each strategy being the first to find a URL, each
    with an image in its summary as well, and the entry with no key. *)
Lemma image_resolution_follows_chain_witness :
  resolve_image HtmlScanner.parse Sample.img_both
  = Some (Py.lit "http://a/m.jpg")
  /\ resolve_image HtmlScanner.parse Sample.img_thumbnail
     = Some (Py.lit "http://a/thumb.jpg")
  /\ resolve_image HtmlScanner.parse Sample.img_enclosure
     = Some (Py.lit "http://a/e.png")
  /\ resolve_image HtmlScanner.parse Sample.img_link
     = Some (Py.lit "http://a/l.jpg")
  /\ resolve_image HtmlScanner.parse Sample.img_html_only
     = Some (Py.lit "http://x/a.jpg")
  /\ ImageSpec.resolve HtmlScanner.parse Sample.img_html_only
     = Some (Py.lit "http://x/a.jpg")
  /\ resolve_image HtmlScanner.parse RawEntry.empty = None.
Proof.
  split; [|split; [|split; [|split; [|split; [|split]]]]].
  - refine (proj1 (proj2 (proj2 (proj2
              (image_resolution_follows_chain HtmlScanner.parse
                 Sample.img_both))))
              [Sample.image_media (Some (Py.lit "http://a/m.jpg"))]
              (Sample.image_media (Some (Py.lit "http://a/m.jpg")))
              (Py.lit "http://a/m.jpg") eq_refl eq_refl eq_refl _).
    vm_compute; discriminate.
  - refine (proj1 (proj1 (proj2
              (image_resolution_follows_chain HtmlScanner.parse
                 Sample.img_thumbnail))
              (Py.lit "http://a/thumb.jpg") _)).
    vm_compute; reflexivity.
  - refine (proj1 (proj1 (proj2
              (image_resolution_follows_chain HtmlScanner.parse
                 Sample.img_enclosure))
              (Py.lit "http://a/e.png") _)).
    vm_compute; reflexivity.
  - refine (proj1 (proj1 (proj2
              (image_resolution_follows_chain HtmlScanner.parse
                 Sample.img_link))
              (Py.lit "http://a/l.jpg") _)).
    vm_compute; reflexivity.
  - refine (proj2 (proj2 (proj2 (proj2
              (image_resolution_follows_chain HtmlScanner.parse
                 Sample.img_html_only))))
              [mk_tag (Py.lit "p") [];
               mk_tag (Py.lit "img")
                 [(Py.lit "src", Py.lit "http://x/a.jpg")]]
              (mk_tag (Py.lit "img")
                 [(Py.lit "src", Py.lit "http://x/a.jpg")])
              (Py.lit "http://x/a.jpg")
              eq_refl eq_refl eq_refl eq_refl _ _ _ _ _);
      try (vm_compute; reflexivity); vm_compute; discriminate.
  - rewrite <- (proj1 (image_resolution_follows_chain HtmlScanner.parse
                         Sample.img_html_only)).
    vm_compute; reflexivity.
  - reflexivity.
Defined.

(** A feed that carries a dated entry twice, and a source listed twice:
    the item comes back twice. *)
Lemma fetch_feeds_keeps_every_item_witness :
  (forall url, In url [Sample.url_twice] ->
     forallb entry_ok (entries_of Sample.world url) = true)
  /\ length (fetch_feeds Sample.world [Sample.url_twice]) = 2%nat
  /\ twice Sample.a1 [Sample.a1; Sample.a1]
  /\ has_date_string Sample.a1
  /\ (exists i s0,
        appends (process_entry Sample.world (utcnow Sample.world 0)
                   (Py.lit "Twice") Sample.a1) s0 i
        /\ twice i (fetch_feeds Sample.world [Sample.url_twice])
        /\ ~ NoDup (fetch_feeds Sample.world [Sample.url_twice]))
  /\ fetch_feeds Sample.world [Sample.url_twice]
     = [Sample.item_twice; Sample.item_twice]
  /\ twice Sample.url_c [Sample.url_c; Sample.url_c]
  /\ has_date_string Sample.c1
  /\ (exists i s0,
        appends (process_entry Sample.world (utcnow Sample.world 0)
                   Sample.url_c Sample.c1) s0 i
        /\ twice i (fetch_feeds Sample.world [Sample.url_c; Sample.url_c])
        /\ ~ NoDup (fetch_feeds Sample.world [Sample.url_c; Sample.url_c]))
  /\ fetch_feeds Sample.world [Sample.url_c; Sample.url_c]
     = [Sample.item_c1; Sample.item_c1].
Proof.
  assert (H : forall url, In url [Sample.url_twice] ->
                forallb entry_ok (entries_of Sample.world url) = true)
    by (intros url [<-|[]]; vm_compute; reflexivity).
  assert (Ta : twice Sample.a1 [Sample.a1; Sample.a1])
    by (exists [], [], []; reflexivity).
  assert (Da : has_date_string Sample.a1)
    by (left; cbv; eexists; eexists; reflexivity).
  assert (Tc : twice Sample.url_c [Sample.url_c; Sample.url_c])
    by (exists [], [], []; reflexivity).
  assert (Dc : has_date_string Sample.c1)
    by (left; cbv; eexists; eexists; reflexivity).
  split; [exact H|]; split.
  { exact (proj1 (proj2 (proj2 (proj2 (fetch_feeds_keeps_every_item
             Sample.world [Sample.url_twice])))) H). }
  split; [exact Ta|]; split; [exact Da|]; split.
  { exact (proj1 (proj2 (proj2 (proj2 (proj2 (fetch_feeds_keeps_every_item
             Sample.world [Sample.url_twice])))))
             Sample.url_twice
             (mk_feed (Some (Py.lit "Twice")) [Sample.a1; Sample.a1])
             Sample.a1 (or_introl eq_refl) eq_refl eq_refl eq_refl Ta Da). }
  split; [vm_compute; reflexivity|].
  split; [exact Tc|]; split; [exact Dc|]; split.
  { exact (proj2 (proj2 (proj2 (proj2 (proj2 (fetch_feeds_keeps_every_item
             Sample.world [Sample.url_c; Sample.url_c])))))
             Sample.url_c (mk_feed None [Sample.c1])
             Sample.c1 Tc eq_refl eq_refl eq_refl (or_introl eq_refl) Dc). }
  vm_compute; reflexivity.
Defined.

(** At noon: the item of eleven o'clock stays, those of nine o'clock and
    of ten past noon go. *)
Lemma recency_filter_keeps_window_witness :
  In (Sample.news_at 11 0)
    (news_items Sample.noon
       [Sample.news_at 12 10; Sample.news_at 11 0; Sample.news_at 9 0])
  /\ ~ In (Sample.news_at 9 0)
         (news_items Sample.noon
            [Sample.news_at 12 10; Sample.news_at 11 0; Sample.news_at 9 0])
  /\ ~ In (Sample.news_at 12 10)
         (news_items Sample.noon
            [Sample.news_at 12 10; Sample.news_at 11 0; Sample.news_at 9 0])
  /\ news_items Sample.noon
       [Sample.news_at 12 10; Sample.news_at 11 0; Sample.news_at 9 0]
     = [Sample.news_at 11 0].
Proof.
  destruct (recency_filter_keeps_window Sample.noon 7200
              [Sample.news_at 12 10; Sample.news_at 11 0; Sample.news_at 9 0])
    as (_ & _ & _ & _ & Hhour & Hthree & Hfuture).
  split; [apply Hhour; [in_list|reflexivity]|].
  split; [apply Hthree; reflexivity|].
  split; [apply Hfuture; reflexivity|].
  vm_compute; reflexivity.
Defined.

(** Entry A2 has both parsed dates: the published one is used. The entry
    with a second of 60 raises and appends nothing. *)
Lemma parsed_date_is_published_witness :
  parsed_date Sample.a2 (Sample.at_time 9 0)
  /\ RawEntry.updated_parsed Sample.a2 = Some (Sample.at_time 10 30)
  /\ (exists i,
        appends (process_entry Sample.world (utcnow Sample.world 0)
                   (Py.lit "Feed A") Sample.a2) (mk_run [] 1) i
        /\ NewsItem.published i = mk_datetime 2024 3 1 9 0 0 0
        /\ NewsItem.has_time i = true)
  /\ (exists ex s',
        process_entry Sample.world (utcnow Sample.world 0)
          (Py.lit "Feed E") Sample.bad (mk_run [] 1) = (inl ex, s')
        /\ Datetime.of_struct_time (mk_struct_time 2024 3 1 10 59 60 4 61 0)
           = inl ex
        /\ all_news s' = all_news (mk_run [] 1)).
Proof.
  split; [left; reflexivity|]; split; [reflexivity|]; split.
  - exact (proj1 (parsed_date_is_published Sample.world)
             (utcnow Sample.world 0) (Py.lit "Feed A") Sample.a2
             (Sample.at_time 9 0) (mk_run [] 1) (or_introl eq_refl)).
  - exact (proj1 (parsed_date_is_published Sample.world)
             (utcnow Sample.world 0) (Py.lit "Feed E") Sample.bad
             (mk_struct_time 2024 3 1 10 59 60 4 61 0) (mk_run [] 1)
             (or_introl eq_refl)).
Defined.

(** Sources D and C: D1 and C1 tie on the snapshot and keep the order in
    which they were met. *)
Lemma fetch_feeds_sorted_stable_witness :
  published_at (utcnow Sample.world 0)
    (fetch_feeds Sample.world [Sample.url_d; Sample.url_c])
  = [Sample.item_d1; Sample.item_c1]
  /\ appended Sample.world [Sample.url_d; Sample.url_c]
     = [Sample.item_d1; Sample.item_d2; Sample.item_c1]
  /\ fetch_feeds Sample.world [Sample.url_d; Sample.url_c]
     = [Sample.item_d2; Sample.item_d1; Sample.item_c1].
Proof.
  split; [|split; vm_compute; reflexivity].
  rewrite (proj1 (proj2 (proj2 (fetch_feeds_sorted_stable Sample.world
                                  [Sample.url_d; Sample.url_c])))).
  vm_compute; reflexivity.
Defined.

(** No model answers: the heading and five lines, one per model, and
    five requests. A text of 99 characters: the warning, and nothing
    asked. *)
Lemma summarize_short_or_exhausted_witness :
  (length Sample.short_text < 100)%nat
  /\ summarize_with_gemini Sample.no_quota (Some Sample.short_text)
       Sample.key (mk_genai [] [])
     = (short_content_warning, mk_genai [] [])
  /\ (100 <= length Sample.long_text)%nat
  /\ summarize_with_gemini Sample.no_quota (Some Sample.long_text)
       Sample.key (mk_genai [] [])
     = (Py.lit "❌ Falha ao gerar resumo. Erros:" ++ [10%N]
        ++ Py.lit "gemini-2.5-flash" ++ Py.lit ": "
        ++ Py.lit "429 quota exceeded" ++ [10%N]
        ++ Py.lit "gemini-2.0-flash" ++ Py.lit ": "
        ++ Py.lit "429 quota exceeded" ++ [10%N]
        ++ Py.lit "gemini-flash-latest" ++ Py.lit ": "
        ++ Py.lit "429 quota exceeded" ++ [10%N]
        ++ Py.lit "gemini-2.5-pro" ++ Py.lit ": "
        ++ Py.lit "429 quota exceeded" ++ [10%N]
        ++ Py.lit "gemini-pro-latest" ++ Py.lit ": "
        ++ Py.lit "429 quota exceeded",
        mk_genai [Sample.key]
          [ (Py.lit "gemini-2.5-flash", prompt Sample.long_text);
            (Py.lit "gemini-2.0-flash", prompt Sample.long_text);
            (Py.lit "gemini-flash-latest", prompt Sample.long_text);
            (Py.lit "gemini-2.5-pro", prompt Sample.long_text);
            (Py.lit "gemini-pro-latest", prompt Sample.long_text) ])
  /\ Py.lit "gemini-2.5-flash" ++ Py.lit ": " ++ Py.lit "429 quota exceeded"
     = Py.lit "gemini-2.5-flash: 429 quota exceeded".
Proof.
  destruct (summarize_short_or_exhausted Sample.no_quota Sample.key
              (mk_genai [] [])) as (_ & Hshort & _ & Hlong).
  assert (Hs : (length Sample.short_text < 100)%nat)
    by (vm_compute; repeat constructor).
  assert (Hl : (100 <= length Sample.long_text)%nat)
    by (vm_compute; repeat constructor).
  split; [exact Hs|]; split; [exact (Hshort _ Hs)|]; split; [exact Hl|].
  split; [|vm_compute; reflexivity].
  exact (Hlong Sample.long_text (Py.lit "429 quota exceeded")
           (Py.lit "429 quota exceeded") (Py.lit "429 quota exceeded")
           (Py.lit "429 quota exceeded") (Py.lit "429 quota exceeded")
           Hl eq_refl eq_refl eq_refl eq_refl eq_refl).
Defined.

(** The first image descriptor has no [url]: the later descriptor is not
    taken, and the thumbnail, the image enclosure, the image link or the
    image of the summary is returned, whichever the entry has first;
    with nothing else in the entry there is no image. *)
Lemma media_without_url_falls_through_witness :
  RawEntry.media_content Sample.media_no_url
  = Some ([mk_media (Some (Py.lit "video")) None
             (Some (Py.lit "http://a/v.mp4"))]
          ++ Sample.image_media None
          :: [Sample.image_media (Some (Py.lit "http://a/later.jpg"))])
  /\ media_content_step Sample.media_no_url None = None
  /\ resolve_image HtmlScanner.parse Sample.media_no_url
     = Some (Py.lit "http://a/thumb.jpg")
  /\ resolve_image HtmlScanner.parse Sample.no_url_then_enclosure
     = Some (Py.lit "http://a/e.png")
  /\ resolve_image HtmlScanner.parse Sample.no_url_then_link
     = Some (Py.lit "http://a/l.jpg")
  /\ resolve_image HtmlScanner.parse Sample.no_url_then_html
     = Some (Py.lit "http://x/a.jpg")
  /\ Py.truthy (resolve_image HtmlScanner.parse Sample.no_url_alone) = false.
Proof.
  destruct (media_without_url_falls_through HtmlScanner.parse
              Sample.media_no_url
              [mk_media (Some (Py.lit "video")) None
                 (Some (Py.lit "http://a/v.mp4"))]
              [Sample.image_media (Some (Py.lit "http://a/later.jpg"))]
              (Sample.image_media None)
              eq_refl eq_refl eq_refl eq_refl) as (Hstep & _ & _ & Hthumb & _).
  pose proof (fun e H =>
                media_without_url_falls_through HtmlScanner.parse e
                  [Sample.video]
                  [Sample.image_media (Some (Py.lit "http://a/later.jpg"))]
                  (Sample.image_media None) H eq_refl eq_refl eq_refl)
    as Hlater.
  destruct (Hlater Sample.no_url_then_enclosure eq_refl)
    as (_ & _ & _ & _ & _ & Henclosure & _).
  destruct (Hlater Sample.no_url_then_link eq_refl)
    as (_ & _ & _ & _ & _ & _ & Hlink & _).
  destruct (Hlater Sample.no_url_then_html eq_refl)
    as (_ & _ & _ & _ & _ & _ & _ & Hhtml & _).
  destruct (Hlater Sample.no_url_alone eq_refl)
    as (_ & _ & _ & _ & _ & _ & _ & _ & Hnone).
  split; [reflexivity|]; split; [exact Hstep|]; split.
  { apply (Hthumb (mk_thumbnail (Some (Py.lit "http://a/thumb.jpg"))) []
             (Py.lit "http://a/thumb.jpg") eq_refl eq_refl).
    vm_compute; discriminate. }
  split.
  { apply (Henclosure [Sample.mp3_enclosure] Sample.png_enclosure []
             (Py.lit "http://a/e.png") eq_refl eq_refl eq_refl eq_refl
             eq_refl).
    vm_compute; discriminate. }
  split.
  { apply (Hlink [Sample.page_link] Sample.jpeg_link []
             (Py.lit "http://a/l.jpg") eq_refl eq_refl eq_refl eq_refl
             eq_refl eq_refl).
    vm_compute; discriminate. }
  split.
  { refine (Hhtml [mk_tag (Py.lit "p") [];
                   mk_tag (Py.lit "img")
                     [(Py.lit "src", Py.lit "http://x/a.jpg")]]
              (mk_tag (Py.lit "img")
                 [(Py.lit "src", Py.lit "http://x/a.jpg")])
              (Py.lit "http://x/a.jpg")
              eq_refl eq_refl eq_refl _ _ _ _ _);
      try (vm_compute; reflexivity); vm_compute; discriminate. }
  apply Hnone; vm_compute; reflexivity.
Defined.

(** The first [img] has no [src], or an empty one, and the second has
    one: no image. An entry with no text: no image under any parser. *)
Lemma html_scan_reads_first_img_only_witness :
  BeautifulSoup Sample.world (content_to_parse Sample.first_img_bare)
  = inr ([] ++ mk_tag (Py.lit "img") [(Py.lit "alt", Py.lit "x")]
         :: [mk_tag (Py.lit "img") [(Py.lit "src", Py.lit "http://x/b.jpg")]])
  /\ resolve_image HtmlScanner.parse Sample.first_img_bare = None
  /\ resolve_image HtmlScanner.parse Sample.first_img_empty = None
  /\ (forall parser, html_step parser RawEntry.empty None = None).
Proof.
  split; [vm_compute; reflexivity|]; split; [|split].
  - destruct (proj1 (html_scan_reads_first_img_only HtmlScanner.parse
                       Sample.first_img_bare None)
                [] (mk_tag (Py.lit "img") [(Py.lit "alt", Py.lit "x")])
                [mk_tag (Py.lit "img")
                   [(Py.lit "src", Py.lit "http://x/b.jpg")]]
                eq_refl eq_refl eq_refl (or_introl eq_refl))
      as (_ & Hstep & _).
    exact Hstep.
  - destruct (proj1 (html_scan_reads_first_img_only HtmlScanner.parse
                       Sample.first_img_empty None)
                [] (mk_tag (Py.lit "img") [(Py.lit "src", [])])
                [mk_tag (Py.lit "img")
                   [(Py.lit "src", Py.lit "http://x/b.jpg")]]
                eq_refl eq_refl eq_refl (or_intror eq_refl))
      as (_ & Hstep & _).
    exact Hstep.
  - exact (proj2 (html_scan_reads_first_img_only HtmlScanner.parse
                    RawEntry.empty None) eq_refl).
Defined.

(** Source D listed twice. The entry without any date string gets the
    text of a new clock reading each time it is met, so its two items
    differ; the dated entry beside it comes back as the same item
    twice. *)
Example clock_stamped_items_differ :
  map NewsItem.raw_date
    (filter (fun i => negb (NewsItem.has_time i))
       (fetch_feeds Sample.world [Sample.url_d; Sample.url_d]))
  = [Py.lit "2024-03-01 09:00:01.000250"; Py.lit "2024-03-01 09:00:02.000250"]
  /\ filter NewsItem.has_time
       (fetch_feeds Sample.world [Sample.url_d; Sample.url_d])
     = [Sample.item_d2; Sample.item_d2].
Proof. split; vm_compute; reflexivity. Qed.

(** Source E: the second entry has a second of 60. The exception leaves
    the loop over the entries; the item of the first entry stays, the
    third entry is not reached, and the error is reported. *)
Example entry_failure_keeps_earlier_items :
  map NewsItem.link (fetch_feeds Sample.world [Sample.url_e])
  = [Py.lit "http://a/1"]
  /\ fetch_feeds_errors Sample.world [Sample.url_e]
     = [(Sample.url_e, ValueError FSecond 60)].
Proof. split; vm_compute; reflexivity. Qed.

(** Blank entries of the list are skipped without a parse. *)
Example blank_urls_are_skipped :
  fetch_feeds Sample.world [Py.lit "  "; []; Sample.url_c]
  = [Sample.item_c1]
  /\ fetch_feeds_errors Sample.world [Py.lit "  "; []; Sample.url_c] = [].
Proof. split; vm_compute; reflexivity. Qed.

(* ================================================================== *)
(** * Further properties of the code *)

(* ------------------------------------------------------------------ *)
(** ** The configured sources *)

Module StripFacts.

Lemma lstrip_split s :
  exists pre, s = pre ++ Py.lstrip s /\ forallb Py.isspace pre = true.
Proof.
  induction s as [|c r IH]; simpl.
  - exists []; auto.
  - destruct (Py.isspace c) eqn:E.
    + destruct IH as (pre & Hs & Hpre).
      exists (c :: pre); simpl; rewrite E, <- Hs; auto.
    + exists []; auto.
Qed.

Lemma lstrip_head s c r : Py.lstrip s = c :: r -> Py.isspace c = false.
Proof.
  induction s as [|x s IH]; simpl; [discriminate|].
  destruct (Py.isspace x) eqn:E; [exact IH|].
  intros H; inversion H; subst; exact E.
Qed.

Lemma lstrip_fixed c r : Py.isspace c = false -> Py.lstrip (c :: r) = c :: r.
Proof. intros E; simpl; now rewrite E. Qed.

Lemma lstrip_idem s : Py.lstrip (Py.lstrip s) = Py.lstrip s.
Proof.
  destruct (Py.lstrip s) as [|c r] eqn:E; [reflexivity|].
  apply lstrip_fixed, (lstrip_head s c r E).
Qed.

(** A stripped string, read backwards, starts with no white space. *)
Lemma lstrip_rev_strip s :
  Py.lstrip (rev (Py.lstrip (rev (Py.lstrip s))))
  = rev (Py.lstrip (rev (Py.lstrip s))).
Proof.
  set (a := Py.lstrip s).
  destruct (lstrip_split (rev a)) as (pre & Hrev & _).
  set (b := Py.lstrip (rev a)) in *.
  destruct (rev b) as [|c r] eqn:Eb; [reflexivity|].
  apply lstrip_fixed.
  assert (Ha : a = (c :: r) ++ rev pre).
  { rewrite <- Eb, <- rev_app_distr, <- Hrev; symmetry; apply rev_involutive. }
  apply (lstrip_head s c (r ++ rev pre)); fold a; exact Ha.
Qed.

Lemma strip_idem s : Py.strip (Py.strip s) = Py.strip s.
Proof.
  unfold Py.strip.
  rewrite (lstrip_rev_strip (rev (Py.lstrip s))), rev_involutive.
  apply lstrip_rev_strip.
Qed.

Lemma split_on_nonempty sep s : split_on sep s <> [].
Proof.
  destruct s as [|c r]; simpl; [discriminate|].
  destruct (c =? sep)%N; [discriminate|].
  destruct (split_on sep r); discriminate.
Qed.

Lemma split_on_no_sep sep s piece :
  In piece (split_on sep s) -> ~ In sep piece.
Proof.
  revert piece; induction s as [|c r IH]; simpl; intros piece.
  - intros [<-|[]]; auto.
  - destruct (c =? sep)%N eqn:E.
    + intros [<-|H]; [auto|now apply IH].
    + destruct (split_on sep r) as [|p ps] eqn:Es.
      * intros [<-|[]] [->|[]]. now rewrite N.eqb_refl in E.
      * intros [<-|H].
        -- intros [->|Hin]; [now rewrite N.eqb_refl in E|].
           apply (IH p); [now left|exact Hin].
        -- apply IH; now right.
Qed.

Lemma lstrip_incl s x : In x (Py.lstrip s) -> In x s.
Proof.
  induction s as [|c r IH]; simpl; [auto|].
  destruct (Py.isspace c); [auto|]. simpl; auto.
Qed.

Lemma strip_incl s x : In x (Py.strip s) -> In x s.
Proof.
  unfold Py.strip; intros H.
  apply in_rev, lstrip_incl, in_rev, lstrip_incl in H; exact H.
Qed.

End StripFacts.

(** X1. Every URL of the configured list is a line of the secret with
    the white space at both ends removed: it is not empty, it holds no
    line break, stripping it again changes nothing, and the loop of
    [fetch_feeds] therefore never skips it as blank but runs the [try]
    block for it. A missing secret gives the empty list. *)
Theorem rss_urls_are_stripped_lines (secret : option pystr) :
  (forall url, In url (rss_urls secret) ->
     Py.nonempty url = true
     /\ Py.strip url = url
     /\ ~ In 10%N url
     /\ (exists s line, secret = Some s /\ In line (split_on 10 s)
                        /\ url = Py.strip line)
     /\ (forall w fn run,
           process_url w fn url run
           = try_except url (process_feed w fn url) run))
  /\ (secret = None -> rss_urls secret = []).
Proof.
  split; [|intros ->; reflexivity].
  intros url Hin; destruct secret as [s|]; [|destruct Hin].
  unfold rss_urls in Hin; apply in_map_iff in Hin.
  destruct Hin as (line & <- & Hline).
  apply filter_In in Hline; destruct Hline as [Hsplit Hne].
  split; [exact Hne|]; split; [apply StripFacts.strip_idem|].
  split; [|split].
  - intros H; apply StripFacts.strip_incl in H.
    exact (StripFacts.split_on_no_sep _ _ _ Hsplit H).
  - exists s, line; auto.
  - intros w fn run; unfold process_url.
    now rewrite StripFacts.strip_idem, Hne.
Qed.

(* ------------------------------------------------------------------ *)
(** ** More on the aggregation *)

Module LoopFacts.
Import RunFacts.

Lemma process_url_blank w fn url s :
  Py.nonempty (Py.strip url) = false -> process_url w fn url s = (s, []).
Proof. intros H; unfold process_url; now rewrite H. Qed.

Lemma process_urls_skip_blank w fn urls : forall s,
  process_urls w fn urls s
  = process_urls w fn
      (filter (fun url => Py.nonempty (Py.strip url)) urls) s.
Proof.
  induction urls as [|url urls IH]; intros s; simpl; [reflexivity|].
  destruct (Py.nonempty (Py.strip url)) eqn:E; simpl.
  - destruct (process_url w fn url s) as [s1 r1]; now rewrite IH.
  - rewrite (process_url_blank w fn url s E); rewrite IH.
    destruct (process_urls w fn _ s); reflexivity.
Qed.

Lemma for_each_app {A} (body : A -> M unit) l1 l2 s :
  for_each body (l1 ++ l2) s =
  match for_each body l1 s with
  | (inr _, s1) => for_each body l2 s1
  | (inl e, s1) => (inl e, s1)
  end.
Proof.
  revert s; induction l1 as [|x l1 IH]; intros s; simpl; [reflexivity|].
  unfold bind.
  destruct (body x s) as [[e|[]] s1]; [reflexivity|apply IH].
Qed.

End LoopFacts.

(** X2. Blank entries of the source list, empty or made of white space
    only, change nothing: the call returns the list, and reports the
    errors, that it returns and reports for the list without them. *)
Theorem blank_sources_change_nothing (w : World) (urls : list pystr) :
  fetch_feeds w urls
  = fetch_feeds w (filter (fun url => Py.nonempty (Py.strip url)) urls)
  /\ fetch_feeds_errors w urls
     = fetch_feeds_errors w
         (filter (fun url => Py.nonempty (Py.strip url)) urls).
Proof.
  unfold fetch_feeds, appended, fetch_feeds_errors, collect.
  now rewrite <- LoopFacts.process_urls_skip_blank.
Qed.

Module FeedFacts.
Import RunFacts LoopFacts.

(** The other fields of an appended item. *)
Lemma appends_fields w fn title e s i :
  appends (process_entry w fn title e) s i ->
  NewsItem.title i = get_default (RawEntry.title e) (Py.lit "Sem Título")
  /\ NewsItem.link i = get_default (RawEntry.link e) []
  /\ NewsItem.source i = title
  /\ NewsItem.summary_rss i = get_default (RawEntry.summary e) []
  /\ NewsItem.image i = resolve_image (BeautifulSoup w) e.
Proof.
  intros Happ.
  destruct (TimestampFacts.appends_inv _ _ _ _ _ _ Happ) as (raw & H).
  destruct (published_parsed e) as [t|].
  - destruct H as (dt & _ & ->); repeat split.
  - subst i; repeat split.
Qed.

(** An exception leaving the loop is the refusal of the parsed date of
    one of the entries. *)
Lemma for_each_raises w fn title es : forall s ex s',
  for_each (process_entry w fn title) es s = (inl ex, s') ->
  exists e t, In e es /\ published_parsed e = Some t
              /\ Datetime.of_struct_time t = inl ex.
Proof.
  induction es as [|e es IH]; intros s ex s' H; simpl in H.
  - discriminate.
  - unfold bind in H.
    destruct (process_entry_run w fn title e s) as (raw & n & Hrun).
    rewrite Hrun in H.
    destruct (published_parsed e) as [t|] eqn:Ht.
    + destruct (Datetime.of_struct_time t) as [ex0|dt] eqn:Hc.
      * inversion H; subst; exists e, t; repeat split; auto. now left.
      * destruct (IH _ _ _ H) as (e' & t' & Hin & H1 & H2).
        exists e', t'; repeat split; auto. now right.
    + destruct (IH _ _ _ H) as (e' & t' & Hin & H1 & H2).
      exists e', t'; repeat split; auto. now right.
Qed.

Lemma process_url_reports w fn url s :
  (length (snd (process_url w fn url s)) <= 1)%nat
  /\ Forall (failed_source w [url]) (snd (process_url w fn url s)).
Proof.
  unfold process_url.
  destruct (Py.nonempty (Py.strip url)) eqn:Hb; simpl;
    [|split; [lia|constructor]].
  unfold try_except, process_feed, bind, lift.
  destruct (feedparser_parse w url) as [ex|feed] eqn:Hp; simpl.
  - split; [lia|]; constructor; [|constructor].
    split; [now left|]; split; [exact Hb|now left].
  - destruct (for_each _ (entries feed) s) as [[ex|[]] s'] eqn:Hloop; simpl;
      [|split; [lia|constructor]].
    split; [lia|]; constructor; [|constructor].
    destruct (for_each_raises _ _ _ _ _ _ _ Hloop) as (e & t & He & Ht & Hc).
    split; [now left|]; split; [exact Hb|right].
    simpl; exists feed, e, t; auto.
Qed.

Lemma failed_source_incl w us1 us2 r :
  incl us1 us2 -> failed_source w us1 r -> failed_source w us2 r.
Proof. intros Hi (H1 & H2); split; [apply Hi, H1|exact H2]. Qed.

Lemma process_urls_reports w fn urls : forall s,
  (length (snd (process_urls w fn urls s)) <= length urls)%nat
  /\ Forall (failed_source w urls) (snd (process_urls w fn urls s)).
Proof.
  induction urls as [|url urls IH]; intros s; simpl.
  - split; [lia|constructor].
  - destruct (process_url_reports w fn url s) as [L1 F1].
    destruct (process_url w fn url s) as [s1 r1]; simpl in *.
    destruct (IH s1) as [L2 F2].
    destruct (process_urls w fn urls s1) as [s2 r2]; simpl in *.
    split; [rewrite length_app; lia|].
    apply Forall_app; split;
      (eapply Forall_impl; [|eassumption]); intros r;
      apply failed_source_incl; intros x Hx; simpl in *; tauto.
Qed.

(** What the loop has appended stays in [all_news] to the end. *)
Lemma process_urls_keeps w fn urls s i :
  In i (all_news s) -> In i (all_news (fst (process_urls w fn urls s))).
Proof.
  intros Hin.
  destruct (process_urls_news w fn urls s) as (items & -> & _).
  apply in_or_app; now left.
Qed.

End FeedFacts.

(** X3. When the parsed date of an entry is refused by the [datetime]
    constructor, the exception leaves the loop over the entries of that
    feed: the items of the entries before it stay appended, one for
    each, the entries after it are not processed, and the URL is
    reported with that exception. *)
Theorem feed_stops_at_refused_entry (w : World) (fn : datetime)
  (url : pystr) (feed : ParsedFeed) (pre post : list RawEntry.t)
  (bad : RawEntry.t) (t : struct_time) (ex : exn) (s : Run) :
  Py.nonempty (Py.strip url) = true ->
  feedparser_parse w url = inr feed ->
  entries feed = pre ++ bad :: post ->
  forallb entry_ok pre = true ->
  published_parsed bad = Some t ->
  Datetime.of_struct_time t = inl ex ->
  exists items s',
    process_url w fn url s = (s', [(url, ex)])
    /\ all_news s' = all_news s ++ items
    /\ Forall2 (fun e i => exists s0,
                  appends (process_entry w fn
                             (get_default (feed_title feed) url) e) s0 i)
         pre items.
Proof.
  intros Hb Hp Hes Hok Ht Hc.
  destruct (RepeatFacts.for_each_ok_items w fn
              (get_default (feed_title feed) url) pre s Hok)
    as (items & s1 & Hloop & Hnews & Hitems).
  destruct (RunFacts.process_entry_run w fn
              (get_default (feed_title feed) url) bad s1)
    as (raw & n & Hbad).
  rewrite Ht, Hc in Hbad.
  exists items, (mk_run (all_news s1) n).
  split; [|split; [exact Hnews|exact Hitems]].
  unfold process_url, try_except, process_feed, bind at 1, lift.
  rewrite Hb, Hp, Hes; simpl.
  rewrite LoopFacts.for_each_app, Hloop; simpl.
  unfold bind; rewrite Hbad; reflexivity.
Qed.

(** X4. Every returned item takes its fields from an entry of a listed
    source whose feed was parsed: the title, or [Sem Título] when the
    entry has none; the link and the summary, or the empty string; as
    source the title of the feed, or the URL when the feed has none; as
    image what the resolver gives for the entry; and as raw date the
    published string of the entry when it has a non-empty one, else its
    updated string when that is not empty, else the text of a reading
    of the local clock. *)
Theorem returned_item_fields (w : World) (urls : list pystr)
  (i : NewsItem.t) :
  In i (fetch_feeds w urls) ->
  exists url feed e,
    In url urls
    /\ feedparser_parse w url = inr feed
    /\ In e (entries feed)
    /\ NewsItem.title i
       = match RawEntry.title e with
         | Some t => t
         | None => Py.lit "Sem Título"
         end
    /\ NewsItem.link i
       = match RawEntry.link e with Some l => l | None => [] end
    /\ NewsItem.source i
       = match feed_title feed with Some t => t | None => url end
    /\ NewsItem.summary_rss i
       = match RawEntry.summary e with Some x => x | None => [] end
    /\ NewsItem.image i = resolve_image (BeautifulSoup w) e
    /\ match RawEntry.published e, RawEntry.updated e with
       | Some (c :: r), _ => NewsItem.raw_date i = c :: r
       | _, Some (c :: r) => NewsItem.raw_date i = c :: r
       | _, _ => exists n, NewsItem.raw_date i = Datetime.to_str (now w n)
       end.
Proof.
  intros Hin.
  destruct (RunFacts.fetch_feeds_from_source w urls i Hin)
    as (url & feed & e & s0 & Hurl & _ & Hparse & He & Happ).
  destruct (FeedFacts.appends_fields _ _ _ _ _ _ Happ)
    as (H1 & H2 & H3 & H4 & H5).
  pose proof (RepeatFacts.appends_raw_date _ _ _ _ _ _ Happ) as Hraw.
  exists url, feed, e.
  split; [exact Hurl|]; split; [exact Hparse|]; split; [exact He|].
  split; [exact H1|]; split; [exact H2|]; split; [exact H3|].
  split; [exact H4|]; split; [exact H5|].
  unfold Py.or_else, Py.truthy, Py.nonempty in Hraw.
  destruct (RawEntry.published e) as [[|c r]|];
    destruct (RawEntry.updated e) as [[|c' r']|]; simpl in Hraw; eauto.
Qed.

(** X5. Every call of [st.error] made by [fetch_feeds] names a listed,
    non-blank URL that failed: either its parse raised the reported
    exception, or the constructor raised it on the parsed date of one of
    the entries of its feed. There is at most one report for each entry
    of the list, and a list whose non-blank sources all parse into
    accepted entries is reported nothing. *)
Theorem reports_name_failed_sources (w : World) (urls : list pystr) :
  (length (fetch_feeds_errors w urls) <= length urls)%nat
  /\ (forall url ex, In (url, ex) (fetch_feeds_errors w urls) ->
        In url urls
        /\ Py.nonempty (Py.strip url) = true
        /\ (feedparser_parse w url = inl ex
            \/ exists feed e t,
                 feedparser_parse w url = inr feed
                 /\ In e (entries feed)
                 /\ published_parsed e = Some t
                 /\ Datetime.of_struct_time t = inl ex))
  /\ ((forall url, In url urls -> Py.nonempty (Py.strip url) = true ->
         exists feed, feedparser_parse w url = inr feed
                      /\ forallb entry_ok (entries feed) = true) ->
      fetch_feeds_errors w urls = []).
Proof.
  unfold fetch_feeds_errors, collect.
  destruct (FeedFacts.process_urls_reports w (fixed_now w) urls (mk_run [] 1))
    as [Hlen Hall].
  split; [exact Hlen|]; split.
  - intros url ex Hin; rewrite Forall_forall in Hall.
    exact (Hall _ Hin).
  - intros Hgood.
    destruct (snd (process_urls w (fixed_now w) urls (mk_run [] 1)))
      as [|[url ex] rest]; [reflexivity|exfalso].
    rewrite Forall_forall in Hall.
    destruct (Hall (url, ex) (or_introl eq_refl)) as (Hin & Hb & Hfail).
    simpl in *.
    destruct (Hgood url Hin Hb) as (feed & Hp & Hok).
    destruct Hfail as [Hf|(feed' & e & t & Hp' & He & Ht & Hc)];
      [congruence|].
    assert (feed' = feed) by congruence; subst feed'.
    rewrite forallb_forall in Hok; specialize (Hok e He).
    unfold entry_ok in Hok; rewrite Ht, Hc in Hok; discriminate.
Qed.

(** X6. No entry of an accepted feed is lost: when a listed, non-blank
    URL parses into a feed whose parsed dates are all accepted, every
    entry of the feed has its item in the returned list. *)
Theorem accepted_feed_loses_no_entry (w : World) (urls : list pystr)
  (url : pystr) (feed : ParsedFeed) (e : RawEntry.t) :
  In url urls ->
  Py.nonempty (Py.strip url) = true ->
  feedparser_parse w url = inr feed ->
  forallb entry_ok (entries feed) = true ->
  In e (entries feed) ->
  exists i s0,
    In i (fetch_feeds w urls)
    /\ appends (process_entry w (utcnow w 0)
                  (get_default (feed_title feed) url) e) s0 i.
Proof.
  intros Hin Hb Hp Hok He.
  apply in_split in Hin; destruct Hin as (us1 & us2 & ->).
  assert (Hitems : exists i s0,
             In i (appended w (us1 ++ url :: us2))
             /\ appends (process_entry w (utcnow w 0)
                           (get_default (feed_title feed) url) e) s0 i).
  { unfold appended, collect; rewrite RunFacts.process_urls_app.
    destruct (process_urls w (fixed_now w) us1 (mk_run [] 1)) as [s1 r1].
    simpl process_urls.
    destruct (RepeatFacts.for_each_ok_items w (fixed_now w)
                (get_default (feed_title feed) url) (entries feed) s1 Hok)
      as (items & s2 & Hloop & Hnews & Hall).
    assert (Hrun : process_url w (fixed_now w) url s1 = (s2, [])).
    { unfold process_url, try_except, process_feed, bind, lift.
      now rewrite Hb, Hp, Hloop. }
    rewrite Hrun.
    destruct (RepeatFacts.Forall2_In _ _ _ _ Hall He)
      as (i & Hi & s0 & Happ).
    pose proof (FeedFacts.process_urls_keeps w (fixed_now w) us2 s2 i) as Hk.
    destruct (process_urls w (fixed_now w) us2 s2) as [s3 r3]; simpl in *.
    exists i, s0; split; [|exact Happ].
    apply Hk; rewrite Hnews; apply in_or_app; now right. }
  destruct Hitems as (i & s0 & Hi & Happ).
  exists i, s0; split; [|exact Happ].
  unfold fetch_feeds.
  eapply Permutation_in; [apply SortFacts.sort_reverse_perm|exact Hi].
Qed.

(* ------------------------------------------------------------------ *)
(** ** The list the page renders *)

Module PageFacts.

Lemma StronglySorted_filter {A} (R : A -> A -> Prop) (f : A -> bool) l :
  StronglySorted R l -> StronglySorted R (filter f l).
Proof.
  induction 1 as [|x l Hs IH Hall]; simpl; [constructor|].
  destruct (f x); [|exact IH].
  constructor; [exact IH|].
  rewrite Forall_forall in *; intros y Hy.
  apply filter_In in Hy; apply Hall, Hy.
Qed.

Lemma StronglySorted_app_inv {A} (R : A -> A -> Prop) l1 l2 :
  StronglySorted R (l1 ++ l2) ->
  StronglySorted R l1
  /\ forall a b, In a l1 -> In b l2 -> R a b.
Proof.
  induction l1 as [|x l1 IH]; simpl; intros H.
  - split; [constructor|intros a b []].
  - inversion H as [|y l Hs Hall]; subst.
    destruct (IH Hs) as [H1 H2]; split.
    + constructor; [exact H1|].
      rewrite Forall_forall in *; intros z Hz; apply Hall, in_or_app; auto.
    + intros a b [<-|Ha] Hb; [|now apply H2].
      rewrite Forall_forall in Hall; apply Hall, in_or_app; auto.
Qed.

End PageFacts.

(** X7. The page renders at most 20 items, and they are the most
    recent ones of those that pass the recency filter: the rendered
    list is in descending order of [published], each of its items was
    returned by [fetch_feeds] and lies in the window of two hours, the
    filtered list is the rendered list followed by the items left out,
    and none of those is later than a rendered one. A filtered list of
    20 items or fewer is rendered whole. *)
Theorem rendered_are_the_most_recent (w : World) (urls : list pystr)
  (now_utc : datetime) :
  (length (rendered now_utc (fetch_feeds w urls)) <= 20)%nat
  /\ StronglySorted not_later (rendered now_utc (fetch_feeds w urls))
  /\ (forall i, In i (rendered now_utc (fetch_feeds w urls)) ->
        In i (fetch_feeds w urls) /\ in_window now_utc 7200 i)
  /\ (exists rest,
        news_items now_utc (fetch_feeds w urls)
        = rendered now_utc (fetch_feeds w urls) ++ rest
        /\ forall a b,
             In a (rendered now_utc (fetch_feeds w urls)) -> In b rest ->
             not_later a b)
  /\ ((length (news_items now_utc (fetch_feeds w urls)) <= 20)%nat ->
      rendered now_utc (fetch_feeds w urls)
      = news_items now_utc (fetch_feeds w urls)).
Proof.
  unfold rendered.
  set (l := news_items now_utc (fetch_feeds w urls)).
  assert (Hs : StronglySorted not_later l).
  { apply PageFacts.StronglySorted_filter, SortFacts.sort_reverse_sorted. }
  rewrite <- (firstn_skipn 20 l) in Hs.
  destruct (PageFacts.StronglySorted_app_inv _ _ _ Hs) as [H1 H2].
  split; [apply firstn_le_length|]; split; [exact H1|]; split; [|split].
  - intros i Hi.
    assert (Hl : In i l)
      by (rewrite <- (firstn_skipn 20 l); apply in_or_app; now left).
    unfold l, news_items, recency_filter in Hl.
    apply filter_In in Hl; destruct Hl as [Hin Hw].
    split; [exact Hin|now apply FilterFacts.within_window_spec].
  - exists (skipn 20 l); split; [symmetry; apply firstn_skipn|exact H2].
  - intros Hlen; now apply firstn_all2.
Qed.

(** X8. An item without a reliable time carries the snapshot of the
    call, so it passes the recency filter whenever the page filters
    within two hours of that snapshot: such items are shown as recent,
    whatever date their source gave. *)
Theorem undated_items_pass_the_filter (w : World) (urls : list pystr)
  (now_utc : datetime) (i : NewsItem.t) :
  In i (fetch_feeds w urls) ->
  NewsItem.has_time i = false ->
  0 <= Datetime.sub_microseconds now_utc (utcnow w 0) <= 7200 * 1000000 ->
  In i (news_items now_utc (fetch_feeds w urls)).
Proof.
  intros Hin Hflag Hnow.
  destruct (RunFacts.fetch_feeds_from_source w urls i Hin)
    as (url & feed & e & s0 & _ & _ & _ & _ & Happ).
  destruct (TimestampFacts.unreliable_is_snapshot _ _ _ _ _ _ Happ Hflag)
    as [Hp _].
  unfold news_items, recency_filter; apply filter_In; split; [exact Hin|].
  apply FilterFacts.within_window_spec.
  unfold in_window; rewrite Hp; exact Hnow.
Qed.

(* ------------------------------------------------------------------ *)
(** ** Dates and ordinals *)

Module CalendarFacts.
Import Datetime Calendar.

Lemma year_parts y :
  1 <= y ->
  exists a b c r,
    y = 400 * a + 100 * b + 4 * c + r + 1
    /\ 0 <= a /\ 0 <= b <= 3 /\ 0 <= c <= 24 /\ 0 <= r <= 3.
Proof.
  intros Hy.
  exists ((y - 1) / 400), (((y - 1) mod 400) / 100),
    ((((y - 1) mod 400) mod 100) / 4), ((((y - 1) mod 400) mod 100) mod 4).
  assert (0 <= (y - 1) / 400) by (apply Z.div_pos; lia).
  Z.div_mod_to_equations; lia.
Qed.

Lemma days_before_year_parts a b c r :
  0 <= a -> 0 <= b <= 3 -> 0 <= c <= 24 -> 0 <= r <= 3 ->
  days_before_year (400 * a + 100 * b + 4 * c + r + 1)
  = 146097 * a + 36524 * b + 1461 * c + 365 * r.
Proof.
  intros; unfold days_before_year; Z.div_mod_to_equations; lia.
Qed.

Lemma is_leap_parts a b c r :
  0 <= a -> 0 <= b <= 3 -> 0 <= c <= 24 -> 0 <= r <= 3 ->
  is_leap (400 * a + 100 * b + 4 * c + r + 1)
  = (r =? 3) && (negb (c =? 24) || (b =? 3)).
Proof.
  intros Ha Hb Hc Hr; unfold is_leap.
  set (y := 400 * a + 100 * b + 4 * c + r + 1).
  assert (E4 : y mod 4 = (r + 1) mod 4).
  { subst y.
    replace (400 * a + 100 * b + 4 * c + r + 1)
      with (r + 1 + (100 * a + 25 * b + c) * 4) by ring.
    apply Z_mod_plus_full. }
  assert (E100 : y mod 100 = (4 * c + r + 1) mod 100).
  { subst y.
    replace (400 * a + 100 * b + 4 * c + r + 1)
      with (4 * c + r + 1 + (4 * a + b) * 100) by ring.
    apply Z_mod_plus_full. }
  assert (E400 : y mod 400 = (100 * b + 4 * c + r + 1) mod 400).
  { subst y.
    replace (400 * a + 100 * b + 4 * c + r + 1)
      with (100 * b + 4 * c + r + 1 + a * 400) by ring.
    apply Z_mod_plus_full. }
  rewrite E4, E100, E400.
  destruct (Z.eqb_spec r 3), (Z.eqb_spec c 24), (Z.eqb_spec b 3);
    subst; cbn [andb orb negb]; try reflexivity;
    repeat match goal with
           | |- context [?x mod ?k =? 0] =>
               let E := fresh in
               destruct (Z.eqb_spec (x mod k) 0) as [E|E];
               [try (rewrite Z.mod_small in E by lia; lia)
               |try (exfalso; apply E; reflexivity)]
           end;
    cbn [andb orb negb]; try reflexivity;
    try (exfalso; Z.div_mod_to_equations; lia).
Qed.

(** The quotients and remainders [ord2ymd] computes, named. *)
Lemma ord2ymd_parts n q400 q100 q4 q1 r1 :
  n = 146097 * q400 + 36524 * q100 + 1461 * q4 + 365 * q1 + r1 ->
  0 <= 36524 * q100 + 1461 * q4 + 365 * q1 + r1 < 146097 ->
  0 <= 1461 * q4 + 365 * q1 + r1 < 36524 ->
  0 <= 365 * q1 + r1 < 1461 ->
  0 <= r1 < 365 ->
  ord2ymd (n + 1) =
  let year := q400 * 400 + 1 + q100 * 100 + q4 * 4 + q1 in
  if (q1 =? 4) || (q100 =? 4) then (year - 1, 12, 31)
  else
    match
      month_day ((q1 =? 3) && (negb (q4 =? 24) || (q100 =? 3))) r1
    with
    | (month, day) => (year, month, day)
    end.
Proof.
  intros Hn H400 H100 H4 H1.
  unfold ord2ymd, DI400Y, DI100Y, DI4Y.
  change (days_before_year 401) with 146097.
  change (days_before_year 101) with 36524.
  change (days_before_year 5) with 1461.
  replace (n + 1 - 1) with n by ring.
  assert (E1 : n / 146097 = q400) by (Z.div_mod_to_equations; lia).
  assert (E2 : n mod 146097 = 36524 * q100 + 1461 * q4 + 365 * q1 + r1)
    by (Z.div_mod_to_equations; lia).
  rewrite E1, E2.
  assert (E3 : (36524 * q100 + 1461 * q4 + 365 * q1 + r1) / 36524 = q100)
    by (Z.div_mod_to_equations; lia).
  assert (E4 : (36524 * q100 + 1461 * q4 + 365 * q1 + r1) mod 36524
               = 1461 * q4 + 365 * q1 + r1)
    by (Z.div_mod_to_equations; lia).
  rewrite E3, E4.
  assert (E5 : (1461 * q4 + 365 * q1 + r1) / 1461 = q4)
    by (Z.div_mod_to_equations; lia).
  assert (E6 : (1461 * q4 + 365 * q1 + r1) mod 1461 = 365 * q1 + r1)
    by (Z.div_mod_to_equations; lia).
  rewrite E5, E6.
  assert (E7 : (365 * q1 + r1) / 365 = q1)
    by (Z.div_mod_to_equations; lia).
  assert (E8 : (365 * q1 + r1) mod 365 = r1)
    by (Z.div_mod_to_equations; lia).
  rewrite E7, E8.
  reflexivity.
Qed.

Lemma in_range_list lo hi v :
  0 <= lo -> lo <= v <= hi ->
  In v (map Z.of_nat (seq (Z.to_nat lo) (Z.to_nat (hi - lo + 1)))).
Proof.
  intros H0 H; apply in_map_iff; exists (Z.to_nat v); split; [lia|].
  apply in_seq; lia.
Qed.

(** [month_day] finds the month and the day back, on every day of the
    year but the last day of a leap year, which [ord2ymd] handles
    apart. *)
Lemma month_day_days_before_month leap m d :
  1 <= m <= 12 ->
  1 <= d <= (if (m =? 2) && leap then 29
             else nth (Z.to_nat m) DAYS_IN_MONTH 0) ->
  nth (Z.to_nat m) DAYS_BEFORE_MONTH 0
  + (if (2 <? m) && leap then 1 else 0) + d - 1 <= 364 ->
  month_day leap
    (nth (Z.to_nat m) DAYS_BEFORE_MONTH 0
     + (if (2 <? m) && leap then 1 else 0) + d - 1)
  = (m, d).
Proof.
  intros Hm Hd Hlast.
  assert (Hall :
    forallb (fun lp =>
      forallb (fun mm =>
        forallb (fun dd =>
          let doy := nth (Z.to_nat mm) DAYS_BEFORE_MONTH 0
                     + (if (2 <? mm) && lp then 1 else 0) + dd - 1 in
          if (dd <=? (if (mm =? 2) && lp then 29
                      else nth (Z.to_nat mm) DAYS_IN_MONTH 0))
             && (doy <=? 364)
          then match month_day lp doy with
               | (x, y) => (x =? mm) && (y =? dd)
               end
          else true)
          (map Z.of_nat (seq (Z.to_nat 1) (Z.to_nat (31 - 1 + 1)))))
        (map Z.of_nat (seq (Z.to_nat 1) (Z.to_nat (12 - 1 + 1)))))
      [true; false] = true) by (vm_compute; reflexivity).
  rewrite forallb_forall in Hall.
  assert (Hl : In leap [true; false]) by (destruct leap; simpl; auto).
  specialize (Hall leap Hl); rewrite forallb_forall in Hall.
  specialize (Hall m (in_range_list 1 12 m ltac:(lia) Hm)).
  rewrite forallb_forall in Hall.
  assert (Hd31 : 1 <= d <= 31).
  { split; [lia|].
    destruct Hd as [_ Hd].
    destruct ((m =? 2) && leap); [lia|].
    assert (Hm12 : m = 1 \/ m = 2 \/ m = 3 \/ m = 4 \/ m = 5 \/ m = 6
                   \/ m = 7 \/ m = 8 \/ m = 9 \/ m = 10 \/ m = 11 \/ m = 12)
      by lia.
    repeat (destruct Hm12 as [->|Hm12]; [simpl in Hd; lia|]).
    subst m; simpl in Hd; lia. }
  specialize (Hall d (in_range_list 1 31 d ltac:(lia) Hd31)).
  cbv zeta in Hall.
  destruct Hd as [_ Hd]; apply Z.leb_le in Hd, Hlast.
  rewrite Hd, Hlast in Hall; cbn [andb] in Hall.
  destruct (month_day leap _) as [x y].
  apply andb_true_iff in Hall; destruct Hall as [Hx Hy].
  apply Z.eqb_eq in Hx, Hy; congruence.
Qed.

(** Evaluation of the table lookups and tests on known months. *)
Ltac known_month :=
  repeat match goal with
         | |- context [nth ?n ?l 0] =>
             let v := eval vm_compute in (nth n l 0) in
             change (nth n l 0) with v
         | H : context [nth ?n ?l 0] |- _ =>
             let v := eval vm_compute in (nth n l 0) in
             change (nth n l 0) with v in H
         | |- context [if ?b then _ else _] =>
             let v := eval vm_compute in b in
             change b with v; cbv iota
         | H : context [if ?b then _ else _] |- _ =>
             let v := eval vm_compute in b in
             change b with v in H; cbv iota in H
         end.

(** The day of the year of a valid date is below 365, or 365 on the
    last day of a leap year. *)
Lemma day_of_year_bounds leap m d :
  1 <= m <= 12 ->
  1 <= d <= (if (m =? 2) && leap then 29
             else nth (Z.to_nat m) DAYS_IN_MONTH 0) ->
  let doy := nth (Z.to_nat m) DAYS_BEFORE_MONTH 0
             + (if (2 <? m) && leap then 1 else 0) + d - 1 in
  0 <= doy <= 364 \/ (doy = 365 /\ leap = true /\ m = 12 /\ d = 31).
Proof.
  intros Hm Hd doy; subst doy.
  assert (Hm12 : m = 1 \/ m = 2 \/ m = 3 \/ m = 4 \/ m = 5 \/ m = 6
                 \/ m = 7 \/ m = 8 \/ m = 9 \/ m = 10 \/ m = 11 \/ m = 12)
    by lia.
  destruct leap;
    repeat (destruct Hm12 as [->|Hm12]; [known_month; lia|]);
    subst m; known_month; lia.
Qed.

(** The round trip: the ordinal of a valid date gives the date back. *)
Lemma ord2ymd_ymd2ord y m d :
  1 <= y -> 1 <= m <= 12 -> 1 <= d <= days_in_month y m ->
  ord2ymd (ymd2ord y m d) = (y, m, d).
Proof.
  intros Hy Hm Hd.
  destruct (year_parts y Hy) as (a & b & c & r & -> & Ha & Hb & Hc & Hr).
  unfold ymd2ord, days_before_month; unfold days_in_month in Hd.
  rewrite (days_before_year_parts a b c r Ha Hb Hc Hr).
  rewrite (is_leap_parts a b c r Ha Hb Hc Hr) in *.
  set (leap := (r =? 3) && (negb (c =? 24) || (b =? 3))) in *.
  pose proof (day_of_year_bounds leap m d Hm Hd) as Hdoy; cbv zeta in Hdoy.
  pose proof (month_day_days_before_month leap m d Hm Hd) as Hmd.
  set (doy := nth (Z.to_nat m) DAYS_BEFORE_MONTH 0
              + (if (2 <? m) && leap then 1 else 0) + d - 1) in *.
  replace (146097 * a + 36524 * b + 1461 * c + 365 * r
           + (nth (Z.to_nat m) DAYS_BEFORE_MONTH 0
              + (if (2 <? m) && leap then 1 else 0)) + d)
    with (146097 * a + 36524 * b + 1461 * c + 365 * r + doy + 1)
    by (unfold doy; ring).
  destruct Hdoy as [Hsmall|(H365 & Hleap & -> & ->)].
  - rewrite (ord2ymd_parts _ a b c r doy eq_refl) by lia.
    cbv zeta.
    assert (E4 : (r =? 4) = false) by (apply Z.eqb_neq; lia).
    assert (E100 : (b =? 4) = false) by (apply Z.eqb_neq; lia).
    rewrite E4, E100; cbn [orb]; fold leap.
    rewrite Hmd by lia.
    apply f_equal2; [apply f_equal2; [ring|reflexivity]|reflexivity].
  - unfold leap in Hleap; apply andb_true_iff in Hleap.
    destruct Hleap as [Hr3 Hcb]; apply Z.eqb_eq in Hr3; subst r.
    destruct (Z.eqb_spec c 24) as [->|Hc24].
    + cbn [negb orb] in Hcb; apply Z.eqb_eq in Hcb; subst b.
      rewrite H365.
      rewrite (ord2ymd_parts _ a 4 0 0 0) by lia.
      cbv zeta; cbn [orb Z.eqb];
        apply f_equal2; [apply f_equal2; [ring|reflexivity]|reflexivity].
    + rewrite H365.
      rewrite (ord2ymd_parts _ a b c 4 0) by lia.
      cbv zeta; cbn [orb Z.eqb];
        apply f_equal2; [apply f_equal2; [ring|reflexivity]|reflexivity].
Qed.

(** The ordinal of a date the constructor accepts is one that
    [ord2ymd] covers. *)
Lemma ymd2ord_bounds y m d :
  1 <= y <= 9999 -> 1 <= m <= 12 -> 1 <= d <= days_in_month y m ->
  1 <= ymd2ord y m d <= MAXORDINAL.
Proof.
  intros Hy Hm Hd.
  destruct (year_parts y ltac:(lia))
    as (a & b & c & r & -> & Ha & Hb & Hc & Hr).
  unfold ymd2ord, days_before_month, MAXORDINAL; unfold days_in_month in Hd.
  rewrite (days_before_year_parts a b c r Ha Hb Hc Hr).
  rewrite (is_leap_parts a b c r Ha Hb Hc Hr) in *.
  set (leap := (r =? 3) && (negb (c =? 24) || (b =? 3))) in *.
  pose proof (day_of_year_bounds leap m d Hm Hd) as Hdoy; cbv zeta in Hdoy.
  set (doy := nth (Z.to_nat m) DAYS_BEFORE_MONTH 0
              + (if (2 <? m) && leap then 1 else 0) + d - 1) in *.
  replace (146097 * a + 36524 * b + 1461 * c + 365 * r
           + (nth (Z.to_nat m) DAYS_BEFORE_MONTH 0
              + (if (2 <? m) && leap then 1 else 0)) + d)
    with (146097 * a + 36524 * b + 1461 * c + 365 * r + doy + 1)
    by (unfold doy; ring).
  destruct Hdoy as [Hs|(H365 & Hleap & _)]; [lia|].
  unfold leap in Hleap; apply andb_true_iff in Hleap.
  destruct Hleap as [Hr3 Hcb]; apply Z.eqb_eq in Hr3; lia.
Qed.

(** The sum of a datetime and a number of microseconds, from the days,
    hours, minutes, seconds and microseconds of the total. *)
Lemma add_microseconds_parts p delta D H M S U :
  microseconds_of p + delta
  = (D * 86400 + H * 3600 + M * 60 + S) * 1000000 + U ->
  0 <= H <= 23 -> 0 <= M <= 59 -> 0 <= S <= 59 -> 0 <= U <= 999999 ->
  add_microseconds p delta =
  if (0 <? D) && (D <=? MAXORDINAL) then
    match ord2ymd D with
    | (y, m, dd) => inr (mk_datetime y m dd H M S U)
    end
  else inl out_of_range.
Proof.
  intros Htotal HH HM HS HU; unfold add_microseconds; rewrite Htotal.
  set (total := (D * 86400 + H * 3600 + M * 60 + S) * 1000000 + U).
  assert (E1 : total / 86400000000 = D)
    by (unfold total; Z.div_mod_to_equations; lia).
  assert (E2 : total mod 86400000000
               = (H * 3600 + M * 60 + S) * 1000000 + U)
    by (unfold total; Z.div_mod_to_equations; lia).
  cbv zeta; rewrite E1, E2.
  assert (E3 : ((H * 3600 + M * 60 + S) * 1000000 + U) / 1000000
               = H * 3600 + M * 60 + S)
    by (Z.div_mod_to_equations; lia).
  assert (E4 : ((H * 3600 + M * 60 + S) * 1000000 + U) mod 1000000 = U)
    by (Z.div_mod_to_equations; lia).
  rewrite E3, E4.
  assert (E5 : (H * 3600 + M * 60 + S) / 3600 = H)
    by (Z.div_mod_to_equations; lia).
  assert (E6 : (H * 3600 + M * 60 + S) mod 3600 = M * 60 + S)
    by (Z.div_mod_to_equations; lia).
  rewrite E5, E6.
  assert (E7 : (M * 60 + S) / 60 = M) by (Z.div_mod_to_equations; lia).
  assert (E8 : (M * 60 + S) mod 60 = S) by (Z.div_mod_to_equations; lia).
  rewrite E7, E8; reflexivity.
Qed.

Lemma length_digits w n : length (Py.digits w n) = w.
Proof.
  revert n; induction w as [|w IH]; intros n; simpl; [reflexivity|].
  rewrite length_app, IH; simpl; lia.
Qed.

Lemma length_strftime p : length (strftime_dm_HM p) = 11%nat.
Proof.
  unfold strftime_dm_HM; rewrite !length_app, !length_digits; reflexivity.
Qed.

(** What the fields of an accepted [struct_time] satisfy. *)
Lemma valid_fields t :
  valid t = true ->
  1 <= tm_year t <= 9999 /\ 1 <= tm_mon t <= 12
  /\ 1 <= tm_mday t <= days_in_month (tm_year t) (tm_mon t)
  /\ 0 <= tm_hour t <= 23 /\ 0 <= tm_min t <= 59 /\ 0 <= tm_sec t <= 59.
Proof.
  unfold valid, in_range; intros H.
  rewrite !andb_true_iff, !Z.leb_le in H; tauto.
Qed.

End CalendarFacts.

(* ------------------------------------------------------------------ *)
(** ** The date of a card *)

(** X9. For an item without a reliable time the card shows the raw date
    of the feed: as it is when it has 30 characters or fewer, else its
    first 25 characters followed by three dots, 28 characters in all.
    The label never raises and never exceeds 30 characters. *)
Theorem undated_label_is_the_raw_date (item : NewsItem.t) :
  NewsItem.has_time item = false ->
  exists label,
    display_str item = inr label
    /\ (length label <= 30)%nat
    /\ ((length (NewsItem.raw_date item) <= 30)%nat ->
        label = NewsItem.raw_date item)
    /\ ((30 < length (NewsItem.raw_date item))%nat ->
        label = firstn 25 (NewsItem.raw_date item) ++ Py.lit "..."
        /\ length label = 28%nat).
Proof.
  intros Hflag; unfold display_str; rewrite Hflag.
  destruct (Z.ltb_spec 30 (Z.of_nat (length (NewsItem.raw_date item))))
    as [Hlong|Hshort].
  - assert (L : length (Py.slice_to 25 (NewsItem.raw_date item)
                        ++ Py.lit "...") = 28%nat).
    { rewrite length_app; unfold Py.slice_to.
      rewrite firstn_length_le by (simpl; lia); reflexivity. }
    eexists; split; [reflexivity|].
    split; [rewrite L; lia|]; split; [lia|].
    intros _; split; [reflexivity|exact L].
  - eexists; split; [reflexivity|].
    split; [lia|]; split; [reflexivity|lia].
Qed.

(** X10. For an item with a reliable time, made from a parsed date the
    constructor accepted, the card shows the published time moved three
    hours back, as day, month, hour and minute in 11 characters: from
    three o'clock on, the same day and month with the hour less three;
    before three o'clock, the day and month of the day before with the
    hour plus 21, across the ends of months and years and the 29th of
    February. On the first day of year 1 before three o'clock the
    subtraction raises. *)
Theorem dated_label_is_brazil_time (item : NewsItem.t) (t : struct_time) :
  NewsItem.has_time item = true ->
  Datetime.of_struct_time t = inr (NewsItem.published item) ->
  (3 <= tm_hour t ->
   display_str item
   = inr (Calendar.strftime_dm_HM
            (mk_datetime (tm_year t) (tm_mon t) (tm_mday t)
               (tm_hour t - 3) (tm_min t) (tm_sec t) 0)))
  /\ (tm_hour t < 3 ->
      forall y m d,
        1 <= y -> 1 <= m <= 12 -> 1 <= d <= Datetime.days_in_month y m ->
        Datetime.ymd2ord y m d + 1
        = Datetime.ymd2ord (tm_year t) (tm_mon t) (tm_mday t) ->
        display_str item
        = inr (Calendar.strftime_dm_HM
                 (mk_datetime y m d (tm_hour t + 21) (tm_min t)
                    (tm_sec t) 0)))
  /\ (tm_hour t < 3 ->
      tm_year t = 1 -> tm_mon t = 1 -> tm_mday t = 1 ->
      display_str item = inl Calendar.out_of_range)
  /\ (forall label, display_str item = inr label ->
        length label = 11%nat).
Proof.
  intros Hflag Hconv.
  apply ConversionFacts.of_struct_time_inr in Hconv.
  destruct Hconv as [Hvalid Hp].
  destruct (CalendarFacts.valid_fields t Hvalid)
    as (Hy & Hm & Hd & Hh & Hmi & Hs).
  pose proof (CalendarFacts.ymd2ord_bounds _ _ _ Hy Hm Hd) as Hord.
  unfold display_str, Calendar.sub_hours; rewrite Hflag, Hp.
  set (ord := Datetime.ymd2ord (tm_year t) (tm_mon t) (tm_mday t)) in *.
  assert (Hus : Calendar.microseconds_of (Datetime.made t)
                = (ord * 86400 + tm_hour t * 3600 + tm_min t * 60
                   + tm_sec t) * 1000000 + 0)
    by (unfold Calendar.microseconds_of, Datetime.toordinal, Datetime.made;
        simpl; fold ord; ring).
  split; [|split; [|split]].
  - intros H3.
    rewrite (CalendarFacts.add_microseconds_parts _ _ ord (tm_hour t - 3)
               (tm_min t) (tm_sec t) 0) by (rewrite ?Hus; lia).
    assert (E : (0 <? ord) && (ord <=? Calendar.MAXORDINAL) = true)
      by (apply andb_true_iff; split; [apply Z.ltb_lt|apply Z.leb_le]; lia).
    rewrite E; unfold ord.
    rewrite CalendarFacts.ord2ymd_ymd2ord by lia.
    reflexivity.
  - intros H3 y m d Hy' Hm' Hd' Hprev.
    rewrite (CalendarFacts.add_microseconds_parts _ _ (ord - 1)
               (tm_hour t + 21) (tm_min t) (tm_sec t) 0)
      by (rewrite ?Hus; lia).
    assert (Hpos : 1 <= Datetime.ymd2ord y m d).
    { unfold Datetime.ymd2ord, Datetime.days_before_year,
        Datetime.days_before_month.
      assert (0 <= nth (Z.to_nat m) Datetime.DAYS_BEFORE_MONTH 0).
      { assert (Hm12 : m = 1 \/ m = 2 \/ m = 3 \/ m = 4 \/ m = 5 \/ m = 6
                       \/ m = 7 \/ m = 8 \/ m = 9 \/ m = 10 \/ m = 11
                       \/ m = 12) by lia.
        repeat (destruct Hm12 as [->|Hm12]; [simpl; lia|]).
        subst m; simpl; lia. }
      destruct ((2 <? m) && Datetime.is_leap y);
        Z.div_mod_to_equations; lia. }
    assert (E : (0 <? ord - 1) && (ord - 1 <=? Calendar.MAXORDINAL) = true)
      by (apply andb_true_iff; split; [apply Z.ltb_lt|apply Z.leb_le]; lia).
    rewrite E.
    replace (ord - 1) with (Datetime.ymd2ord y m d) by lia.
    rewrite CalendarFacts.ord2ymd_ymd2ord by lia.
    reflexivity.
  - intros H3 Hy1 Hm1 Hd1.
    rewrite (CalendarFacts.add_microseconds_parts _ _ (ord - 1)
               (tm_hour t + 21) (tm_min t) (tm_sec t) 0)
      by (rewrite ?Hus; lia).
    assert (Hone : ord = 1) by (unfold ord; rewrite Hy1, Hm1, Hd1; reflexivity).
    rewrite Hone; reflexivity.
  - intros label.
    destruct (Calendar.add_microseconds _ _) as [ex|dt]; [discriminate|].
    intros H; inversion H; apply CalendarFacts.length_strftime.
Qed.

(* ------------------------------------------------------------------ *)
(** ** The preview of a card *)

Module PreviewFacts.

Lemma remove_tags_length s : forall pending,
  (length (remove_tags pending s)
   <= length (match pending with Some b => b | None => [] end) + length s)%nat.
Proof.
  induction s as [|c r IH]; intros pending; simpl.
  - destruct pending; simpl; lia.
  - destruct pending as [b|].
    + destruct (c =? 60)%N.
      * rewrite length_app; specialize (IH (Some [c])); simpl in IH; lia.
      * destruct ((c =? 62)%N && (1 <? Z.of_nat (length b))).
        -- specialize (IH None); simpl in IH; lia.
        -- specialize (IH (Some (b ++ [c]))); simpl in IH.
           rewrite length_app in IH; simpl in IH; lia.
    + destruct (c =? 60)%N.
      * specialize (IH (Some [c])); simpl in IH; lia.
      * specialize (IH None); simpl in *; lia.
Qed.

Lemma remove_tags_plain s :
  ~ In 60%N s -> remove_tags None s = s.
Proof.
  induction s as [|c r IH]; simpl; intros H; [reflexivity|].
  destruct (N.eqb_spec c 60) as [->|_]; [exfalso; apply H; now left|].
  f_equal; apply IH; intros Hin; apply H; now right.
Qed.

(** Inside a match in progress, characters that are neither [<] nor [>]
    are taken in; the [>] that follows ends the match. *)
Lemma remove_tags_body body : forall b rest,
  ~ In 60%N body -> ~ In 62%N body ->
  (1 < length (b ++ body))%nat ->
  remove_tags (Some b) (body ++ 62%N :: rest) = remove_tags None rest.
Proof.
  induction body as [|c body IH]; intros b rest H60 H62 Hlen; simpl.
  - rewrite app_nil_r in Hlen.
    assert (E : (1 <? Z.of_nat (length b)) = true) by (apply Z.ltb_lt; lia).
    now rewrite E.
  - destruct (N.eqb_spec c 60) as [->|_]; [exfalso; apply H60; now left|].
    destruct (N.eqb_spec c 62) as [->|_]; [exfalso; apply H62; now left|].
    cbn [andb]; apply IH.
    + intros Hin; apply H60; now right.
    + intros Hin; apply H62; now right.
    + rewrite <- app_assoc; exact Hlen.
Qed.

Lemma remove_tags_app_plain pre s :
  ~ In 60%N pre -> remove_tags None (pre ++ s) = pre ++ remove_tags None s.
Proof.
  induction pre as [|c pre IH]; simpl; intros H; [reflexivity|].
  destruct (N.eqb_spec c 60) as [->|_]; [exfalso; apply H; now left|].
  f_equal; apply IH; intros Hin; apply H; now right.
Qed.

(** A pending match that meets no [>] comes back whole. *)
Lemma remove_tags_unclosed s : forall b,
  ~ In 60%N s -> ~ In 62%N s -> remove_tags (Some b) s = b ++ s.
Proof.
  induction s as [|c r IH]; intros b H60 H62; simpl.
  - now rewrite app_nil_r.
  - destruct (N.eqb_spec c 60) as [->|_]; [exfalso; apply H60; now left|].
    destruct (N.eqb_spec c 62) as [->|_]; [exfalso; apply H62; now left|].
    cbn [andb]; rewrite IH, <- app_assoc; [reflexivity| |].
    + intros Hin; apply H60; now right.
    + intros Hin; apply H62; now right.
Qed.

Lemma has_false c s : has c s = false -> ~ In c s.
Proof.
  unfold has; intros H Hin.
  assert (E : existsb (N.eqb c) s = true)
    by (apply existsb_exists; exists c; split; [exact Hin|apply N.eqb_refl]).
  congruence.
Qed.

(** A [<] that meets no [>] before the next [<], or before the end,
    stays with what follows it. *)
Lemma remove_tags_open after rest : forall b,
  ~ In 60%N after -> ~ In 62%N after ->
  rest = [] \/ (exists rest', rest = 60%N :: rest') ->
  remove_tags (Some b) (after ++ rest) = b ++ after ++ remove_tags None rest.
Proof.
  induction after as [|c after IH]; intros b H60 H62 Hrest; simpl.
  - destruct Hrest as [->|(rest' & ->)]; simpl; [now rewrite app_nil_r|].
    reflexivity.
  - destruct (N.eqb_spec c 60) as [->|_]; [exfalso; apply H60; now left|].
    destruct (N.eqb_spec c 62) as [->|_]; [exfalso; apply H62; now left|].
    cbn [andb]; rewrite IH, <- app_assoc; [reflexivity| | |exact Hrest].
    + intros Hin; apply H60; now right.
    + intros Hin; apply H62; now right.
Qed.

(** The markup of pieces that do not open with a text is empty or opens
    with a [<]. *)
Lemma markup_opens ps :
  match ps with text_piece _ :: _ => false | _ => true end = true ->
  concat (map markup ps) = []
  \/ exists rest', concat (map markup ps) = 60%N :: rest'.
Proof.
  destruct ps as [|[t|body|after] r]; simpl; intros H;
    [now left|discriminate|right; eauto|right; eauto].
Qed.

(** Taking the tags out of the markup of well-formed pieces leaves what
    shows of them. *)
Lemma remove_tags_pieces ps :
  well_formed ps = true ->
  remove_tags None (concat (map markup ps)) = concat (map visible ps).
Proof.
  induction ps as [|[t|body|after] r IH]; intros Hwf;
    cbn [well_formed] in Hwf; cbn [map concat markup visible].
  - reflexivity.
  - apply andb_true_iff in Hwf; destruct Hwf as [Ht Hr].
    apply negb_true_iff, has_false in Ht.
    rewrite remove_tags_app_plain by exact Ht.
    now rewrite IH.
  - rewrite !andb_true_iff in Hwf; destruct Hwf as [[[Hne H60] H62] Hr].
    apply negb_true_iff, has_false in H60.
    apply negb_true_iff, has_false in H62.
    rewrite <- app_comm_cons, <- app_assoc.
    cbn [remove_tags app]; rewrite N.eqb_refl.
    rewrite remove_tags_body; [now apply IH|exact H60|exact H62|].
    destruct body; [discriminate|simpl; lia].
  - rewrite !andb_true_iff in Hwf; destruct Hwf as [[[H60 H62] Hnext] Hr].
    apply negb_true_iff, has_false in H60.
    apply negb_true_iff, has_false in H62.
    rewrite <- app_comm_cons.
    cbn [remove_tags]; rewrite N.eqb_refl.
    rewrite remove_tags_open;
      [|exact H60|exact H62|now apply markup_opens].
    now rewrite IH.
Qed.

End PreviewFacts.

(** X11. A card has a preview exactly when the item has a non-empty
    summary. The preview is the summary without its tags, cut at 200
    characters, followed by three dots: it has at most 203 characters,
    it is never longer than the summary plus the dots, and for a summary
    without any [<] it is the first 200 characters of the summary and
    the dots. For a summary written as texts, tags and [<] signs that
    open no tag, the preview is made of the first 200 characters of the
    texts and of those signs with what follows them, the tags left out,
    and the dots. *)
Theorem preview_is_bounded (item : NewsItem.t) :
  (NewsItem.summary_rss item = [] -> clean_summary item = None)
  /\ (NewsItem.summary_rss item <> [] ->
      exists text,
        clean_summary item = Some (text ++ Py.lit "...")
        /\ (length text <= 200)%nat
        /\ (length text <= length (NewsItem.summary_rss item))%nat
        /\ (~ In 60%N (NewsItem.summary_rss item) ->
            text = firstn 200 (NewsItem.summary_rss item)))
  /\ (forall ps,
        well_formed ps = true ->
        NewsItem.summary_rss item = concat (map markup ps) ->
        NewsItem.summary_rss item <> [] ->
        clean_summary item
        = Some (firstn 200 (concat (map visible ps)) ++ Py.lit "...")).
Proof.
  unfold clean_summary; split; [|split].
  - intros ->; reflexivity.
  - intros Hne.
    destruct (NewsItem.summary_rss item) as [|c r] eqn:E; [congruence|].
    cbn [Py.nonempty].
    eexists; split; [reflexivity|].
    unfold Py.slice_to; split; [|split].
    + rewrite length_firstn; change (N.to_nat 200) with 200%nat; lia.
    + rewrite length_firstn.
      pose proof (PreviewFacts.remove_tags_length (c :: r) None) as H.
      cbv beta iota in H; change (length (@nil N)) with 0%nat in H; lia.
    + intros Hplain; now rewrite PreviewFacts.remove_tags_plain.
  - intros ps Hwf Hs Hne.
    assert (N : Py.nonempty (NewsItem.summary_rss item) = true)
      by (destruct (NewsItem.summary_rss item); [congruence|reflexivity]).
    rewrite N, Hs, (PreviewFacts.remove_tags_pieces ps Hwf).
    reflexivity.
Qed.

(** X12. The tags the preview drops are the stretches that open with a
    [<], hold at least one character and no other [<], and close at the
    first [>] after that character. Text before a tag is kept, a [<]
    that is never closed stays in the preview with what follows it, and
    [<>] alone is not a tag. *)
Theorem tags_are_removed (pre body rest : pystr) :
  ~ In 60%N pre ->
  ~ In 60%N body -> ~ In 62%N body ->
  (body <> [] ->
   remove_tags None (pre ++ 60%N :: body ++ 62%N :: rest)
   = pre ++ remove_tags None rest)
  /\ remove_tags None (pre ++ 60%N :: body) = pre ++ 60%N :: body
  /\ remove_tags None (pre ++ 60%N :: 62%N :: body)
     = pre ++ 60%N :: 62%N :: body.
Proof.
  intros Hpre H60 H62; split; [|split].
  - intros Hbody.
    rewrite PreviewFacts.remove_tags_app_plain by exact Hpre.
    f_equal; simpl.
    apply PreviewFacts.remove_tags_body; auto.
    destruct body; [congruence|simpl; lia].
  - rewrite PreviewFacts.remove_tags_app_plain by exact Hpre.
    f_equal; simpl.
    now rewrite PreviewFacts.remove_tags_unclosed.
  - rewrite PreviewFacts.remove_tags_app_plain by exact Hpre.
    f_equal; simpl.
    now rewrite PreviewFacts.remove_tags_unclosed.
Qed.

(* ------------------------------------------------------------------ *)
(** ** The image and the summary button of a card *)

(** X13. The image of a card. What [st.image] receives is never the
    empty string: a non-empty image of the feed is shown as it is and
    nothing is downloaded; an item whose image is missing or is the
    empty string is treated alike, the article being downloaded once
    for its top image; with an empty link nothing is downloaded and no
    image is shown; and an article that fails, or has no top image,
    shows no image. *)
Theorem card_image_is_never_empty (newspaper : pystr -> exn + Article)
  (item : NewsItem.t) (net : list pystr) :
  (fst (st_image newspaper item net) = None
   \/ exists u, fst (st_image newspaper item net) = Some u /\ u <> [])
  /\ (forall u, NewsItem.image item = Some u -> u <> [] ->
        st_image newspaper item net = (Some u, net))
  /\ (NewsItem.image item = None \/ NewsItem.image item = Some [] ->
      st_image newspaper item net
      = (match get_article_image newspaper (NewsItem.link item) net with
         | (v, net') => (v, net')
         end)
      /\ (NewsItem.link item = [] ->
          st_image newspaper item net = (None, net))
      /\ (NewsItem.link item <> [] ->
          snd (st_image newspaper item net) = net ++ [NewsItem.link item]
          /\ (forall ex, newspaper (NewsItem.link item) = inl ex ->
                fst (st_image newspaper item net) = None)
          /\ (forall a, newspaper (NewsItem.link item) = inr a ->
                fst (st_image newspaper item net)
                = if Py.nonempty (top_image a) then Some (top_image a)
                  else None))).
Proof.
  assert (Hget : forall url n,
             fst (get_article_image newspaper url n) = None
             \/ exists u, fst (get_article_image newspaper url n) = Some u
                          /\ u <> []).
  { intros url n; unfold get_article_image.
    destruct (Py.nonempty url); simpl; [|now left].
    destruct (newspaper url) as [ex|a]; simpl; [now left|].
    destruct (top_image a) as [|c r] eqn:E; simpl; [now left|].
    right; eexists; split; [reflexivity|discriminate]. }
  assert (Hsame : forall url n,
             (let (v, n') := get_article_image newspaper url n in
              (if Py.truthy v then v else None, n'))
             = get_article_image newspaper url n).
  { intros url n; specialize (Hget url n).
    destruct (get_article_image newspaper url n) as [v n']; simpl in *.
    destruct Hget as [->|(u & -> & Hu)]; [reflexivity|].
    destruct u; [congruence|reflexivity]. }
  split; [|split].
  - unfold st_image, display_image.
    destruct (Py.truthy (NewsItem.image item)) eqn:T.
    + rewrite T; simpl.
      destruct (NewsItem.image item) as [[|c r]|]; try discriminate.
      right; eexists; split; [reflexivity|discriminate].
    + rewrite Hsame; apply Hget.
  - intros u Hu Hne; unfold st_image, display_image; rewrite Hu.
    destruct u; [congruence|reflexivity].
  - intros Hfalsy.
    assert (T : Py.truthy (NewsItem.image item) = false)
      by (destruct Hfalsy as [-> | ->]; reflexivity).
    assert (E : st_image newspaper item net
                = get_article_image newspaper (NewsItem.link item) net).
    { unfold st_image, display_image; rewrite T; apply Hsame. }
    split; [rewrite E; now destruct (get_article_image _ _ _)|].
    rewrite E; unfold get_article_image; split.
    + intros ->; reflexivity.
    + intros Hlink.
      assert (L : Py.nonempty (NewsItem.link item) = true)
        by (destruct (NewsItem.link item); [congruence|reflexivity]).
      rewrite L; simpl.
      destruct (newspaper (NewsItem.link item)) as [ex|a].
      * split; [reflexivity|].
        split; [intros; reflexivity|intros a H; discriminate].
      * destruct (Py.nonempty (top_image a)) eqn:Ht;
          (split; [reflexivity|]);
          (split; [intros ex H; discriminate|]);
          intros a' H; inversion H; subst; rewrite Ht; reflexivity.
Qed.


(* ------------------------------------------------------------------ *)
(** ** More on [summarize_with_gemini] *)

Module AttemptFacts.

(** The loop stops at the first model that answers. *)
Lemma try_models_first_success backend api_key p err pre : forall errors g m post text,
  (forall x, In x pre -> backend api_key x p = inl (err x)) ->
  backend api_key m p = inr text ->
  try_models backend api_key p (pre ++ m :: post) errors g
  = (text,
     mk_genai (configured g)
       (requests g ++ map (fun x => (x, p)) (pre ++ [m]))).
Proof.
  induction pre as [|x pre IH]; intros errors g m post text Hfail Hm; simpl.
  - now rewrite Hm.
  - rewrite (Hfail x (or_introl eq_refl)).
    rewrite (IH _ _ m post text
               (fun y Hy => Hfail y (or_intror Hy)) Hm).
    simpl; now rewrite <- app_assoc.
Qed.

(** The requests of the loop go to the models in order, as far as the
    loop gets. *)
Lemma try_models_requests backend api_key p models : forall errors g,
  exists k,
    (k <= length models)%nat
    /\ (models <> [] -> (1 <= k)%nat)
    /\ snd (try_models backend api_key p models errors g)
       = mk_genai (configured g)
           (requests g ++ map (fun x => (x, p)) (firstn k models)).
Proof.
  induction models as [|m models IH]; intros errors g; simpl.
  - exists 0%nat; split; [lia|]; split; [intros H; congruence|].
    simpl; rewrite app_nil_r; destruct g; reflexivity.
  - destruct (backend api_key m p) as [e|text].
    + destruct (IH (errors ++ [error_line m e])
                  (mk_genai (configured g) (requests g ++ [(m, p)])))
        as (k & Hk & _ & Hreq).
      exists (S k); split; [lia|]; split; [lia|].
      rewrite Hreq; simpl; now rewrite <- app_assoc.
    + exists 1%nat; split; [lia|]; split; [lia|reflexivity].
Qed.

End AttemptFacts.

(** X15. The summary is the answer of the first model of the list that
    answers: the failures of the models before it are dropped, the
    models after it are never asked, and the library has received one
    configuration and one request for each model up to that one, in the
    order of the list, all with the same prompt. *)
Theorem summarize_returns_first_answer
  (backend : pystr -> pystr -> pystr -> pystr + pystr)
  (api_key : pystr) (g : Genai) (t : pystr)
  (pre post : list pystr) (m text : pystr) (err : pystr -> pystr) :
  (100 <= length t)%nat ->
  models_to_try = pre ++ m :: post ->
  (forall x, In x pre -> backend api_key x (prompt t) = inl (err x)) ->
  backend api_key m (prompt t) = inr text ->
  summarize_with_gemini backend (Some t) api_key g
  = (text,
     mk_genai (configured g ++ [api_key])
       (requests g ++ map (fun x => (x, prompt t)) (pre ++ [m]))).
Proof.
  intros Hlen Hsplit Hfail Hm; unfold summarize_with_gemini.
  assert (E : (Z.of_nat (length t) <? 100) = false)
    by (apply Z.ltb_ge; lia).
  assert (N : Py.nonempty t = true)
    by (destruct t; [simpl in Hlen; lia|reflexivity]).
  rewrite E, N, Hsplit; cbn [negb orb]; cbv iota.
  now rewrite (AttemptFacts.try_models_first_success backend api_key
                 (prompt t) err pre [] _ m post text Hfail Hm).
Qed.

(** X16. Whatever the backend does, a call either leaves the model
    library untouched (a text that is missing or shorter than 100
    characters) or configures the key once and asks the models of the
    list in order, each at most once and at least the first, with the
    prompt built from the text: never more than five requests, never a
    model outside the list. *)
Theorem summarize_asks_models_in_order
  (backend : pystr -> pystr -> pystr -> pystr + pystr)
  (text : option pystr) (api_key : pystr) (g : Genai) :
  snd (summarize_with_gemini backend text api_key g) = g
  \/ exists t k,
       text = Some t
       /\ (100 <= length t)%nat
       /\ (1 <= k <= 5)%nat
       /\ snd (summarize_with_gemini backend text api_key g)
          = mk_genai (configured g ++ [api_key])
              (requests g
               ++ map (fun m => (m, prompt t)) (firstn k models_to_try)).
Proof.
  destruct text as [t|]; [|now left].
  unfold summarize_with_gemini.
  destruct (Z.ltb_spec (Z.of_nat (length t)) 100) as [Hs|Hl].
  - rewrite orb_true_r; now left.
  - destruct (Py.nonempty t); cbn [negb orb]; cbv iota; [|now left].
    right.
    destruct (AttemptFacts.try_models_requests backend api_key (prompt t)
                models_to_try []
                (mk_genai (configured g ++ [api_key]) (requests g)))
      as (k & Hk & Hk1 & Hreq).
    exists t, k; split; [reflexivity|]; split; [lia|]; split.
    + split; [apply Hk1; discriminate|exact Hk].
    + exact Hreq.
Qed.

(** X17. Only the first 8000 characters of the text reach the models:
    two texts of 100 characters or more that agree on them get the same
    prompt, hence the same requests and the same result. *)
Theorem text_beyond_8000_is_ignored
  (backend : pystr -> pystr -> pystr -> pystr + pystr)
  (api_key : pystr) (g : Genai) (t1 t2 : pystr) :
  (100 <= length t1)%nat -> (100 <= length t2)%nat ->
  Py.slice_to 8000 t1 = Py.slice_to 8000 t2 ->
  prompt t1 = prompt t2
  /\ summarize_with_gemini backend (Some t1) api_key g
     = summarize_with_gemini backend (Some t2) api_key g.
Proof.
  intros H1 H2 Hcut.
  assert (P : prompt t1 = prompt t2) by (unfold prompt; now rewrite Hcut).
  split; [exact P|].
  unfold summarize_with_gemini; rewrite P.
  assert (E1 : (Z.of_nat (length t1) <? 100) = false)
    by (apply Z.ltb_ge; lia).
  assert (E2 : (Z.of_nat (length t2) <? 100) = false)
    by (apply Z.ltb_ge; lia).
  assert (N1 : Py.nonempty t1 = true)
    by (destruct t1; [simpl in H1; lia|reflexivity]).
  assert (N2 : Py.nonempty t2 = true)
    by (destruct t2; [simpl in H2; lia|reflexivity]).
  now rewrite E1, E2, N1, N2.
Qed.

(* ------------------------------------------------------------------ *)
(** ** The header of the page *)

(** X18. The date of the header is always defined for a datetime whose
    month is 1 to 12: the weekday is a number from 0 to 6 and the month
    less one a number from 0 to 11, so both lookups find a name and no
    [IndexError] is raised. The text is the upper case of the day name,
    the day number and the month name, and days whose ordinals follow
    each other get day names that follow each other in the table,
    Monday after Sunday. *)
Theorem header_date_is_defined (upper : pystr -> pystr) (now : datetime) :
  1 <= month now <= 12 ->
  0 <= Calendar.weekday now <= 6
  /\ (exists day_name month_name,
        nth_error days_pt (Z.to_nat (Calendar.weekday now)) = Some day_name
        /\ nth_error months_pt (Z.to_nat (month now - 1)) = Some month_name
        /\ date_str upper now
           = inr (upper (day_name ++ Py.lit ", " ++ decimal (day now)
                         ++ Py.lit " DE " ++ month_name)))
  /\ (forall next,
        Datetime.toordinal next = Datetime.toordinal now + 1 ->
        Calendar.weekday next = (Calendar.weekday now + 1) mod 7).
Proof.
  intros Hm.
  assert (Hw : 0 <= Calendar.weekday now <= 6)
    by (unfold Calendar.weekday;
        pose proof (Z.mod_pos_bound (Datetime.toordinal now + 6) 7); lia).
  split; [exact Hw|]; split.
  - unfold date_str.
    assert (Hw7 : Calendar.weekday now = 0 \/ Calendar.weekday now = 1
                  \/ Calendar.weekday now = 2 \/ Calendar.weekday now = 3
                  \/ Calendar.weekday now = 4 \/ Calendar.weekday now = 5
                  \/ Calendar.weekday now = 6) by lia.
    assert (Hm12 : month now - 1 = 0 \/ month now - 1 = 1
                   \/ month now - 1 = 2 \/ month now - 1 = 3
                   \/ month now - 1 = 4 \/ month now - 1 = 5
                   \/ month now - 1 = 6 \/ month now - 1 = 7
                   \/ month now - 1 = 8 \/ month now - 1 = 9
                   \/ month now - 1 = 10 \/ month now - 1 = 11) by lia.
    assert (Hday : exists day_name,
               nth_error days_pt (Z.to_nat (Calendar.weekday now))
               = Some day_name
               /\ py_index days_pt (Calendar.weekday now) = inr day_name).
    { repeat (destruct Hw7 as [E|Hw7];
              [rewrite E; eexists; split; reflexivity|]).
      rewrite Hw7; eexists; split; reflexivity. }
    assert (Hmonth : exists month_name,
               nth_error months_pt (Z.to_nat (month now - 1))
               = Some month_name
               /\ py_index months_pt (month now - 1) = inr month_name).
    { repeat (destruct Hm12 as [E|Hm12];
              [rewrite E; eexists; split; reflexivity|]).
      rewrite Hm12; eexists; split; reflexivity. }
    destruct Hday as (dn & Hd1 & Hd2), Hmonth as (mn & Hm1 & Hm2).
    exists dn, mn; rewrite Hd2, Hm2; auto.
  - intros next Hnext; unfold Calendar.weekday; rewrite Hnext.
    Z.div_mod_to_equations; lia.
Qed.

(* ------------------------------------------------------------------ *)
(** ** The further properties on the sample feeds and pages *)

Ltac not_in_list := simpl; intuition discriminate.

(** Source E: the item of the first entry stays, the entry with a second
    of 60 is reported, the third entry is not reached. *)
Lemma feed_stops_at_refused_entry_witness :
  Py.nonempty (Py.strip Sample.url_e) = true
  /\ feedparser_parse Sample.world Sample.url_e
     = inr (mk_feed (Some (Py.lit "Feed E"))
              [Sample.a1; Sample.bad; Sample.a2])
  /\ forallb entry_ok [Sample.a1] = true
  /\ Datetime.of_struct_time (mk_struct_time 2024 3 1 10 59 60 4 61 0)
     = inl (ValueError FSecond 60)
  /\ exists items s',
       process_url Sample.world (utcnow Sample.world 0) Sample.url_e
         (mk_run [] 1)
       = (s', [(Sample.url_e, ValueError FSecond 60)])
       /\ all_news s' = all_news (mk_run [] 1) ++ items
       /\ Forall2 (fun e i => exists s0,
                     appends (process_entry Sample.world
                                (utcnow Sample.world 0)
                                (get_default (Some (Py.lit "Feed E"))
                                   Sample.url_e) e) s0 i)
            [Sample.a1] items.
Proof.
  split; [reflexivity|]; split; [reflexivity|]; split; [reflexivity|].
  split; [reflexivity|].
  exact (feed_stops_at_refused_entry Sample.world (utcnow Sample.world 0)
           Sample.url_e
           (mk_feed (Some (Py.lit "Feed E"))
              [Sample.a1; Sample.bad; Sample.a2])
           [Sample.a1] [Sample.a2] Sample.bad
           (mk_struct_time 2024 3 1 10 59 60 4 61 0)
           (ValueError FSecond 60) (mk_run [] 1)
           eq_refl eq_refl eq_refl eq_refl eq_refl eq_refl).
Defined.

(** Source D: the item of the entry without any date string. *)
Lemma returned_item_fields_witness :
  In Sample.item_d1 (fetch_feeds Sample.world [Sample.url_d; Sample.url_c])
  /\ NewsItem.source Sample.item_d1 = Py.lit "Feed D"
  /\ NewsItem.link Sample.item_d1 = []
  /\ exists url feed e,
       In url [Sample.url_d; Sample.url_c]
       /\ feedparser_parse Sample.world url = inr feed
       /\ In e (entries feed)
       /\ NewsItem.title Sample.item_d1
          = match RawEntry.title e with
            | Some t => t
            | None => Py.lit "Sem Título"
            end
       /\ NewsItem.link Sample.item_d1
          = match RawEntry.link e with Some l => l | None => [] end
       /\ NewsItem.source Sample.item_d1
          = match feed_title feed with Some t => t | None => url end
       /\ NewsItem.summary_rss Sample.item_d1
          = match RawEntry.summary e with Some x => x | None => [] end
       /\ NewsItem.image Sample.item_d1
          = resolve_image (BeautifulSoup Sample.world) e
       /\ match RawEntry.published e, RawEntry.updated e with
          | Some (c :: r), _ => NewsItem.raw_date Sample.item_d1 = c :: r
          | _, Some (c :: r) => NewsItem.raw_date Sample.item_d1 = c :: r
          | _, _ =>
              exists n, NewsItem.raw_date Sample.item_d1
                        = Datetime.to_str (now Sample.world n)
          end.
Proof.
  assert (Hin : In Sample.item_d1
                  (fetch_feeds Sample.world [Sample.url_d; Sample.url_c]))
    by (vm_compute; right; left; reflexivity).
  split; [exact Hin|]; split; [reflexivity|]; split; [reflexivity|].
  exact (returned_item_fields Sample.world [Sample.url_d; Sample.url_c]
           Sample.item_d1 Hin).
Defined.

(** Source A among three: its second entry has its item in the result. *)
Lemma accepted_feed_loses_no_entry_witness :
  In Sample.url_a [Sample.url_a; Sample.url_b; Sample.url_c]
  /\ forallb entry_ok [Sample.a1; Sample.a2] = true
  /\ exists i s0,
       In i (fetch_feeds Sample.world
               [Sample.url_a; Sample.url_b; Sample.url_c])
       /\ appends (process_entry Sample.world (utcnow Sample.world 0)
                     (get_default (Some (Py.lit "Feed A")) Sample.url_a)
                     Sample.a2) s0 i.
Proof.
  split; [now left|]; split; [reflexivity|].
  exact (accepted_feed_loses_no_entry Sample.world
           [Sample.url_a; Sample.url_b; Sample.url_c] Sample.url_a
           (mk_feed (Some (Py.lit "Feed A")) [Sample.a1; Sample.a2])
           Sample.a2 (or_introl eq_refl) eq_refl eq_refl eq_refl
           (or_intror (or_introl eq_refl))).
Defined.

(** One second after the snapshot the undated item of source C passes
    the filter. *)
Lemma undated_items_pass_the_filter_witness :
  In Sample.item_c1 (fetch_feeds Sample.world [Sample.url_d; Sample.url_c])
  /\ NewsItem.has_time Sample.item_c1 = false
  /\ 0 <= Datetime.sub_microseconds (utcnow Sample.world 1)
            (utcnow Sample.world 0) <= 7200 * 1000000
  /\ In Sample.item_c1
       (news_items (utcnow Sample.world 1)
          (fetch_feeds Sample.world [Sample.url_d; Sample.url_c])).
Proof.
  assert (Hin : In Sample.item_c1
                  (fetch_feeds Sample.world [Sample.url_d; Sample.url_c]))
    by (vm_compute; right; right; left; reflexivity).
  assert (Hnow : 0 <= Datetime.sub_microseconds (utcnow Sample.world 1)
                        (utcnow Sample.world 0) <= 7200 * 1000000)
    by (vm_compute; split; discriminate).
  split; [exact Hin|]; split; [reflexivity|]; split; [exact Hnow|].
  exact (undated_items_pass_the_filter Sample.world
           [Sample.url_d; Sample.url_c] (utcnow Sample.world 1)
           Sample.item_c1 Hin eq_refl Hnow).
Defined.

(** A raw date of 36 characters is cut to 25 and three dots. *)
Lemma undated_label_is_the_raw_date_witness :
  NewsItem.has_time PageSample.long_raw = false
  /\ display_str PageSample.long_raw
     = inr (Py.lit "Wed, 24 Dec 2024 10:00:00...")
  /\ exists label,
       display_str PageSample.long_raw = inr label
       /\ (length label <= 30)%nat
       /\ ((length (NewsItem.raw_date PageSample.long_raw) <= 30)%nat ->
           label = NewsItem.raw_date PageSample.long_raw)
       /\ ((30 < length (NewsItem.raw_date PageSample.long_raw))%nat ->
           label = firstn 25 (NewsItem.raw_date PageSample.long_raw)
                   ++ Py.lit "..."
           /\ length label = 28%nat).
Proof.
  split; [reflexivity|]; split; [vm_compute; reflexivity|].
  exact (undated_label_is_the_raw_date PageSample.long_raw eq_refl).
Defined.

(** Eleven o'clock is shown as eight o'clock; half past one in the
    morning of the first of March 2024 as 22:30 of the 29th of
    February. *)
Lemma dated_label_is_brazil_time_witness :
  NewsItem.has_time Sample.item_a1 = true
  /\ Datetime.of_struct_time (Sample.at_time 11 0)
     = inr (NewsItem.published Sample.item_a1)
  /\ display_str Sample.item_a1 = inr (Py.lit "01/03 08:00")
  /\ Datetime.of_struct_time (Sample.at_time 1 30)
     = inr (NewsItem.published PageSample.early)
  /\ Datetime.ymd2ord 2024 2 29 + 1 = Datetime.ymd2ord 2024 3 1
  /\ display_str PageSample.early = inr (Py.lit "29/02 22:30").
Proof.
  split; [reflexivity|]; split; [reflexivity|]; split.
  - exact (proj1 (dated_label_is_brazil_time Sample.item_a1
                    (Sample.at_time 11 0) eq_refl eq_refl)
             ltac:(vm_compute; discriminate)).
  - split; [reflexivity|]; split; [reflexivity|].
    refine (proj1 (proj2 (dated_label_is_brazil_time PageSample.early
                            (Sample.at_time 1 30) eq_refl eq_refl))
              _ 2024 2 29 _ _ _ eq_refl);
      vm_compute; try split; try reflexivity; discriminate.
Defined.

(** The preview of a summary with four tags around its words and a
    comparison sign among them. *)
Lemma preview_is_bounded_witness :
  well_formed PageSample.markup_pieces = true
  /\ NewsItem.summary_rss PageSample.with_markup
     = concat (map markup PageSample.markup_pieces)
  /\ clean_summary PageSample.with_markup
     = Some (firstn 200 (concat (map visible PageSample.markup_pieces))
             ++ Py.lit "...")
  /\ firstn 200 (concat (map visible PageSample.markup_pieces))
     ++ Py.lit "..."
     = Py.lit "one two 1 < 2...".
Proof.
  split; [reflexivity|]; split; [vm_compute; reflexivity|].
  split; [|vm_compute; reflexivity].
  apply (proj2 (proj2 (preview_is_bounded PageSample.with_markup))
           PageSample.markup_pieces);
    [reflexivity|vm_compute; reflexivity|vm_compute; discriminate].
Defined.


(** A paragraph tag is dropped; a comparison sign stays. *)
Lemma tags_are_removed_witness :
  ~ In 60%N (Py.lit "one ")
  /\ ~ In 60%N (Py.lit "b") /\ ~ In 62%N (Py.lit "b")
  /\ remove_tags None
       (Py.lit "one " ++ 60%N :: Py.lit "b" ++ 62%N :: Py.lit "two")
     = Py.lit "one two"
  /\ remove_tags None (Py.lit "1 " ++ 60%N :: Py.lit " 2") = Py.lit "1 < 2".
Proof.
  assert (H1 : ~ In 60%N (Py.lit "one ")) by not_in_list.
  assert (H2 : ~ In 60%N (Py.lit "b")) by not_in_list.
  assert (H3 : ~ In 62%N (Py.lit "b")) by not_in_list.
  split; [exact H1|]; split; [exact H2|]; split; [exact H3|]; split.
  - exact (proj1 (tags_are_removed (Py.lit "one ") (Py.lit "b")
                    (Py.lit "two") H1 H2 H3)
             ltac:(vm_compute; discriminate)).
  - assert (H4 : ~ In 60%N (Py.lit "1 ")) by not_in_list.
    assert (H5 : ~ In 60%N (Py.lit " 2")) by not_in_list.
    assert (H6 : ~ In 62%N (Py.lit " 2")) by not_in_list.
    exact (proj1 (proj2 (tags_are_removed (Py.lit "1 ") (Py.lit " 2") []
                           H4 H5 H6))).
Defined.

(** The first model fails, the second answers: two requests. *)
Lemma summarize_returns_first_answer_witness :
  (100 <= length Sample.long_text)%nat
  /\ models_to_try
     = [Py.lit "gemini-2.5-flash"] ++ Py.lit "gemini-2.0-flash"
       :: [Py.lit "gemini-flash-latest"; Py.lit "gemini-2.5-pro";
           Py.lit "gemini-pro-latest"]
  /\ summarize_with_gemini PageSample.second_answers
       (Some Sample.long_text) Sample.key (mk_genai [] [])
     = (Py.lit "Resumo.",
        mk_genai ([] ++ [Sample.key])
          ([] ++ map (fun x => (x, prompt Sample.long_text))
                   ([Py.lit "gemini-2.5-flash"]
                    ++ [Py.lit "gemini-2.0-flash"]))).
Proof.
  assert (Hl : (100 <= length Sample.long_text)%nat)
    by (apply Nat.leb_le; vm_compute; reflexivity).
  split; [exact Hl|]; split; [reflexivity|].
  refine (summarize_returns_first_answer PageSample.second_answers
            Sample.key (mk_genai [] []) Sample.long_text
            [Py.lit "gemini-2.5-flash"]
            [Py.lit "gemini-flash-latest"; Py.lit "gemini-2.5-pro";
             Py.lit "gemini-pro-latest"]
            (Py.lit "gemini-2.0-flash") (Py.lit "Resumo.")
            (fun _ => Py.lit "503 overloaded") Hl eq_refl _ eq_refl).
  intros x [<-|[]]; reflexivity.
Defined.

(** Two texts of 8001 characters that differ in the last one. *)
Lemma text_beyond_8000_is_ignored_witness :
  (100 <= length PageSample.text_b)%nat
  /\ (100 <= length PageSample.text_c)%nat
  /\ PageSample.text_b <> PageSample.text_c
  /\ Py.slice_to 8000 PageSample.text_b = Py.slice_to 8000 PageSample.text_c
  /\ prompt PageSample.text_b = prompt PageSample.text_c
  /\ summarize_with_gemini Sample.no_quota (Some PageSample.text_b)
       Sample.key (mk_genai [] [])
     = summarize_with_gemini Sample.no_quota (Some PageSample.text_c)
         Sample.key (mk_genai [] []).
Proof.
  assert (Hb : (100 <= length PageSample.text_b)%nat)
    by (apply Nat.leb_le; vm_compute; reflexivity).
  assert (Hc : (100 <= length PageSample.text_c)%nat)
    by (apply Nat.leb_le; vm_compute; reflexivity).
  assert (Hcut : Py.slice_to 8000 PageSample.text_b
                 = Py.slice_to 8000 PageSample.text_c)
    by (vm_compute; reflexivity).
  split; [exact Hb|]; split; [exact Hc|]; split.
  - intros H; apply (f_equal (fun l => last l 0%N)) in H.
    vm_compute in H; discriminate.
  - split; [exact Hcut|].
    exact (text_beyond_8000_is_ignored Sample.no_quota Sample.key
             (mk_genai [] []) PageSample.text_b PageSample.text_c
             Hb Hc Hcut).
Defined.

(** The first of March 2024 is a Friday. *)
Lemma header_date_is_defined_witness :
  1 <= month Sample.noon <= 12
  /\ date_str (fun s => s) Sample.noon
     = inr (Py.lit "Sexta-feira, 1 DE Março")
  /\ 0 <= Calendar.weekday Sample.noon <= 6
  /\ (exists day_name month_name,
        nth_error days_pt (Z.to_nat (Calendar.weekday Sample.noon))
        = Some day_name
        /\ nth_error months_pt (Z.to_nat (month Sample.noon - 1))
           = Some month_name
        /\ date_str (fun s => s) Sample.noon
           = inr (day_name ++ Py.lit ", " ++ decimal (day Sample.noon)
                  ++ Py.lit " DE " ++ month_name)).
Proof.
  assert (Hm : 1 <= month Sample.noon <= 12)
    by (vm_compute; split; discriminate).
  split; [exact Hm|]; split; [vm_compute; reflexivity|].
  destruct (header_date_is_defined (fun s => s) Sample.noon Hm)
    as (Hw & Hnames & _).
  split; [exact Hw|exact Hnames].
Defined.
